(** * pare: command-line client of the Condenser URL shortener

    A shallow embedding of [pare.go]: the three command handlers
    ([shorten], [rm], [meta]), the shared round trip ([doRequest]), the
    configuration layering ([serverDetails]) and the request builder
    ([makeRequest]), together with the parts of Go's [encoding/json],
    [fmt] and [os] they lean on.

    Process state (the two output streams and a log of the calls made to
    the outside) is threaded through a small state-and-exit monad.  The
    command-line flags, which the program keeps in package-level
    variables, and the machine the process runs on (home directory, file
    system, HTTP server) are read-only inputs. *)

From Stdlib Require Import String Ascii ZArith NArith List Bool Lia.
From Stdlib Require Import DecimalString.
From stdpp Require Import base option gmap strings.
Import ListNotations.
Open Scope string_scope.
Open Scope list_scope.

(* ===================================================================== *)
(** ** Bytes and strings *)

(** A Go string is a sequence of bytes; [ascii] plays the byte. *)
Definition byte_val (c : ascii) : N := N_of_ascii c.
Definition byte_of (n : N) : ascii := ascii_of_N n.

Definition str1 (c : ascii) : string := String c EmptyString.

Definition in_range (lo hi n : N) : bool := ((lo <=? n) && (n <=? hi))%N.

Definition hex_digit (n : N) : ascii :=
  if (n <? 10)%N then byte_of (48 + n) else byte_of (87 + n).

(** Four lower-case hex digits, as the JSON encoder writes after [\u]. *)
Definition hex4 (n : N) : string :=
  String (hex_digit (N.land (N.shiftr n 12) 15))
  (String (hex_digit (N.land (N.shiftr n 8) 15))
  (String (hex_digit (N.land (N.shiftr n 4) 15))
  (String (hex_digit (N.land n 15)) EmptyString))).

Definition hex_value (c : ascii) : option N :=
  let b := byte_val c in
  if in_range 48 57 b then Some (b - 48)%N
  else if in_range 97 102 b then Some (b - 87)%N
  else if in_range 65 70 b then Some (b - 55)%N
  else None.

Fixpoint string_rev_onto (s acc : string) : string :=
  match s with
  | EmptyString => acc
  | String c s' => string_rev_onto s' (String c acc)
  end.

(** [contains s sub]: Go's [strings.Contains]. *)
Fixpoint contains (s sub : string) : bool :=
  String.prefix sub s ||
  match s with
  | EmptyString => false
  | String _ s' => contains s' sub
  end.

(** *** UTF-8

    [rune_size bs] is the number of bytes of the well-formed UTF-8
    sequence at the head of [bs], or [0] when the head is ill-formed;
    the accepted second-byte ranges are those of Go's [unicode/utf8]. *)
Definition is_cont (b : N) : bool := in_range 128 191 b.

Definition rune_size (bs : list N) : nat :=
  match bs with
  | [] => 0
  | b0 :: r =>
    if (b0 <? 128)%N then 1
    else if in_range 194 223 b0 then
      match r with b1 :: _ => if is_cont b1 then 2 else 0 | _ => 0 end
    else if in_range 224 239 b0 then
      match r with
      | b1 :: b2 :: _ =>
        let lo := if (b0 =? 224)%N then 160%N else 128%N in
        let hi := if (b0 =? 237)%N then 159%N else 191%N in
        if in_range lo hi b1 && is_cont b2 then 3 else 0
      | _ => 0
      end
    else if in_range 240 244 b0 then
      match r with
      | b1 :: b2 :: b3 :: _ =>
        let lo := if (b0 =? 240)%N then 144%N else 128%N in
        let hi := if (b0 =? 244)%N then 143%N else 191%N in
        if in_range lo hi b1 && is_cont b2 && is_cont b3 then 4 else 0
      | _ => 0
      end
    else 0
  end.

(** The UTF-8 encoding of a code point, as [utf8.EncodeRune] gives it:
    surrogates and values past U+10FFFF become U+FFFD. *)
Definition utf8_encode (r : N) : string :=
  let b n := byte_of n in
  let cont k := b (128 + N.land (N.shiftr r k) 63)%N in
  if (r <? 128)%N then str1 (b r)
  else if (r <? 2048)%N then
    String (b (192 + N.shiftr r 6)%N) (str1 (cont 0%N))
  else if in_range 55296 57343 r || (1114111 <? r)%N then
    String (b 239%N) (String (b 191%N) (str1 (b 189%N)))
  else if (r <? 65536)%N then
    String (b (224 + N.shiftr r 12)%N) (String (cont 6%N) (str1 (cont 0%N)))
  else
    String (b (240 + N.shiftr r 18)%N)
      (String (cont 12%N) (String (cont 6%N) (str1 (cont 0%N)))).

Definition replacement_char : string := utf8_encode 65533.

(** The first four bytes of a string, for the look-ahead of [rune_size]. *)
Fixpoint head_bytes (n : nat) (s : string) : list N :=
  match n, s with
  | S n', String c s' => byte_val c :: head_bytes n' s'
  | _, _ => []
  end.

(* ===================================================================== *)
(** ** JSON values and Go's compact encoding of them *)

#[warnings="-register-all"]
Inductive json : Type :=
| JNull
| JBool (b : bool)
| JNumber (literal : string)
| JString (s : string)
| JEscaped (literal : string) (s : string)
| JArray (items : list json)
| JObject (members : list (string * json)).

(** [JString s] is the string [s].  [JEscaped literal s] is met in
    parsed text only: the string [s] where the text has, between the
    quotes, the bytes [literal] and these are not the bytes of [s],
    because the text uses escapes or is not well-formed UTF-8.  Most
    readers of a string take [s]; [Time.UnmarshalJSON] is handed the
    bytes of the text.

    String encoding of [encoding/json] with HTML escaping on (the
    setting of [json.Marshal]): quote and backslash get a backslash,
    newline, carriage return and tab their short escapes, the other
    control bytes and [<], [>], [&] a six-byte hex escape; ill-formed
    UTF-8 is written as the escape of U+FFFD, and U+2028, U+2029 are
    escaped.  [Copy k] and [Drop k] count the continuation bytes of a
    rune already checked that remain to be copied or skipped. *)
Definition quote : string := str1 (byte_of 34).
Definition backslash : string := str1 (byte_of 92).
Definition esc_u (n : N) : string := backslash +:+ "u" +:+ hex4 n.

Definition escape_ascii (c : ascii) : string :=
  let b := byte_val c in
  if (b =? 34)%N then backslash +:+ quote
  else if (b =? 92)%N then backslash +:+ backslash
  else if (b =? 10)%N then backslash +:+ "n"
  else if (b =? 13)%N then backslash +:+ "r"
  else if (b =? 9)%N then backslash +:+ "t"
  else if (b <? 32)%N || (b =? 60)%N || (b =? 62)%N || (b =? 38)%N
  then esc_u b
  else str1 c.

(** U+2028 and U+2029 are [E2 80 A8] and [E2 80 A9]. *)
Definition line_separator (bs : list N) : option N :=
  match bs with
  | b0 :: b1 :: b2 :: _ =>
    if (b0 =? 226)%N && (b1 =? 128)%N
    then if (b2 =? 168)%N then Some 8232%N
         else if (b2 =? 169)%N then Some 8233%N else None
    else None
  | _ => None
  end.

Inductive enc_mode := Fresh | Copy (k : nat) | Drop (k : nat).

Fixpoint encode_chars (m : enc_mode) (s : string) : string :=
  match s with
  | EmptyString => EmptyString
  | String c rest =>
    match m with
    | Copy (S k) => String c (encode_chars (Copy k) rest)
    | Drop (S k) => encode_chars (Drop k) rest
    | _ =>
      if (byte_val c <? 128)%N then escape_ascii c +:+ encode_chars Fresh rest
      else
        let bs := head_bytes 4 s in
        match rune_size bs with
        | 0 => esc_u 65533 +:+ encode_chars Fresh rest
        | S k =>
          match line_separator bs with
          | Some r => esc_u r +:+ encode_chars (Drop k) rest
          | None => String c (encode_chars (Copy k) rest)
          end
        end
    end
  end.

Definition encode_string (s : string) : string :=
  quote +:+ encode_chars Fresh s +:+ quote.

Definition sep (first : bool) : string :=
  if first then EmptyString else ",".

(** [render v] is the text [json.Marshal] writes for a value of shape
    [v]: no white space, struct fields in declaration order. *)
Fixpoint render (v : json) : string :=
  match v with
  | JNull => "null"
  | JBool true => "true"
  | JBool false => "false"
  | JNumber n => n
  | JString s => encode_string s
  | JEscaped literal _ => quote +:+ literal +:+ quote
  | JArray items =>
    "[" +:+
    (fix go (first : bool) (l : list json) : string :=
       match l with
       | [] => EmptyString
       | x :: l' => sep first +:+ render x +:+ go false l'
       end) true items +:+ "]"
  | JObject members =>
    "{" +:+
    (fix go (first : bool) (l : list (string * json)) : string :=
       match l with
       | [] => EmptyString
       | (k, x) :: l' =>
         sep first +:+ encode_string k +:+ ":" +:+ render x +:+ go false l'
       end) true members +:+ "}"
  end.

Definition newline : string := str1 (byte_of 10).

Fixpoint spaces (depth : nat) : string :=
  match depth with
  | 0 => EmptyString
  | S d => "  " +:+ spaces d
  end.

(** [render_indent d v]: the layout of [json.MarshalIndent] with an
    empty prefix and a two-space indent, for a value met at depth [d]. *)
Fixpoint render_indent (d : nat) (v : json) : string :=
  match v with
  | JArray [] => "[]"
  | JObject [] => "{}"
  | JArray items =>
    "[" +:+
    (fix go (first : bool) (l : list json) : string :=
       match l with
       | [] => EmptyString
       | x :: l' =>
         sep first +:+ newline +:+ spaces (S d) +:+ render_indent (S d) x
         +:+ go false l'
       end) true items +:+ newline +:+ spaces d +:+ "]"
  | JObject members =>
    "{" +:+
    (fix go (first : bool) (l : list (string * json)) : string :=
       match l with
       | [] => EmptyString
       | (k, x) :: l' =>
         sep first +:+ newline +:+ spaces (S d) +:+ encode_string k +:+ ": "
         +:+ render_indent (S d) x +:+ go false l'
       end) true members +:+ newline +:+ spaces d +:+ "}"
  | _ => render v
  end.

(* ===================================================================== *)
(** ** Reading JSON text

    The decoder of [encoding/json] in two passes, both by structural
    recursion on their input: a scanner from bytes to tokens and a stack
    machine from tokens to a value. *)

Inductive token :=
| TLBrace | TRBrace | TLBrack | TRBrack | TColon | TComma
| TString (literal : string) (s : string) | TNumber (literal : string)
| TTrue | TFalse | TNull.

(** What a string literal is made of before unquoting: a byte, or the
    16-bit unit of a [\u] escape. *)
Inductive str_item := IByte (c : ascii) | IUnit (u : N).

Fixpoint head_items (n : nat) (l : list str_item) : list N :=
  match n, l with
  | S n', IByte c :: l' => byte_val c :: head_items n' l'
  | _, _ => []
  end.

Definition is_high_surrogate (u : N) : bool := in_range 55296 56319 u.
Definition is_low_surrogate (u : N) : bool := in_range 56320 57343 u.

Definition join_surrogates (hi lo : N) : N :=
  (65536 + N.shiftl (hi - 55296) 10 + (lo - 56320))%N.

(** [unquote k l]: the bytes of the decoded string.  A surrogate pair
    of escapes is one code point, a lone surrogate and every ill-formed
    byte become U+FFFD; [k] counts continuation bytes still to copy. *)
Fixpoint unquote (k : nat) (l : list str_item) : string :=
  match l with
  | [] => EmptyString
  | IUnit u :: rest =>
    if is_high_surrogate u then
      match rest with
      | IUnit u2 :: rest' =>
        if is_low_surrogate u2
        then utf8_encode (join_surrogates u u2) +:+ unquote 0 rest'
        else replacement_char +:+ unquote 0 rest
      | _ => replacement_char +:+ unquote 0 rest
      end
    else utf8_encode u +:+ unquote 0 rest
  | IByte c :: rest =>
    match k with
    | S k' => String c (unquote k' rest)
    | 0 =>
      match rune_size (head_items 4 l) with
      | 0 => replacement_char +:+ unquote 0 rest
      | S k' => String c (unquote k' rest)
      end
    end
  end.

Inductive num_state :=
| NMinus | NZero | NInt | NDot | NFrac | NExpMark | NExpSign | NExp.

Definition num_accepting (st : num_state) : bool :=
  match st with
  | NZero | NInt | NFrac | NExp => true
  | _ => false
  end.

Definition is_digit (b : N) : bool := in_range 48 57 b.

(** The number grammar: an optional minus; a zero or a run of digits
    that does not start with zero; an optional fraction (a dot and at
    least one digit); an optional exponent ([e] or [E], an optional
    sign, at least one digit). *)
Definition num_step (st : num_state) (b : N) : option num_state :=
  let e := (b =? 101)%N || (b =? 69)%N in
  match st with
  | NMinus =>
    if (b =? 48)%N then Some NZero else if is_digit b then Some NInt else None
  | NZero =>
    if (b =? 46)%N then Some NDot else if e then Some NExpMark else None
  | NInt =>
    if is_digit b then Some NInt
    else if (b =? 46)%N then Some NDot else if e then Some NExpMark else None
  | NDot => if is_digit b then Some NFrac else None
  | NFrac =>
    if is_digit b then Some NFrac else if e then Some NExpMark else None
  | NExpMark =>
    if (b =? 43)%N || (b =? 45)%N then Some NExpSign
    else if is_digit b then Some NExp else None
  | NExpSign => if is_digit b then Some NExp else None
  | NExp => if is_digit b then Some NExp else None
  end.

(** Inside a string the scanner keeps the bytes of the literal as they
    stand in the text ([lit], latest first) beside the items they
    denote. *)
Inductive lex_state :=
| LIdle
| LStr (lit : string) (acc : list str_item)
| LEsc (lit : string) (acc : list str_item)
| LHex (lit : string) (acc : list str_item) (todo : nat) (v : N)
| LNum (acc : string) (st : num_state)
| LLit (expect : string) (t : token).

Definition is_space (b : N) : bool :=
  (b =? 32)%N || (b =? 9)%N || (b =? 10)%N || (b =? 13)%N.

Definition lex_idle (c : ascii) : option (list token * lex_state) :=
  let b := byte_val c in
  if is_space b then Some ([], LIdle)
  else if (b =? 123)%N then Some ([TLBrace], LIdle)
  else if (b =? 125)%N then Some ([TRBrace], LIdle)
  else if (b =? 91)%N then Some ([TLBrack], LIdle)
  else if (b =? 93)%N then Some ([TRBrack], LIdle)
  else if (b =? 58)%N then Some ([TColon], LIdle)
  else if (b =? 44)%N then Some ([TComma], LIdle)
  else if (b =? 34)%N then Some ([], LStr EmptyString [])
  else if (b =? 45)%N then Some ([], LNum (str1 c) NMinus)
  else if (b =? 48)%N then Some ([], LNum (str1 c) NZero)
  else if is_digit b then Some ([], LNum (str1 c) NInt)
  else if (b =? 116)%N then Some ([], LLit "rue" TTrue)
  else if (b =? 102)%N then Some ([], LLit "alse" TFalse)
  else if (b =? 110)%N then Some ([], LLit "ull" TNull)
  else None.

Definition simple_escape (b : N) : option N :=
  if (b =? 34)%N || (b =? 92)%N || (b =? 47)%N then Some b
  else if (b =? 98)%N then Some 8%N
  else if (b =? 102)%N then Some 12%N
  else if (b =? 110)%N then Some 10%N
  else if (b =? 114)%N then Some 13%N
  else if (b =? 116)%N then Some 9%N
  else None.

Definition lex_step (st : lex_state) (c : ascii)
  : option (list token * lex_state) :=
  let b := byte_val c in
  match st with
  | LIdle => lex_idle c
  | LStr lit acc =>
    if (b =? 34)%N
    then Some ([TString (string_rev_onto lit EmptyString)
                  (unquote 0 (rev acc))], LIdle)
    else if (b =? 92)%N then Some ([], LEsc (String c lit) acc)
    else if (b <? 32)%N then None
    else Some ([], LStr (String c lit) (IByte c :: acc))
  | LEsc lit acc =>
    if (b =? 117)%N then Some ([], LHex (String c lit) acc 4 0%N)
    else match simple_escape b with
         | Some x => Some ([], LStr (String c lit) (IByte (byte_of x) :: acc))
         | None => None
         end
  | LHex lit acc todo v =>
    match hex_value c with
    | Some d =>
      let v' := (16 * v + d)%N in
      match todo with
      | S (S n) => Some ([], LHex (String c lit) acc (S n) v')
      | _ => Some ([], LStr (String c lit) (IUnit v' :: acc))
      end
    | None => None
    end
  | LNum acc nst =>
    match num_step nst b with
    | Some nst' => Some ([], LNum (String c acc) nst')
    | None =>
      if num_accepting nst then
        match lex_idle c with
        | Some (ts, st') =>
          Some (TNumber (string_rev_onto acc EmptyString) :: ts, st')
        | None => None
        end
      else None
    end
  | LLit expect t =>
    match expect with
    | String e EmptyString =>
      if Ascii.eqb c e then Some ([t], LIdle) else None
    | String e rest =>
      if Ascii.eqb c e then Some ([], LLit rest t) else None
    | EmptyString => None
    end
  end.

Definition lex_finish (st : lex_state) : option (list token) :=
  match st with
  | LIdle => Some []
  | LNum acc nst =>
    if num_accepting nst
    then Some [TNumber (string_rev_onto acc EmptyString)] else None
  | _ => None
  end.

Fixpoint lex (st : lex_state) (s : string) : option (list token) :=
  match s with
  | EmptyString => lex_finish st
  | String c s' =>
    match lex_step st c with
    | Some (ts, st') =>
      match lex st' s' with
      | Some more => Some (ts ++ more)
      | None => None
      end
    | None => None
    end
  end.

(** A container under construction: an array with the items read so far
    (latest first), or an object with its members so far and the key
    whose value is being read. *)
Inductive frame :=
| FArray (done : list json)
| FObject (done : list (string * json)) (key : string).

Inductive parse_state :=
| PValue (st : list frame)
| PArrayFirst (st : list frame)
| PArrayNext (done : list json) (st : list frame)
| PObjectFirst (st : list frame)
| PObjectKey (done : list (string * json)) (st : list frame)
| PObjectColon (done : list (string * json)) (key : string) (st : list frame)
| PObjectNext (done : list (string * json)) (st : list frame)
| PDone (v : json).

(** A value is complete: hand it to the container on top of the stack. *)
Definition reduce (v : json) (st : list frame) : parse_state :=
  match st with
  | [] => PDone v
  | FArray done :: st' => PArrayNext (v :: done) st'
  | FObject done key :: st' => PObjectNext ((key, v) :: done) st'
  end.

(** The value of a string literal: [JString] when the bytes of the
    literal are the bytes of the string. *)
Definition string_node (literal s : string) : json :=
  if String.eqb literal s then JString s else JEscaped literal s.

Definition parse_value (t : token) (st : list frame) : option parse_state :=
  match t with
  | TString literal s => Some (reduce (string_node literal s) st)
  | TNumber n => Some (reduce (JNumber n) st)
  | TTrue => Some (reduce (JBool true) st)
  | TFalse => Some (reduce (JBool false) st)
  | TNull => Some (reduce JNull st)
  | TLBrack => Some (PArrayFirst st)
  | TLBrace => Some (PObjectFirst st)
  | _ => None
  end.

Definition parse_step (ps : parse_state) (t : token) : option parse_state :=
  match ps with
  | PValue st => parse_value t st
  | PArrayFirst st =>
    match t with
    | TRBrack => Some (reduce (JArray []) st)
    | _ => parse_value t (FArray [] :: st)
    end
  | PArrayNext done st =>
    match t with
    | TComma => Some (PValue (FArray done :: st))
    | TRBrack => Some (reduce (JArray (rev done)) st)
    | _ => None
    end
  | PObjectFirst st =>
    match t with
    | TRBrace => Some (reduce (JObject []) st)
    | TString _ k => Some (PObjectColon [] k st)
    | _ => None
    end
  | PObjectKey done st =>
    match t with
    | TString _ k => Some (PObjectColon done k st)
    | _ => None
    end
  | PObjectColon done k st =>
    match t with
    | TColon => Some (PValue (FObject done k :: st))
    | _ => None
    end
  | PObjectNext done st =>
    match t with
    | TComma => Some (PObjectKey done st)
    | TRBrace => Some (reduce (JObject (rev done)) st)
    | _ => None
    end
  | PDone _ => None
  end.

Fixpoint parse_tokens (ps : parse_state) (ts : list token) : option json :=
  match ts with
  | [] => match ps with PDone v => Some v | _ => None end
  | t :: ts' =>
    match parse_step ps t with
    | Some ps' => parse_tokens ps' ts'
    | None => None
    end
  end.

(** [json_parse data] is the value a well-formed JSON text denotes, and
    [None] where [encoding/json] reports a syntax error. *)
Definition json_parse (data : string) : option json :=
  match lex LIdle data with
  | Some ts => parse_tokens (PValue []) ts
  | None => None
  end.

(* ===================================================================== *)
(** ** Go values of the program *)

(** A Go [error]: its message, and what [os.IsNotExist] says of it. *)
Record error := { Error : string; IsNotExist : bool }.

Definition errors_New (msg : string) : error :=
  {| Error := msg; IsNotExist := false |}.

(** A parsed [*url.URL]; the program only ever asks for its [String()]. *)
Record URL := { URL_String : string }.

Definition APIKey := string.

Record Config := { Config_APIKey : APIKey; Config_Server : string }.

Record ShortenRequest := {
  ShortenRequest_Url : string;
  ShortenRequest_Shortcode : string;
  ShortenRequest_Meta : string }.

Record ShortenResponse := { ShortenResponse_ShortUrl : string }.

Record DeleteRequest := { DeleteRequest_Code : string }.

Record DeleteResponse := {
  DeleteResponse_Code : string;
  DeleteResponse_Status : string }.

Inductive Empty := Build_Empty.

Definition ShortenEndpoint : string := "/api/shorten".
Definition DeleteEndpoint : string := "/api/delete".
Definition MetaEndpoint : string := "/api/meta/".

Definition MethodPost : string := "POST".
Definition MethodGet : string := "GET".

(** [*http.Request] as [makeRequest] asks for it: the method and the
    URL string ([fullUrl]) it hands to [http.NewRequest], the header and
    the [Close] mark it sets, and the bytes of the body reader.
    [http.NewRequest] parses the URL string, and the URL the request
    holds is the parsed one: it need not print as the string it came
    from (a space in the path goes out as [%20], what follows a [?] is
    the query, what follows a [#] is not sent). *)
Record Request := {
  Request_Method : string;
  Request_fullUrl : string;
  Request_Header : gmap string (list string);
  Request_Close : bool;
  Request_Body : string }.

(** [*http.Response]: the status code, and what reading the body to its
    end gives. *)
Record Response := {
  Response_StatusCode : Z;
  Response_Body : error + string }.

(** The command-line flags and arguments after parsing, which the
    program keeps in package-level variables.  [--server] is a pointer
    that stays [nil] when the flag is not given; the URL argument of
    [shorten] is required. *)
Record Flags := {
  debugFlag : bool;
  serverFlag : option URL;
  apiKeyFlag : string;
  shortcodeArg : string;
  metaArg : string;
  shortenUrlArg : URL;
  rmShortcodeArg : string;
  failNoexistArg : bool;
  metaJsonOut : bool;
  metaCodeArg : string }.

Inductive Command := shortenCommand | rmCommand | metaCommand.

(** The machine the process runs on. *)
Record Env := {
  (** the base name of [os.Args[0]], under which [kingpin] reports *)
  program_name : string;
  (** [user.Current()]: the home directory of the current user *)
  user_Current : error + string;
  (** [ioutil.ReadFile] *)
  ReadFile : string -> error + string;
  (** [http.DefaultClient.Do] *)
  client_Do : Request -> error + Response }.

(** Operands of the [fmt] verbs. *)
#[warnings="-register-all"]
Inductive GoValue :=
| VString (s : string)
| VInt (n : Z)
| VError (e : error)
| VURL (u : URL)
| VConfig (c : Config)
| VRequest (r : Request)
| VSlice (l : list GoValue).

(** The library behaviour the development does not compute: wall-clock
    time and its layouts, Unicode case tables, path cleaning, the
    validation of [http.NewRequest], the wording of the syntax errors
    of [encoding/json], and how [fmt] lays out operands other than
    strings, integers and errors. *)
Class GoRuntime := {
  Time : Type;
  Time_zero : Time;
  (** [Time.UnmarshalJSON] on a JSON string, given the bytes between
      the quotes as they stand in the text: it reads them as RFC 3339
      and does not unescape them *)
  Time_parse : string -> error + Time;
  (** the error of [Time.UnmarshalJSON] for a value that is neither a
      string nor [null] *)
  Time_refused : json -> error;
  (** [Time.MarshalJSON], without the quotes *)
  Time_MarshalJSON : Time -> error + string;
  (** [t.Format(time.UnixDate)] *)
  Time_UnixDate : Time -> string;
  strings_ToUpper : string -> string;
  filepath_Join : string -> string -> string;
  (** the error of [http.NewRequest] for a method and a URL, if any *)
  NewRequest_error : string -> string -> option error;
  (** the [*json.SyntaxError] of [encoding/json] for a text that is not
      well-formed JSON: its message tells the byte the scanner stopped
      at and what it was looking for *)
  json_SyntaxError : string -> error;
  format_operand : string -> GoValue -> string;
  format_extra : list GoValue -> string }.

(* ===================================================================== *)
(** ** The process: output streams, calls to the outside, exit *)

(** The calls the statements speak of, logged in order: reads of
    files, deserializations of JSON text, exchanges with the server and
    reads of a response body. *)
Inductive event :=
| EvReadFile (path : string)
| EvUnmarshal (data : string)
| EvDo (req : Request)
| EvReadAll.

Record World := {
  stdout : string;
  stderr : string;
  calls : list event }.

Definition World_init : World :=
  {| stdout := EmptyString; stderr := EmptyString; calls := [] |}.

(** A step of the program either goes on with a value or ends the
    process with an exit status. *)
Inductive outcome (A : Type) :=
| Ret (a : A)
| Exit (status : Z).
Arguments Ret {A} a.
Arguments Exit {A} status.

Definition M (A : Type) : Type := World -> outcome A * World.

Definition ret {A} (a : A) : M A := fun w => (Ret a, w).

Definition bind {A B} (m : M A) (k : A -> M B) : M B :=
  fun w =>
    match m w with
    | (Ret a, w') => k a w'
    | (Exit st, w') => (Exit st, w')
    end.

Declare Scope prog_scope.
Delimit Scope prog_scope with prog.
Bind Scope prog_scope with M.
Notation "x <- m ;; k" := (bind m (fun x => k))
  (at level 100, m at next level, k at level 200, right associativity)
  : prog_scope.
Notation "m ;; k" := (bind m (fun _ => k))
  (at level 100, k at level 200, right associativity) : prog_scope.
Open Scope prog_scope.

(** [os.Exit]: the status the parent process sees on a POSIX system is
    the low byte of the code. *)
Definition os_Exit {A} (code : Z) : M A :=
  fun w => (Exit (Z.land code 255), w).

Definition write_stdout (s : string) : M unit :=
  fun w => (Ret tt, {| stdout := stdout w +:+ s;
                       stderr := stderr w;
                       calls := calls w |}).

Definition write_stderr (s : string) : M unit :=
  fun w => (Ret tt, {| stdout := stdout w;
                       stderr := stderr w +:+ s;
                       calls := calls w |}).

Definition log (e : event) : M unit :=
  fun w => (Ret tt, {| stdout := stdout w;
                       stderr := stderr w;
                       calls := calls w ++ [e] |}).

(** The exit status of a process whose [main] is [m]: zero when [main]
    returns. *)
Definition exit_status {A} (r : outcome A * World) : Z :=
  match fst r with
  | Ret _ => 0
  | Exit st => st
  end.

(* ===================================================================== *)
(** ** [fmt] *)

Definition decimal (n : Z) : string := NilZero.string_of_int (Z.to_int n).

Definition verb_is (verb : string) (c : string) : bool := String.eqb verb c.

Section Fmt.
Context {RT : GoRuntime}.

(** Strings and errors under [%s] and [%v], integers under [%v] and
    [%d] are laid out here; the rest is the runtime's. *)
Definition fmt_operand (verb : string) (v : GoValue) : string :=
  match v with
  | VString s =>
    if verb_is verb "s" || verb_is verb "v" then s
    else format_operand verb v
  | VError e =>
    if verb_is verb "s" || verb_is verb "v" then Error e
    else format_operand verb v
  | VInt n =>
    if verb_is verb "v" || verb_is verb "d" then decimal n
    else format_operand verb v
  | _ => format_operand verb v
  end.

Definition fmt_extra (args : list GoValue) : string :=
  match args with
  | [] => EmptyString
  | _ => format_extra args
  end.

Definition is_flag (c : ascii) : bool :=
  (byte_val c =? 43)%N || (byte_val c =? 35)%N.

Definition is_percent (c : ascii) : bool := (byte_val c =? 37)%N.

(** [fmt.Sprintf] for formats whose verbs are one letter with at most
    one of the flags [+] and [#]. *)
Fixpoint Sprintf (f : string) (args : list GoValue) : string :=
  match f with
  | EmptyString => fmt_extra args
  | String c f1 =>
    if negb (is_percent c) then String c (Sprintf f1 args)
    else
      match f1 with
      | EmptyString => "%!(NOVERB)" +:+ fmt_extra args
      | String v f2 =>
        if is_percent v then String v (Sprintf f2 args)
        else if is_flag v then
          match f2 with
          | EmptyString => "%!(NOVERB)" +:+ fmt_extra args
          | String v2 f3 =>
            match args with
            | [] => "%!" +:+ str1 v2 +:+ "(MISSING)" +:+ Sprintf f3 []
            | a :: args' =>
              fmt_operand (String v (str1 v2)) a +:+ Sprintf f3 args'
            end
          end
        else
          match args with
          | [] => "%!" +:+ str1 v +:+ "(MISSING)" +:+ Sprintf f2 []
          | a :: args' => fmt_operand (str1 v) a +:+ Sprintf f2 args'
          end
      end
  end.

Definition Printf (f : string) (args : list GoValue) : M unit :=
  write_stdout (Sprintf f args).

Definition Println (s : string) : M unit :=
  write_stdout (s +:+ newline).

Definition Fprintf_Stderr (f : string) (args : list GoValue) : M unit :=
  write_stderr (Sprintf f args).
End Fmt.

(* ===================================================================== *)
(** ** [encoding/json] on the structures of the program *)

(** Where the decoder stands when a value does not fit the Go type it
    is read into: the name of the struct whose field is being read, and
    the JSON names of the fields entered since the root, outermost
    first.  At the root there is no field. *)
Definition context : Type := (string * list string)%type.

Definition at_root : context := (EmptyString, []).

Fixpoint dotted (path : list string) : string :=
  match path with
  | [] => EmptyString
  | [name] => name
  | name :: rest => name +:+ "." +:+ dotted rest
  end.

(** The message of [*json.UnmarshalTypeError]: it names the kind of
    the JSON value, the struct field when there is one, and the Go
    type. *)
Definition UnmarshalTypeError (value : string) (c : context) (type : string)
  : error :=
  errors_New
    ("json: cannot unmarshal " +:+ value
     +:+ match snd c with
         | [] => " into Go value of type "
         | path =>
           " into Go struct field " +:+ fst c +:+ "." +:+ dotted path
           +:+ " of type "
         end
     +:+ type).

Definition json_kind (v : json) : string :=
  match v with
  | JNull => "null"
  | JBool _ => "bool"
  | JNumber _ => "number"
  | JString _ => "string"
  | JEscaped _ _ => "string"
  | JArray _ => "array"
  | JObject _ => "object"
  end.

(** Field names are matched without regard to case: letters of ASCII,
    and the two characters outside ASCII that fold to one, the Kelvin
    sign [E2 84 AA] and the long s [C5 BF]. *)
Fixpoint fold_name (s : string) : string :=
  match s with
  | EmptyString => EmptyString
  | String c rest =>
    let b := byte_val c in
    if in_range 97 122 b then String (byte_of (b - 32)) (fold_name rest)
    else
      match rest with
      | String c1 rest1 =>
        if (b =? 197)%N && (byte_val c1 =? 191)%N
        then String (byte_of 83) (fold_name rest1)
        else
          match rest1 with
          | String c2 rest2 =>
            if (b =? 226)%N && (byte_val c1 =? 132)%N
               && (byte_val c2 =? 170)%N
            then String (byte_of 75) (fold_name rest2)
            else String c (fold_name rest)
          | EmptyString => String c (fold_name rest)
          end
      | EmptyString => String c (fold_name rest)
      end
  end.

Record field (T : Type) := {
  field_name : string;
  field_set : context -> json -> T -> error + T }.
Arguments field_name {T} f.
Arguments field_set {T} f.

Fixpoint find_by {T} (eq : string -> string -> bool)
    (fs : list (field T)) (key : string) : option (field T) :=
  match fs with
  | [] => None
  | f :: fs' => if eq (field_name f) key then Some f else find_by eq fs' key
  end.

(** An exact match of the key wins over a match up to case. *)
Definition find_field {T} (fs : list (field T)) (key : string)
  : option (field T) :=
  match find_by String.eqb fs key with
  | Some f => Some f
  | None =>
    find_by (fun n k => String.eqb (fold_name n) (fold_name k)) fs key
  end.

(** The members of an object are assigned in the order of the text, so
    of two members for one field the later stays; keys that name no
    field are skipped. *)
Fixpoint decode_members {T} (struct : string) (path : list string)
    (fs : list (field T)) (ms : list (string * json)) (t : T) : error + T :=
  match ms with
  | [] => inr t
  | (k, v) :: ms' =>
    match find_field fs k with
    | None => decode_members struct path fs ms' t
    | Some f =>
      match field_set f (struct, path ++ [field_name f]) v t with
      | inl e => inl e
      | inr t' => decode_members struct path fs ms' t'
      end
    end
  end.

(** Decoding into the struct [main.name], met at [c]: [null] leaves it
    as it is, an object assigns its members, anything else is a type
    error. *)
Definition decode_struct {T} (name : string) (fs : list (field T))
    (c : context) (v : json) (t : T) : error + T :=
  match v with
  | JNull => inr t
  | JObject ms => decode_members name (snd c) fs ms t
  | _ => inl (UnmarshalTypeError (json_kind v) c ("main." +:+ name))
  end.

(** Decoding into a string of Go type [type]: [null] leaves it as it
    is. *)
Definition decode_string (c : context) (type : string) (v : json)
    (old : string) : error + string :=
  match v with
  | JNull => inr old
  | JString s => inr s
  | JEscaped _ s => inr s
  | _ => inl (UnmarshalTypeError (json_kind v) c type)
  end.

Definition string_field {T} (name type : string) (get : T -> string)
    (set : string -> T -> T) : field T :=
  {| field_name := name;
     field_set := fun c v t =>
       match decode_string c type v (get t) with
       | inl e => inl e
       | inr s => inr (set s t)
       end |}.

Class Marshaler (T : Type) := MarshalJSON : T -> error + json.
Class Unmarshaler (T : Type) := UnmarshalJSON : json -> T -> error + T.

(** [json.Marshal] *)
Definition json_Marshal {T} `{Marshaler T} (v : T) : error + string :=
  match MarshalJSON v with
  | inl e => inl e
  | inr j => inr (render j)
  end.

(** [json.MarshalIndent] with an empty prefix and a two-space indent *)
Definition json_MarshalIndent {T} `{Marshaler T} (v : T) : error + string :=
  match MarshalJSON v with
  | inl e => inl e
  | inr j => inr (render_indent 0 j)
  end.

(** [json.Unmarshal(data, &v)]: the text is checked as a whole before
    anything is assigned. *)
Definition json_decode {RT : GoRuntime} {T} `{Unmarshaler T}
    (data : string) (v : T) : error + T :=
  match json_parse data with
  | None => inl (json_SyntaxError data)
  | Some j => UnmarshalJSON j v
  end.

Definition json_Unmarshal {RT : GoRuntime} {T} `{Unmarshaler T}
    (data : string) (v : T) : M (error + T) :=
  log (EvUnmarshal data) ;; ret (json_decode data v).

(** A field with [omitempty] is left out when its string is empty. *)
Definition omitempty (name : string) (s : string) : list (string * json) :=
  match s with
  | EmptyString => []
  | _ => [(name, JString s)]
  end.

#[export] Instance ShortenRequest_Marshaler : Marshaler ShortenRequest :=
  fun r => inr (JObject (
    [("url", JString (ShortenRequest_Url r))]
    ++ omitempty "code" (ShortenRequest_Shortcode r)
    ++ omitempty "meta" (ShortenRequest_Meta r))).

#[export] Instance DeleteRequest_Marshaler : Marshaler DeleteRequest :=
  fun r => inr (JObject [("code", JString (DeleteRequest_Code r))]).

#[export] Instance Empty_Marshaler : Marshaler Empty :=
  fun _ => inr (JObject []).

#[export] Instance ShortenRequest_Unmarshaler : Unmarshaler ShortenRequest :=
  decode_struct "ShortenRequest"
    [ string_field "url" "string" ShortenRequest_Url
        (fun s r => {| ShortenRequest_Url := s;
                       ShortenRequest_Shortcode := ShortenRequest_Shortcode r;
                       ShortenRequest_Meta := ShortenRequest_Meta r |});
      string_field "code" "string" ShortenRequest_Shortcode
        (fun s r => {| ShortenRequest_Url := ShortenRequest_Url r;
                       ShortenRequest_Shortcode := s;
                       ShortenRequest_Meta := ShortenRequest_Meta r |});
      string_field "meta" "string" ShortenRequest_Meta
        (fun s r => {| ShortenRequest_Url := ShortenRequest_Url r;
                       ShortenRequest_Shortcode := ShortenRequest_Shortcode r;
                       ShortenRequest_Meta := s |}) ]
    at_root.

#[export] Instance Config_Unmarshaler : Unmarshaler Config :=
  decode_struct "Config"
    [ string_field "APIKey" "main.APIKey" Config_APIKey
        (fun s c => {| Config_APIKey := s; Config_Server := Config_Server c |});
      string_field "Server" "string" Config_Server
        (fun s c => {| Config_APIKey := Config_APIKey c; Config_Server := s |}) ]
    at_root.

#[export] Instance ShortenResponse_Unmarshaler : Unmarshaler ShortenResponse :=
  decode_struct "ShortenResponse"
    [ string_field "short_url" "string" ShortenResponse_ShortUrl
        (fun s _ => {| ShortenResponse_ShortUrl := s |}) ]
    at_root.

#[export] Instance DeleteResponse_Unmarshaler : Unmarshaler DeleteResponse :=
  decode_struct "DeleteResponse"
    [ string_field "code" "string" DeleteResponse_Code
        (fun s r => {| DeleteResponse_Code := s;
                       DeleteResponse_Status := DeleteResponse_Status r |});
      string_field "status" "string" DeleteResponse_Status
        (fun s r => {| DeleteResponse_Code := DeleteResponse_Code r;
                       DeleteResponse_Status := s |}) ]
    at_root.

(* ===================================================================== *)
(** ** The metadata structures, which carry a time *)

Section Metadata.
Context {RT : GoRuntime}.

Record LinkMetadata := {
  LinkMetadata_Owner : string;
  LinkMetadata_Time : Time;
  LinkMetadata_UserMeta : string }.

Record MetaResponse := {
  MetaResponse_FullUrl : string;
  MetaResponse_Meta : LinkMetadata }.

Definition LinkMetadata_zero : LinkMetadata :=
  {| LinkMetadata_Owner := EmptyString;
     LinkMetadata_Time := Time_zero;
     LinkMetadata_UserMeta := EmptyString |}.

Definition MetaResponse_zero : MetaResponse :=
  {| MetaResponse_FullUrl := EmptyString;
     MetaResponse_Meta := LinkMetadata_zero |}.

(** [Time.UnmarshalJSON] is handed the bytes of the value as they
    stand in the text: [null] is ignored; of a string, the bytes
    between the quotes are read as RFC 3339 without unescaping, so a
    time written with escapes is read with its backslashes; anything
    else is refused. *)
Definition decode_Time (v : json) (old : Time) : error + Time :=
  match v with
  | JNull => inr old
  | JString s => Time_parse s
  | JEscaped literal _ => Time_parse literal
  | _ => inl (Time_refused v)
  end.

Definition LinkMetadata_fields : list (field LinkMetadata) :=
  [ string_field "owner" "string" LinkMetadata_Owner
      (fun s m => {| LinkMetadata_Owner := s;
                     LinkMetadata_Time := LinkMetadata_Time m;
                     LinkMetadata_UserMeta := LinkMetadata_UserMeta m |});
    {| field_name := "time";
       field_set := fun _ v m =>
         match decode_Time v (LinkMetadata_Time m) with
         | inl e => inl e
         | inr t => inr {| LinkMetadata_Owner := LinkMetadata_Owner m;
                           LinkMetadata_Time := t;
                           LinkMetadata_UserMeta := LinkMetadata_UserMeta m |}
         end |};
    string_field "user_meta" "string" LinkMetadata_UserMeta
      (fun s m => {| LinkMetadata_Owner := LinkMetadata_Owner m;
                     LinkMetadata_Time := LinkMetadata_Time m;
                     LinkMetadata_UserMeta := s |}) ].

#[export] Instance LinkMetadata_Unmarshaler : Unmarshaler LinkMetadata :=
  decode_struct "LinkMetadata" LinkMetadata_fields at_root.

#[export] Instance MetaResponse_Unmarshaler : Unmarshaler MetaResponse :=
  decode_struct "MetaResponse"
    [ string_field "full_url" "string" MetaResponse_FullUrl
        (fun s r => {| MetaResponse_FullUrl := s;
                       MetaResponse_Meta := MetaResponse_Meta r |});
      {| field_name := "meta";
         field_set := fun c v r =>
           match decode_struct "LinkMetadata" LinkMetadata_fields c v
                   (MetaResponse_Meta r) with
           | inl e => inl e
           | inr m => inr {| MetaResponse_FullUrl := MetaResponse_FullUrl r;
                             MetaResponse_Meta := m |}
           end |} ]
    at_root.

#[export] Instance LinkMetadata_Marshaler : Marshaler LinkMetadata :=
  fun m =>
    match Time_MarshalJSON (LinkMetadata_Time m) with
    | inl e => inl e
    | inr t =>
      inr (JObject ([("owner", JString (LinkMetadata_Owner m));
                     ("time", JString t)]
                    ++ omitempty "user_meta" (LinkMetadata_UserMeta m)))
    end.

#[export] Instance MetaResponse_Marshaler : Marshaler MetaResponse :=
  fun r =>
    match MarshalJSON (MetaResponse_Meta r) with
    | inl e => inl e
    | inr m =>
      inr (JObject [("full_url", JString (MetaResponse_FullUrl r));
                    ("meta", m)])
    end.
End Metadata.

(* ===================================================================== *)
(** ** The program *)

Section Pare.
Context {RT : GoRuntime}.
Variable flags : Flags.
Variable env : Env.

Definition errPrintf (fmat : string) (objs : list GoValue) : M unit :=
  Fprintf_Stderr (fmat +:+ newline) objs.

(** [debug] hands its variadic operands to [errPrintf] as one slice. *)
Definition debug (fmat : string) (objs : list GoValue) : M unit :=
  if debugFlag flags then errPrintf fmat [VSlice objs] else ret tt.

(** *** [kingpin]'s error helpers, on its default application *)

Definition kingpin_Errorf (format : string) (args : list GoValue) : M unit :=
  Fprintf_Stderr
    (program_name env +:+ ": error: " +:+ format +:+ newline) args.

Definition kingpin_Fatalf {A} (format : string) (args : list GoValue) : M A :=
  kingpin_Errorf format args ;; os_Exit 1.

(** What [FatalIfError] does with an error that is not [nil]. *)
Definition kingpin_fatal {A} (e : error) (format : string) : M A :=
  let prefix :=
    match format with
    | EmptyString => EmptyString
    | _ => Sprintf format [] +:+ ": "
    end in
  kingpin_Errorf (prefix +:+ "%s") [VError e] ;; os_Exit 1.

Definition kingpin_FatalIfError (err : option error) (format : string)
  : M unit :=
  match err with
  | Some e => kingpin_fatal e format
  | None => ret tt
  end.

(** The idiom [v, err := f(); kingpin.FatalIfError(err, format)]. *)
Definition orFatal {A} (r : error + A) (format : string) : M A :=
  match r with
  | inl e => kingpin_fatal e format
  | inr a => ret a
  end.

Definition Config_zero : Config :=
  {| Config_APIKey := EmptyString; Config_Server := EmptyString |}.

Definition serverDetails : M Config :=
  let retUrl := EmptyString in
  let apikey := EmptyString in
  usr <- orFatal (user_Current env) "unable to get current user HOME" ;;
  let path := filepath_Join usr ".pare.json" in
  log (EvReadFile path) ;;
  loaded <-
    match ReadFile env path with
    | inl err =>
      (if IsNotExist err
       then debug "~/.pare.json doesn't exist; ignoring." []
       else kingpin_FatalIfError (Some err) "error opening ~/.pare.json") ;;
      ret (retUrl, apikey)
    | inr file =>
      parsed <- json_Unmarshal file Config_zero ;;
      confJson <- orFatal parsed "error parsing ~/.pare.json" ;;
      ret (Config_Server confJson, Config_APIKey confJson)
    end ;;
  let retUrl := fst loaded in
  let apikey := snd loaded in
  let retUrl :=
    match serverFlag flags with
    | Some u => URL_String u
    | None => retUrl
    end in
  let apikey :=
    if negb (String.eqb (apiKeyFlag flags) EmptyString)
    then apiKeyFlag flags else apikey in
  ret {| Config_APIKey := apikey; Config_Server := retUrl |}.

Definition makeRequest (conf : Config) (method endpoint body : string)
  : M Request :=
  let fullUrl := Config_Server conf +:+ endpoint in
  kingpin_FatalIfError (NewRequest_error method fullUrl)
    "error constructing request" ;;
  ret {| Request_Method := method;
         Request_fullUrl := fullUrl;
         Request_Header :=
           {[ "Accept" := ["application/json"];
              "Content-Type" := ["application/json"];
              "X-API-Key" := [Config_APIKey conf];
              "User-Agent" := ["Pare (Go net/http)"] ]};
         Request_Close := true;
         Request_Body := body |}.

Definition client_Do_M (req : Request) : M (error + Response) :=
  log (EvDo req) ;; ret (client_Do env req).

Definition ioutil_ReadAll (resp : Response) : M (error + string) :=
  log EvReadAll ;; ret (Response_Body resp).

(** One round trip.  The Go function fills [response] through a
    pointer; here the filled value is returned beside the status. *)
Definition doRequest {B R} `{Marshaler B} `{Unmarshaler R}
    (method endpoint : string) (body : B) (response : R) : M (Z * R) :=
  config <- serverDetails ;;
  debug "config: %+v" [VConfig config] ;;
  txBody <- orFatal (json_Marshal body) "error creating shorten POST json" ;;
  debug "txBody: %v" [VString txBody] ;;
  req <- makeRequest config method endpoint txBody ;;
  debug "req: %#v" [VRequest req] ;;
  sent <- client_Do_M req ;;
  resp <- orFatal sent "error executing POST to condenser server" ;;
  if negb (Response_StatusCode resp =? 200)%Z
  then ret (Response_StatusCode resp, response)
  else
    read <- ioutil_ReadAll resp ;;
    rxBody <- orFatal read "error reading response" ;;
    debug "rxBody: %v" [VString rxBody] ;;
    parsed <- json_Unmarshal rxBody response ;;
    response' <- orFatal parsed "error parsing response" ;;
    ret (Response_StatusCode resp, response').

Definition shorten : M unit :=
  let bodyStruct :=
    {| ShortenRequest_Url := URL_String (shortenUrlArg flags);
       ShortenRequest_Shortcode := shortcodeArg flags;
       ShortenRequest_Meta := metaArg flags |} in
  let respStruct := {| ShortenResponse_ShortUrl := EmptyString |} in
  r <- doRequest MethodPost ShortenEndpoint bodyStruct respStruct ;;
  let code := fst r in
  let respStruct := snd r in
  (if (code =? 409)%Z
   then errPrintf "conflict" [] ;; os_Exit (-1)
   else if negb (code =? 200)%Z
   then
     let err :=
       errors_New (Sprintf "unexpected response code: %v" [VInt code]) in
     kingpin_FatalIfError (Some err) "unexpected response"
   else ret tt) ;;
  Printf ("%s" +:+ newline) [VString (ShortenResponse_ShortUrl respStruct)].

Definition rm : M unit :=
  let bodyStruct := {| DeleteRequest_Code := rmShortcodeArg flags |} in
  let respStruct :=
    {| DeleteResponse_Code := EmptyString;
       DeleteResponse_Status := EmptyString |} in
  r <- doRequest MethodPost DeleteEndpoint bodyStruct respStruct ;;
  let code := fst r in
  let respStruct := snd r in
  (if negb (code =? 200)%Z
   then kingpin_Fatalf "unexpected response code: %v" [VInt code]
   else ret tt) ;;
  Printf ("%s/%s" +:+ newline)
    [VString (DeleteResponse_Code respStruct);
     VString (DeleteResponse_Status respStruct)] ;;
  if failNoexistArg flags
     && String.eqb (DeleteResponse_Status respStruct) "noexist"
  then os_Exit 1
  else ret tt.

Definition meta : M unit :=
  let respStruct := MetaResponse_zero in
  r <- doRequest MethodGet (MetaEndpoint +:+ metaCodeArg flags)
         Build_Empty respStruct ;;
  let code := fst r in
  let respStruct := snd r in
  (if (code =? 404)%Z
   then Println "noexist" ;; os_Exit 1
   else if negb (code =? 200)%Z
   then kingpin_Fatalf "unexpected response code: %v" [VInt code]
   else ret tt) ;;
  if metaJsonOut flags
  then
    txt <- orFatal (json_MarshalIndent respStruct)
             "error marshalling to JSON" ;;
    Println txt
  else
    Printf ("Code: %s" +:+ newline)
      [VString (strings_ToUpper (metaCodeArg flags))] ;;
    Printf ("Full URL: %s" +:+ newline)
      [VString (MetaResponse_FullUrl respStruct)] ;;
    Printf ("Owner: %s" +:+ newline)
      [VString (LinkMetadata_Owner (MetaResponse_Meta respStruct))] ;;
    Printf ("Created at: %s" +:+ newline)
      [VString (Time_UnixDate
                  (LinkMetadata_Time (MetaResponse_Meta respStruct)))] ;;
    if negb (String.eqb
               (LinkMetadata_UserMeta (MetaResponse_Meta respStruct))
               EmptyString)
    then Printf ("User-defined metadata: %s" +:+ newline)
           [VString (LinkMetadata_UserMeta (MetaResponse_Meta respStruct))]
    else ret tt.

Definition main (cmd : Command) : M unit :=
  match cmd with
  | shortenCommand =>
    debug "shorten: %s" [VURL (shortenUrlArg flags)] ;;
    shorten
  | rmCommand =>
    debug "rm: %s" [VString (rmShortcodeArg flags)] ;;
    rm
  | metaCommand =>
    debug "meta: %s" [VString (metaCodeArg flags)] ;;
    meta
  end.

(** A whole run of the process, from empty streams. *)
Definition run (cmd : Command) : outcome unit * World :=
  main cmd World_init.
End Pare.

(* ===================================================================== *)
(** ** The earlier revision of the request structure

    In the earlier revision of the program the two optional fields of
    [ShortenRequest] are pointers to strings and their tags carry no
    [omitempty]: a [nil] pointer is written as [null], a pointer to the
    empty string as an empty string. *)

Module Legacy.
Record ShortenRequest := {
  ShortenRequest_Url : string;
  ShortenRequest_Shortcode : option string;
  ShortenRequest_Meta : option string }.

Definition ShortenRequest_zero : ShortenRequest :=
  {| ShortenRequest_Url := EmptyString;
     ShortenRequest_Shortcode := None;
     ShortenRequest_Meta := None |}.

Definition pointer (p : option string) : json :=
  match p with
  | None => JNull
  | Some s => JString s
  end.

(** Decoding into a pointer to a string: [null] makes it [nil]. *)
Definition decode_pointer (c : context) (v : json) : error + option string :=
  match v with
  | JNull => inr None
  | JString s => inr (Some s)
  | JEscaped _ s => inr (Some s)
  | _ => inl (UnmarshalTypeError (json_kind v) c "string")
  end.

#[global] Instance ShortenRequest_Marshaler : Marshaler ShortenRequest :=
  fun r => inr (JObject
    [ ("url", JString (ShortenRequest_Url r));
      ("code", pointer (ShortenRequest_Shortcode r));
      ("meta", pointer (ShortenRequest_Meta r)) ]).

#[global] Instance ShortenRequest_Unmarshaler : Unmarshaler ShortenRequest :=
  decode_struct "ShortenRequest"
    [ string_field "url" "string" ShortenRequest_Url
        (fun s r => {| ShortenRequest_Url := s;
                       ShortenRequest_Shortcode := ShortenRequest_Shortcode r;
                       ShortenRequest_Meta := ShortenRequest_Meta r |});
      {| field_name := "code";
         field_set := fun c v r =>
           match decode_pointer c v with
           | inl e => inl e
           | inr p => inr {| ShortenRequest_Url := ShortenRequest_Url r;
                             ShortenRequest_Shortcode := p;
                             ShortenRequest_Meta := ShortenRequest_Meta r |}
           end |};
      {| field_name := "meta";
         field_set := fun c v r =>
           match decode_pointer c v with
           | inl e => inl e
           | inr p => inr {| ShortenRequest_Url := ShortenRequest_Url r;
                             ShortenRequest_Shortcode := ShortenRequest_Shortcode r;
                             ShortenRequest_Meta := p |}
           end |} ]
    at_root.
End Legacy.

(* ===================================================================== *)
(** ** Vocabulary of the statements *)

(** Entries of the log that come before the exchange with the server. *)
Definition config_event (e : event) : Prop :=
  match e with
  | EvReadFile _ | EvUnmarshal _ => True
  | _ => False
  end.

Section Vocabulary.
Context {RT : GoRuntime}.
Variable flags : Flags.
Variable env : Env.

(** Where the configuration file of a user is looked for. *)
Definition config_path (home : string) : string :=
  filepath_Join home ".pare.json".

(** The configuration [serverDetails] settles on once the file, if
    any, has given [file]. *)
Definition layered (file : Config) : Config :=
  {| Config_APIKey :=
       if negb (String.eqb (apiKeyFlag flags) EmptyString)
       then apiKeyFlag flags else Config_APIKey file;
     Config_Server :=
       match serverFlag flags with
       | Some u => URL_String u
       | None => Config_Server file
       end |}.

Context {B R : Type} `{Marshaler B} `{Unmarshaler R}.
Variables (method endpoint : string) (body : B) (response : R).

(** The request [makeRequest] builds from a configuration and the
    serialized body. *)
Definition built_request (conf : Config) (txBody : string) : Request :=
  {| Request_Method := method;
     Request_fullUrl := Config_Server conf +:+ endpoint;
     Request_Header :=
       {[ "Accept" := ["application/json"];
          "Content-Type" := ["application/json"];
          "X-API-Key" := [Config_APIKey conf];
          "User-Agent" := ["Pare (Go net/http)"] ]};
     Request_Close := true;
     Request_Body := txBody |}.

(** What [doRequest] does once the client has answered: its result,
    and the calls it still makes. *)
Definition after_exchange (sent : error + Response)
  : outcome (Z * R) * list event :=
  match sent with
  | inl _ => (Exit 1%Z, [])
  | inr resp =>
    if negb (Response_StatusCode resp =? 200)%Z
    then (Ret (Response_StatusCode resp, response), [])
    else
      match Response_Body resp with
      | inl _ => (Exit 1%Z, [EvReadAll])
      | inr rxBody =>
        match json_decode rxBody response with
        | inl _ => (Exit 1%Z, [EvReadAll; EvUnmarshal rxBody])
        | inr response' =>
          (Ret (200%Z, response'), [EvReadAll; EvUnmarshal rxBody])
        end
      end
  end.
End Vocabulary.

(** A step that adds nothing to the log. *)
Definition keeps_calls {A} (m : M A) : Prop :=
  forall w, calls (snd (m w)) = calls w.

(** Two worlds that show the same to the user and to the outside:
    same standard output, same calls; standard error is left free. *)
Definition same_output (w1 w2 : World) : Prop :=
  stdout w1 = stdout w2 /\ calls w1 = calls w2.

(** Two steps that, from such worlds, end alike in such worlds. *)
Definition blind {A} (m1 m2 : M A) : Prop :=
  forall w1 w2,
    same_output w1 w2 ->
    fst (m1 w1) = fst (m2 w2) /\ same_output (snd (m1 w1)) (snd (m2 w2)).

(** The values an object gives under the key [key], in order. *)
Fixpoint values_of (key : string) (members : list (string * json))
  : list json :=
  match members with
  | [] => []
  | (k, v) :: rest =>
    if String.eqb k key then v :: values_of key rest else values_of key rest
  end.

(** The string an object of the configuration file gives for the field
    [name]: that of the last member whose key matches [name] up to case
    and whose value is a string; [default] when there is none. *)
Fixpoint string_member (name : string) (members : list (string * json))
    (default : string) : string :=
  match members with
  | [] => default
  | (k, v) :: rest =>
    string_member name rest
      (if String.eqb (fold_name name) (fold_name k)
       then match v with
            | JString s | JEscaped _ s => s
            | _ => default
            end
       else default)
  end.

(** The layering as the specification words it: a flag overrides the
    file only when it is given and not empty, for both flags. *)
Definition layered_as_specified (flags : Flags) (file : Config) : Config :=
  {| Config_APIKey :=
       if String.eqb (apiKeyFlag flags) EmptyString
       then Config_APIKey file else apiKeyFlag flags;
     Config_Server :=
       match serverFlag flags with
       | Some u =>
         if String.eqb (URL_String u) EmptyString
         then Config_Server file else URL_String u
       | None => Config_Server file
       end |}.

(** [flags] with [--debug] set or unset and nothing else changed. *)
Definition with_debug (b : bool) (flags : Flags) : Flags :=
  {| debugFlag := b;
     serverFlag := serverFlag flags;
     apiKeyFlag := apiKeyFlag flags;
     shortcodeArg := shortcodeArg flags;
     metaArg := metaArg flags;
     shortenUrlArg := shortenUrlArg flags;
     rmShortcodeArg := rmShortcodeArg flags;
     failNoexistArg := failNoexistArg flags;
     metaJsonOut := metaJsonOut flags;
     metaCodeArg := metaCodeArg flags |}.

(** [q s] is [s] between double quotes, for writing JSON text down. *)
Definition q (s : string) : string := quote +:+ s +:+ quote.

(** A string of printable ASCII with no quote, backslash, [<], [>] or
    [&] in it: every byte of it is written as it stands. *)
Definition plain_byte (c : ascii) : bool :=
  let b := byte_val c in
  in_range 32 127 b
  && negb ((b =? 34) || (b =? 92) || (b =? 60) || (b =? 62) || (b =? 38))%N.

Fixpoint plain (s : string) : bool :=
  match s with
  | EmptyString => true
  | String c rest => plain_byte c && plain rest
  end.

(* ===================================================================== *)
(** ** A runtime and a machine for running examples *)

Fixpoint ascii_upper (s : string) : string :=
  match s with
  | EmptyString => EmptyString
  | String c rest =>
    let b := byte_val c in
    String (if in_range 97 122 b then byte_of (b - 32) else c)
           (ascii_upper rest)
  end.

(** The message of the scanner for a text it refuses at its first
    byte, or that ends before the value does. *)
Definition first_byte_error (data : string) : error :=
  match data with
  | String c _ =>
    let b := byte_val c in
    if is_space b || (b =? 123)%N || (b =? 91)%N || (b =? 34)%N
       || (b =? 45)%N || is_digit b
       || (b =? 116)%N || (b =? 102)%N || (b =? 110)%N
    then errors_New "unexpected end of JSON input"
    else errors_New ("invalid character '" +:+ str1 c
                     +:+ "' looking for beginning of value")
  | EmptyString => errors_New "unexpected end of JSON input"
  end.

(** A text with a digit in it and no backslash: what the sample
    runtime takes for a time. *)
Fixpoint time_like (seen : bool) (s : string) : bool :=
  match s with
  | EmptyString => seen
  | String c rest =>
    if (byte_val c =? 92)%N then false
    else time_like (seen || is_digit (byte_val c)) rest
  end.

(** Times are kept as their RFC 3339 text and shown as it stands, case
    is changed on the letters of ASCII only, paths are joined with a
    slash, every request is well formed, and operands the development
    does not lay out are shown as a mark. *)
Definition plain_runtime : GoRuntime :=
  {| Time := string;
     Time_zero := "0001-01-01T00:00:00Z";
     Time_parse := fun s =>
       if time_like false s then inr s
       else inl (errors_New ("parsing time " +:+ s));
     Time_refused := fun _ =>
       errors_New "Time.UnmarshalJSON: input is not a JSON string";
     Time_MarshalJSON := fun t => inr t;
     Time_UnixDate := fun t => t;
     strings_ToUpper := ascii_upper;
     filepath_Join := fun dir name => dir +:+ "/" +:+ name;
     NewRequest_error := fun _ _ => None;
     json_SyntaxError := first_byte_error;
     format_operand := fun verb _ => "%!" +:+ verb +:+ "(?)";
     format_extra := fun _ => "%!(EXTRA)" |}.

Definition ErrNotExist : error :=
  {| Error := "no such file or directory"; IsNotExist := true |}.

(** A machine whose user lives in [/home/u], whose only file, if any,
    is the configuration file, and whose server answers [reply]. *)
Definition machine (config : option string)
    (reply : Request -> error + Response) : Env :=
  {| program_name := "pare";
     user_Current := inr "/home/u";
     ReadFile := fun path =>
       match config with
       | Some data =>
         if String.eqb path "/home/u/.pare.json" then inr data
         else inl ErrNotExist
       | None => inl ErrNotExist
       end;
     client_Do := reply |}.

Definition answer (status : Z) (body : string) : Request -> error + Response :=
  fun _ => inr {| Response_StatusCode := status; Response_Body := inr body |}.

(** The flags of a command line that gives [--debug] or not, and
    otherwise only the arguments the three commands require. *)
Definition bare_flags (dbg : bool) (arg : string) : Flags :=
  {| debugFlag := dbg;
     serverFlag := None;
     apiKeyFlag := EmptyString;
     shortcodeArg := EmptyString;
     metaArg := EmptyString;
     shortenUrlArg := {| URL_String := arg |};
     rmShortcodeArg := arg;
     failNoexistArg := false;
     metaJsonOut := false;
     metaCodeArg := arg |}.

Definition sample_config : string :=
  "{" +:+ q "APIKey" +:+ ":" +:+ q "k1" +:+ ","
      +:+ q "Server" +:+ ":" +:+ q "https://s.example" +:+ "}".

Definition ShortenRequest_zero : ShortenRequest :=
  {| ShortenRequest_Url := EmptyString;
     ShortenRequest_Shortcode := EmptyString;
     ShortenRequest_Meta := EmptyString |}.

(** The request and the answer of the end-to-end scenario. *)
Definition scenario_request : Request :=
  {| Request_Method := "POST";
     Request_fullUrl := "https://s.example/api/shorten";
     Request_Header :=
       {[ "Accept" := ["application/json"];
          "Content-Type" := ["application/json"];
          "X-API-Key" := ["k1"];
          "User-Agent" := ["Pare (Go net/http)"] ]};
     Request_Close := true;
     Request_Body := "{" +:+ q "url" +:+ ":" +:+ q "http://a.com" +:+ "}" |}.

Definition scenario_reply : string :=
  "{" +:+ q "short_url" +:+ ":" +:+ q "https://s.example/abc" +:+ "}".

Definition scenario_response : Response :=
  {| Response_StatusCode := 200; Response_Body := inr scenario_reply |}.

(** The machine and the command line of the scenario, and variations
    on them for the other commands. *)
Definition scenario_config : Config :=
  {| Config_APIKey := "k1"; Config_Server := "https://s.example" |}.

Definition scenario_flags : Flags := bare_flags false "http://a.com".

(** The command line of the scenario with [--code=foo] added, and the
    request it makes. *)
Definition foo_flags : Flags :=
  {| debugFlag := false;
     serverFlag := None;
     apiKeyFlag := EmptyString;
     shortcodeArg := "foo";
     metaArg := EmptyString;
     shortenUrlArg := {| URL_String := "http://a.com" |};
     rmShortcodeArg := EmptyString;
     failNoexistArg := false;
     metaJsonOut := false;
     metaCodeArg := EmptyString |}.

Definition foo_body : string :=
  "{" +:+ q "url" +:+ ":" +:+ q "http://a.com" +:+ ","
      +:+ q "code" +:+ ":" +:+ q "foo" +:+ "}".

Definition scenario_machine : Env :=
  machine (Some sample_config) (fun _ => inr scenario_response).

Definition conflict_response : Response :=
  {| Response_StatusCode := 409; Response_Body := inr "Conflict" |}.

Definition conflict_machine : Env :=
  machine (Some sample_config) (fun _ => inr conflict_response).

Definition not_found_response : Response :=
  {| Response_StatusCode := 404; Response_Body := inr "Not Found" |}.

Definition not_found_machine : Env :=
  machine None (fun _ => inr not_found_response).

Definition meta_request : Request :=
  built_request MethodGet (MetaEndpoint +:+ "abc") Config_zero "{}".

Definition foo_request : Request :=
  built_request MethodPost ShortenEndpoint scenario_config foo_body.

(** A machine whose configuration file breaks off after its first
    byte. *)
Definition cut_config_machine : Env :=
  machine (Some "{") (fun _ => inl ErrNotExist).

Definition delete_request : Request :=
  built_request MethodPost DeleteEndpoint scenario_config
    ("{" +:+ q "code" +:+ ":" +:+ q "abc" +:+ "}").

Definition delete_reply : string :=
  "{" +:+ q "code" +:+ ":" +:+ q "abc" +:+ ","
      +:+ q "status" +:+ ":" +:+ q "noexist" +:+ "}".

Definition delete_response : Response :=
  {| Response_StatusCode := 200; Response_Body := inr delete_reply |}.

Definition delete_machine : Env :=
  machine (Some sample_config) (fun _ => inr delete_response).

Definition meta_reply : string :=
  "{" +:+ q "full_url" +:+ ":" +:+ q "http://a.com" +:+ ","
      +:+ q "meta" +:+ ":{"
      +:+ q "owner" +:+ ":" +:+ q "ann" +:+ ","
      +:+ q "time" +:+ ":" +:+ q "2017-03-01T10:00:00Z" +:+ "}}".

Definition meta_response : Response :=
  {| Response_StatusCode := 200; Response_Body := inr meta_reply |}.

Definition meta_machine : Env :=
  machine None (fun _ => inr meta_response).

Definition meta_decoded : @MetaResponse plain_runtime :=
  @Build_MetaResponse plain_runtime "http://a.com"
    (@Build_LinkMetadata plain_runtime "ann" "2017-03-01T10:00:00Z"
       EmptyString).

(** A command line with [--server=] given and empty: the flag holds a
    URL, and the URL prints as the empty string. *)
Definition empty_server_flags : Flags :=
  {| debugFlag := false;
     serverFlag := Some {| URL_String := EmptyString |};
     apiKeyFlag := EmptyString;
     shortcodeArg := EmptyString;
     metaArg := EmptyString;
     shortenUrlArg := {| URL_String := "http://a.com" |};
     rmShortcodeArg := EmptyString;
     failNoexistArg := false;
     metaJsonOut := false;
     metaCodeArg := EmptyString |}.

(** The runs the statements are tried on. *)
Definition scenario_run : outcome unit * World :=
  @run plain_runtime scenario_flags scenario_machine shortenCommand.

Definition conflict_run : outcome unit * World :=
  @run plain_runtime scenario_flags conflict_machine shortenCommand.

Definition not_found_run : outcome unit * World :=
  @run plain_runtime (bare_flags false "abc") not_found_machine metaCommand.

Definition delete_run : outcome unit * World :=
  @run plain_runtime (bare_flags false "abc") delete_machine rmCommand.

Definition meta_run : outcome unit * World :=
  @run plain_runtime (bare_flags false "abc") meta_machine metaCommand.

(* ===================================================================== *)
(** ** Vocabulary of the statements on all three commands *)

(** The method, the endpoint and the body each handler hands to
    [doRequest]. *)
Definition method_of (cmd : Command) : string :=
  match cmd with
  | shortenCommand => MethodPost
  | rmCommand => MethodPost
  | metaCommand => MethodGet
  end.

Definition endpoint_of (flags : Flags) (cmd : Command) : string :=
  match cmd with
  | shortenCommand => ShortenEndpoint
  | rmCommand => DeleteEndpoint
  | metaCommand => MetaEndpoint +:+ metaCodeArg flags
  end.

Definition body_of (flags : Flags) (cmd : Command) : error + string :=
  match cmd with
  | shortenCommand =>
    json_Marshal
      {| ShortenRequest_Url := URL_String (shortenUrlArg flags);
         ShortenRequest_Shortcode := shortcodeArg flags;
         ShortenRequest_Meta := metaArg flags |}
  | rmCommand =>
    json_Marshal {| DeleteRequest_Code := rmShortcodeArg flags |}
  | metaCommand => json_Marshal Build_Empty
  end.

(** The requests a log holds, in order. *)
Fixpoint exchanges (log : list event) : list Request :=
  match log with
  | [] => []
  | EvDo req :: rest => req :: exchanges rest
  | _ :: rest => exchanges rest
  end.

(** Machines on which something goes wrong before or during the round
    trip. *)
Definition ErrNoUser : error :=
  {| Error := "user: Current not implemented"; IsNotExist := false |}.

Definition ErrPermission : error :=
  {| Error := "permission denied"; IsNotExist := false |}.

Definition ErrRefused : error :=
  {| Error := "connection refused"; IsNotExist := false |}.

Definition homeless_machine : Env :=
  {| program_name := "pare";
     user_Current := inl ErrNoUser;
     ReadFile := fun _ => inl ErrNotExist;
     client_Do := fun _ => inl ErrRefused |}.

Definition locked_machine : Env :=
  {| program_name := "pare";
     user_Current := inr "/home/u";
     ReadFile := fun _ => inl ErrPermission;
     client_Do := fun _ => inl ErrRefused |}.

Definition refused_machine : Env :=
  machine (Some sample_config) (fun _ => inl ErrRefused).

Definition teapot_response : Response :=
  {| Response_StatusCode := 418; Response_Body := inr "teapot" |}.

Definition teapot_machine : Env :=
  machine (Some sample_config) (fun _ => inr teapot_response).

Definition garbled_response : Response :=
  {| Response_StatusCode := 200; Response_Body := inr "<html>" |}.

Definition garbled_machine : Env :=
  machine (Some sample_config) (fun _ => inr garbled_response).

(** A runtime that differs from [plain_runtime] in refusing every
    request at construction. *)
Definition strict_runtime : GoRuntime :=
  {| Time := string;
     Time_zero := "0001-01-01T00:00:00Z";
     Time_parse := fun s =>
       if time_like false s then inr s
       else inl (errors_New ("parsing time " +:+ s));
     Time_refused := fun _ =>
       errors_New "Time.UnmarshalJSON: input is not a JSON string";
     Time_MarshalJSON := fun t => inr t;
     Time_UnixDate := fun t => t;
     strings_ToUpper := ascii_upper;
     filepath_Join := fun dir name => dir +:+ "/" +:+ name;
     NewRequest_error := fun _ _ => Some (errors_New "invalid URL");
     json_SyntaxError := first_byte_error;
     format_operand := fun verb _ => "%!" +:+ verb +:+ "(?)";
     format_extra := fun _ => "%!(EXTRA)" |}.

Definition json_flags : Flags :=
  {| debugFlag := false;
     serverFlag := None;
     apiKeyFlag := EmptyString;
     shortcodeArg := EmptyString;
     metaArg := EmptyString;
     shortenUrlArg := {| URL_String := "abc" |};
     rmShortcodeArg := "abc";
     failNoexistArg := false;
     metaJsonOut := true;
     metaCodeArg := "abc" |}.

Definition broken_response : Response :=
  {| Response_StatusCode := 200; Response_Body := inl ErrRefused |}.

Definition broken_machine : Env :=
  machine (Some sample_config) (fun _ => inr broken_response).

Definition empty_object_response : Response :=
  {| Response_StatusCode := 200; Response_Body := inr "{}" |}.

Definition empty_object_machine : Env :=
  machine (Some sample_config) (fun _ => inr empty_object_response).

Definition configured_meta_request : Request :=
  built_request MethodGet (MetaEndpoint +:+ "abc") scenario_config "{}".

Definition abc_flags : Flags := bare_flags false "abc".

(** A step that only appends to standard error. *)
Definition extends_stderr {A} (m : M A) : Prop :=
  forall w, exists d, stderr (snd (m w)) = stderr w +:+ d.

(** The format and the operand of the trace [main] hands to [debug]
    before it runs a command. *)
Definition trace_format (cmd : Command) : string :=
  match cmd with
  | shortenCommand => "shorten: %s"
  | rmCommand => "rm: %s"
  | metaCommand => "meta: %s"
  end.

Definition trace_operand (flags : Flags) (cmd : Command) : GoValue :=
  match cmd with
  | shortenCommand => VURL (shortenUrlArg flags)
  | rmCommand => VString (rmShortcodeArg flags)
  | metaCommand => VString (metaCodeArg flags)
  end.

Definition verbose_flags : Flags := bare_flags true "abc".
(* ===================================================================== *)
(** * Properties *)

Lemma append_nil_r (s : string) : s +:+ EmptyString = s.
Proof.
  induction s as [|c s IH]; [reflexivity|].
  change (String c (s +:+ EmptyString) = String c s). now rewrite IH.
Qed.

Lemma append_assoc (a b c : string) : (a +:+ b) +:+ c = a +:+ (b +:+ c).
Proof.
  induction a as [|x a IH]; [reflexivity|].
  change (String x ((a +:+ b) +:+ c) = String x (a +:+ b +:+ c)).
  now rewrite IH.
Qed.

Lemma bind_eq {A B} (m : M A) (k : A -> M B) (w : World) :
  bind m k w = match m w with
               | (Ret a, w') => k a w'
               | (Exit st, w') => (Exit st, w')
               end.
Proof. reflexivity. Qed.

(** Symbolic execution: expose the next call, then reduce what is known. *)
Ltac exec :=
  unfold Printf, Println, Fprintf_Stderr in *;
  unfold bind, ret, os_Exit, write_stdout, write_stderr, log in *;
  cbn [fst snd stdout stderr calls] in *.

Section ConfigResolver.
Context {RT : GoRuntime}.
Variable flags : Flags.
Variable env : Env.

Lemma debug_inv fmat objs w r w1 :
  debug flags fmat objs w = (r, w1) ->
  r = Ret tt
  /\ stdout w1 = stdout w
  /\ calls w1 = calls w
  /\ (debugFlag flags = false -> stderr w1 = stderr w)
  /\ exists d, stderr w1 = stderr w +:+ d.
Proof.
  unfold debug, errPrintf.
  destruct (debugFlag flags); exec; intros [= <- <-]; cbn [stdout stderr calls];
    repeat split; try congruence; eauto.
  exists EmptyString. now rewrite append_nil_r.
Qed.

Lemma debug_off fmat objs :
  debugFlag flags = false -> debug flags fmat objs = ret tt.
Proof. unfold debug. now intros ->. Qed.

Lemma serverDetails_frame w :
  stdout (snd (serverDetails flags env w)) = stdout w
  /\ (exists pre, calls (snd (serverDetails flags env w)) = calls w ++ pre
                  /\ Forall config_event pre)
  /\ (forall st, fst (serverDetails flags env w) = Exit st -> st = 1%Z)
  /\ (debugFlag flags = false ->
      forall c, fst (serverDetails flags env w) = Ret c ->
                stderr (snd (serverDetails flags env w)) = stderr w).
Proof.
  unfold serverDetails, orFatal, kingpin_FatalIfError, kingpin_fatal,
    kingpin_Errorf, json_Unmarshal.
  destruct (user_Current env) as [e|home]; exec.
  { repeat split; try congruence.
    - exists []. now rewrite app_nil_r.
    - intros st [= <-]. reflexivity. }
  destruct (ReadFile env _) as [err|file]; exec.
  - destruct (IsNotExist err); exec.
    + destruct (debug flags _ _ _) as [r w1] eqn:Hd.
      apply debug_inv in Hd. destruct Hd as (-> & Ho & Hc & Hq & _).
      cbn [fst snd stdout stderr calls] in *.
      repeat split; try congruence.
      * eexists. split; [eassumption|]. repeat constructor.
      * auto.
    + repeat split; try congruence.
      * eexists. split; [reflexivity|]. repeat constructor.
      * intros st [= <-]. reflexivity.
  - destruct (json_decode file Config_zero) as [e|fc]; exec.
    + repeat split; try congruence.
      * exists [EvReadFile (filepath_Join home ".pare.json"); EvUnmarshal file].
        rewrite <- app_assoc. split; [reflexivity|]. repeat constructor.
      * intros st [= <-]. reflexivity.
    + repeat split; try congruence.
      exists [EvReadFile (filepath_Join home ".pare.json"); EvUnmarshal file].
      rewrite <- app_assoc. split; [reflexivity|]. repeat constructor.
Qed.

End ConfigResolver.

Ltac step_debug :=
  match goal with
  | |- context [@debug ?rt ?fl ?f ?o ?w] =>
    let H := fresh "Hdebug" in
    let Ho := fresh "Ho" in
    let Hc := fresh "Hc" in
    let He := fresh "He" in
    let w' := fresh "w" in
    destruct (@debug rt fl f o w) as [? w'] eqn:H;
    apply debug_inv in H;
    destruct H as (-> & Ho & Hc & He & _);
    cbn [fst snd stdout stderr calls] in *
  end.

(** Rewrite the streams of intermediate worlds back to the first one. *)
Ltac frame :=
  repeat match goal with
         | H : calls ?x = _ |- context [calls ?x] => rewrite H
         | H : stdout ?x = _ |- context [stdout ?x] => rewrite H
         end.

Section ConfigCases.
Context {RT : GoRuntime}.
Variable flags : Flags.
Variable env : Env.

Lemma serverDetails_absent w home err :
  user_Current env = inr home ->
  ReadFile env (config_path home) = inl err ->
  IsNotExist err = true ->
  fst (serverDetails flags env w) = Ret (layered flags Config_zero)
  /\ stdout (snd (serverDetails flags env w)) = stdout w
  /\ calls (snd (serverDetails flags env w))
     = calls w ++ [EvReadFile (config_path home)]
  /\ (debugFlag flags = false ->
      stderr (snd (serverDetails flags env w)) = stderr w).
Proof.
  unfold config_path. intros Hhome Hread Hne.
  unfold serverDetails, orFatal. rewrite Hhome. exec. rewrite Hread, Hne.
  step_debug. repeat split; try congruence. exact He.
Qed.

Lemma serverDetails_parsed w home file fc :
  user_Current env = inr home ->
  ReadFile env (config_path home) = inr file ->
  json_decode file Config_zero = inr fc ->
  serverDetails flags env w
  = (Ret (layered flags fc),
     {| stdout := stdout w;
        stderr := stderr w;
        calls := (calls w ++ [EvReadFile (config_path home)])
                 ++ [EvUnmarshal file] |}).
Proof.
  unfold config_path. intros Hhome Hread Hdec.
  unfold serverDetails, orFatal, json_Unmarshal. rewrite Hhome. exec.
  rewrite Hread. exec. rewrite Hdec. reflexivity.
Qed.

Lemma serverDetails_refused w home file e :
  user_Current env = inr home ->
  ReadFile env (config_path home) = inr file ->
  json_decode file Config_zero = inl e ->
  serverDetails flags env w
  = (Exit 1%Z,
     {| stdout := stdout w;
        stderr := stderr w
                  +:+ Sprintf (program_name env
                               +:+ ": error: error parsing ~/.pare.json: %s"
                               +:+ newline) [VError e];
        calls := (calls w ++ [EvReadFile (config_path home)])
                 ++ [EvUnmarshal file] |}).
Proof.
  unfold config_path. intros Hhome Hread Hdec.
  unfold serverDetails, orFatal, json_Unmarshal, kingpin_fatal,
    kingpin_Errorf. rewrite Hhome. exec.
  rewrite Hread. exec. rewrite Hdec. exec.
  rewrite !append_assoc. reflexivity.
Qed.
End ConfigCases.

Section RoundTrip.
Context {RT : GoRuntime}.
Variable flags : Flags.
Variable env : Env.
Context {B R : Type} `{Marshaler B} `{Unmarshaler R}.
Variables (method endpoint : string) (body : B) (response : R).

Lemma doRequest_spec w :
  let r := doRequest flags env method endpoint body response w in
  stdout (snd r) = stdout w
  /\ exists pre, Forall config_event pre
     /\ ((fst r = Exit 1%Z /\ calls (snd r) = calls w ++ pre)
         \/ exists conf txBody,
              fst (serverDetails flags env w) = Ret conf
              /\ calls (snd (serverDetails flags env w)) = calls w ++ pre
              /\ json_Marshal body = inr txBody
              /\ NewRequest_error method (Config_Server conf +:+ endpoint)
                 = None
              /\ fst r
                 = fst (after_exchange response (client_Do env (built_request method endpoint conf txBody)))
              /\ calls (snd r)
                 = calls w ++ pre
                   ++ EvDo (built_request method endpoint conf txBody)
                      :: snd (after_exchange response
                                (client_Do env (built_request method endpoint conf txBody)))).
Proof.
  cbv zeta. unfold doRequest. rewrite bind_eq.
  destruct (serverDetails_frame flags env w)
    as (Hout & (pre & Hcalls & Hpre) & Hexit & _).
  destruct (serverDetails flags env w) as [[conf|st] w1]; cbn [fst snd] in *.
  2:{ rewrite (Hexit st eq_refl). split; [assumption|].
      exists pre. split; [assumption|]. left. split; [reflexivity|assumption]. }
  clear Hexit.
  unfold orFatal, makeRequest, kingpin_FatalIfError, kingpin_fatal,
    kingpin_Errorf, client_Do_M, ioutil_ReadAll, json_Unmarshal.
  exec. step_debug.
  unfold built_request, after_exchange.
  destruct (json_Marshal body) as [e|txBody]; exec.
  { frame. split; [reflexivity|].
    exists pre. split; [assumption|]. left. split; reflexivity. }
  step_debug.
  destruct (NewRequest_error _ _) as [e|] eqn:Hnew; exec.
  { frame. split; [reflexivity|].
    exists pre. split; [assumption|]. left. split; reflexivity. }
  step_debug.
  match goal with
  | |- context [client_Do env ?r] => set (req := r) in *
  end.
  assert (Hfin : forall tail : list event,
             ((calls w ++ pre) ++ [EvDo req]) ++ tail
             = calls w ++ pre ++ EvDo req :: tail).
  { intros tail. rewrite <- !app_assoc. reflexivity. }
  assert (Hfin0 : (calls w ++ pre) ++ [EvDo req]
                  = calls w ++ pre ++ [EvDo req]).
  { now rewrite <- !app_assoc. }
  destruct (client_Do env req) as [e|resp] eqn:Hdo; exec.
  { frame. split; [reflexivity|].
    exists pre. split; [assumption|]. right. exists conf, txBody.
    fold req. rewrite Hdo. repeat split; try reflexivity; assumption. }
  destruct (Response_StatusCode resp =? 200)%Z eqn:Hst; cbn [negb]; exec.
  2:{ frame. split; [reflexivity|].
      exists pre. split; [assumption|]. right. exists conf, txBody.
      fold req. rewrite Hdo, Hst.
      repeat split; try reflexivity; assumption. }
  destruct (Response_Body resp) as [e|rxBody] eqn:Hbody; exec.
  { frame. split; [reflexivity|].
    exists pre. split; [assumption|]. right. exists conf, txBody.
    fold req. rewrite Hdo, Hst, Hbody.
    cbv beta iota delta [negb fst snd].
    repeat split; try reflexivity; try assumption. now rewrite <- Hfin. }
  step_debug.
  destruct (json_decode rxBody response) as [e|response'] eqn:Hdec; exec.
  all: frame; split; [reflexivity|].
  all: exists pre; split; [assumption|]; right; exists conf, txBody.
  all: fold req; rewrite Hdo, Hst, Hbody, Hdec.
  all: cbv beta iota delta [negb fst snd].
  all: apply Z.eqb_eq in Hst; rewrite ?Hst.
  all: repeat split; try reflexivity; try assumption.
  all: rewrite <- Hfin, <- !app_assoc; reflexivity.
Qed.

(** The round trip run forward: once the configuration is resolved,
    the body serialized and the request accepted, the exchange takes
    place and [after_exchange] tells the rest. *)
Lemma doRequest_forward w conf w1 txBody :
  serverDetails flags env w = (Ret conf, w1) ->
  json_Marshal body = inr txBody ->
  NewRequest_error method (Config_Server conf +:+ endpoint) = None ->
  exists w2,
    doRequest flags env method endpoint body response w
    = (fst (after_exchange response
              (client_Do env (built_request method endpoint conf txBody))),
       w2)
    /\ stdout w2 = stdout w1
    /\ calls w2
       = calls w1
         ++ EvDo (built_request method endpoint conf txBody)
            :: snd (after_exchange response
                      (client_Do env
                         (built_request method endpoint conf txBody))).
Proof.
  intros Hsd Hm Hnew. unfold doRequest. rewrite bind_eq, Hsd.
  unfold orFatal, makeRequest, kingpin_FatalIfError, kingpin_fatal,
    kingpin_Errorf, client_Do_M, ioutil_ReadAll, json_Unmarshal.
  exec. step_debug. rewrite Hm. exec. step_debug. rewrite Hnew. exec.
  step_debug. unfold after_exchange. fold (built_request method endpoint conf txBody).
  destruct (client_Do env _) as [e|resp]; exec.
  { eexists. split; [reflexivity|]. cbn [stdout calls]. frame.
    split; reflexivity. }
  destruct (Response_StatusCode resp =? 200)%Z eqn:Hst; cbn [negb]; exec.
  2:{ eexists. split; [reflexivity|]. cbn [stdout calls]. frame.
      split; reflexivity. }
  apply Z.eqb_eq in Hst.
  destruct (Response_Body resp) as [e|rxBody]; exec.
  { eexists. split; [reflexivity|]. cbn [stdout calls fst snd]. frame.
    split; [reflexivity|]. rewrite <- !app_assoc. reflexivity. }
  step_debug.
  destruct (json_decode rxBody response) as [e|response']; exec.
  all: eexists; (split; [rewrite ?Hst; reflexivity|]).
  all: cbn [stdout calls fst snd]; frame; split; [reflexivity|].
  all: rewrite <- !app_assoc; reflexivity.
Qed.

Lemma doRequest_quiet w v :
  debugFlag flags = false ->
  fst (doRequest flags env method endpoint body response w) = Ret v ->
  stderr (snd (doRequest flags env method endpoint body response w))
  = stderr w.
Proof.
  intros Hoff. unfold doRequest. rewrite bind_eq.
  destruct (serverDetails_frame flags env w) as (_ & _ & _ & Herr).
  specialize (Herr Hoff).
  destruct (serverDetails flags env w) as [[conf|st] w1]; cbn [fst snd] in *;
    [|discriminate].
  rewrite <- (Herr conf eq_refl). clear Herr.
  unfold orFatal, makeRequest, kingpin_FatalIfError, kingpin_fatal,
    kingpin_Errorf, client_Do_M, ioutil_ReadAll, json_Unmarshal, debug.
  rewrite Hoff. exec.
  destruct (json_Marshal body) as [e|txBody]; exec; [discriminate|].
  destruct (NewRequest_error _ _) as [e|]; exec; [discriminate|].
  destruct (client_Do env _) as [e|resp]; exec; [discriminate|].
  destruct (Response_StatusCode resp =? 200)%Z; cbn [negb]; exec;
    [|reflexivity].
  destruct (Response_Body resp) as [e|rxBody]; exec; [discriminate|].
  destruct (json_decode rxBody response) as [e|response']; exec;
    [discriminate|reflexivity].
Qed.
End RoundTrip.


Lemma config_event_not_Do (pre : list event) (req : Request) :
  Forall config_event pre -> ~ In (EvDo req) pre.
Proof.
  intros Hall Hin. rewrite Forall_forall in Hall.
  apply list_elem_of_In, Hall in Hin. exact Hin.
Qed.

Section Handlers.
Context {RT : GoRuntime}.
Variable flags : Flags.
Variable env : Env.

(** What is known of a round trip from its request standing in the
    log: where the request came from, what [doRequest] returned, and
    that nothing but the calls of [after_exchange] follows it. *)
Lemma doRequest_exchange {B R} `{Marshaler B} `{Unmarshaler R}
    (method endpoint : string) (body : B) (response : R) w req :
  calls w = [] ->
  In (EvDo req)
     (calls (snd (doRequest flags env method endpoint body response w))) ->
  exists w1 pre conf txBody,
    doRequest flags env method endpoint body response w
    = (fst (after_exchange response (client_Do env req)), w1)
    /\ stdout w1 = stdout w
    /\ calls w1
       = pre ++ EvDo req :: snd (after_exchange response (client_Do env req))
    /\ Forall config_event pre
    /\ (debugFlag flags = false ->
        forall v, fst (after_exchange response (client_Do env req)) = Ret v ->
                  stderr w1 = stderr w)
    /\ fst (serverDetails flags env w) = Ret conf
    /\ calls (snd (serverDetails flags env w)) = pre
    /\ json_Marshal body = inr txBody
    /\ req = built_request method endpoint conf txBody.
Proof.
  intros Hw Hin.
  pose proof (doRequest_quiet flags env method endpoint body response w)
    as Hquiet.
  destruct (doRequest_spec flags env method endpoint body response w)
    as (Hout & pre & Hpre
        & [[_ Hc] | (conf & txBody & Hsd & Hpc & Hm & _ & Hr & Hc)]).
  - rewrite Hc, Hw in Hin. cbn [app] in Hin.
    now apply config_event_not_Do in Hin.
  - rewrite Hw in Hc. cbn [app] in Hc.
    assert (req = built_request method endpoint conf txBody) as ->.
    { rewrite Hc in Hin. apply in_app_or in Hin as [Hin | [Hin | Hin]].
      - now apply config_event_not_Do in Hin.
      - congruence.
      - exfalso. revert Hin. unfold after_exchange.
        repeat match goal with
               | |- context [match ?x with _ => _ end] => destruct x
               end; cbn; intuition discriminate. }
    destruct (doRequest _ _ _ _ _ _ _) as [o w1]; cbn [fst snd] in *.
    exists w1, pre, conf, txBody. rewrite <- Hr.
    rewrite Hw in Hpc. cbn [app] in Hpc.
    repeat split; try assumption; try reflexivity.
    intros Hoff v Hv. now apply (Hquiet v).
Qed.
End Handlers.

(** ** Steps that leave the log alone *)

Lemma keeps_ret {A} (a : A) : keeps_calls (ret a).
Proof. intros w. reflexivity. Qed.

Lemma keeps_Exit {A} (code : Z) : keeps_calls (@os_Exit A code).
Proof. intros w. reflexivity. Qed.

Lemma keeps_stdout (s : string) : keeps_calls (write_stdout s).
Proof. intros w. reflexivity. Qed.

Lemma keeps_stderr (s : string) : keeps_calls (write_stderr s).
Proof. intros w. reflexivity. Qed.

Lemma keeps_bind {A B} (m : M A) (k : A -> M B) :
  keeps_calls m -> (forall a, keeps_calls (k a)) -> keeps_calls (bind m k).
Proof.
  intros Hm Hk w. rewrite bind_eq. specialize (Hm w).
  destruct (m w) as [[a|st] w1]; cbn [fst snd] in *.
  - now rewrite Hk.
  - assumption.
Qed.

Ltac keeps :=
  repeat first
    [ apply keeps_ret | apply keeps_Exit | apply keeps_stdout
    | apply keeps_stderr
    | apply keeps_bind; [|intros ?]
    | match goal with
      | |- keeps_calls (if ?b then _ else _) => destruct b
      | |- keeps_calls (match ?x with _ => _ end) => destruct x
      end
    | progress unfold Printf, Println, Fprintf_Stderr, errPrintf, debug,
        kingpin_Fatalf, kingpin_FatalIfError, kingpin_fatal, kingpin_Errorf,
        orFatal ].

(** ** What follows the answer of the server *)

Lemma after_exchange_status {RT : GoRuntime} {R} `{Unmarshaler R} (response : R)
    (sent : error + Response) (resp : Response) :
  sent = inr resp ->
  Response_StatusCode resp <> 200%Z ->
  after_exchange response sent = (Ret (Response_StatusCode resp, response), []).
Proof.
  intros -> Hst. unfold after_exchange.
  apply Z.eqb_neq in Hst. now rewrite Hst.
Qed.

Lemma after_exchange_ok {RT : GoRuntime} {R} `{Unmarshaler R} (response response' : R)
    (sent : error + Response) (resp : Response) (rxBody : string) :
  sent = inr resp ->
  Response_StatusCode resp = 200%Z ->
  Response_Body resp = inr rxBody ->
  json_decode rxBody response = inr response' ->
  after_exchange response sent
  = (Ret (200%Z, response'), [EvReadAll; EvUnmarshal rxBody]).
Proof.
  intros -> Hst Hbody Hdec. unfold after_exchange.
  now rewrite Hst, Hbody, Hdec.
Qed.

(** ** Strings the encoder writes as they stand *)

Lemma escape_plain (c : ascii) :
  plain_byte c = true ->
  (byte_val c <? 128)%N = true /\ escape_ascii c = str1 c.
Proof.
  unfold plain_byte, escape_ascii, in_range. cbv zeta.
  intros Hc. apply andb_prop in Hc as [Hrange Hnot].
  apply andb_prop in Hrange as [Hlo Hhi].
  apply N.leb_le in Hlo. apply N.leb_le in Hhi.
  apply negb_true_iff in Hnot.
  repeat (apply orb_false_iff in Hnot as [Hnot ?]).
  split; [apply N.ltb_lt; lia|].
  repeat match goal with
         | H : (_ =? _)%N = false |- _ => rewrite H; clear H
         end.
  destruct (N.eqb_spec (byte_val c) 10); [lia|].
  destruct (N.eqb_spec (byte_val c) 13); [lia|].
  destruct (N.eqb_spec (byte_val c) 9); [lia|].
  destruct (N.ltb_spec (byte_val c) 32); [lia|].
  reflexivity.
Qed.

Lemma encode_chars_plain (s : string) :
  plain s = true -> encode_chars Fresh s = s.
Proof.
  induction s as [|c s IH]; [reflexivity|].
  cbn [plain]. intros Hs. apply andb_prop in Hs as [Hc Hs].
  destruct (escape_plain c Hc) as [Hlt Hesc].
  cbn [encode_chars]. rewrite Hlt, Hesc, (IH Hs). reflexivity.
Qed.

Lemma encode_plain (value : string) :
  plain value = true -> encode_string value = q value.
Proof.
  intros Hs. unfold encode_string, q. now rewrite encode_chars_plain.
Qed.

(** ** Formats of the program, laid out *)

Section Layouts.
Context {RT : GoRuntime}.

Lemma Sprintf_conflict :
  Sprintf ("conflict" +:+ newline) [] = "conflict" +:+ newline.
Proof. reflexivity. Qed.

Lemma Sprintf_s (s : string) :
  Sprintf ("%s" +:+ newline) [VString s] = s +:+ newline.
Proof. reflexivity. Qed.

Lemma Sprintf_pair (a b : string) :
  Sprintf ("%s/%s" +:+ newline) [VString a; VString b]
  = a +:+ "/" +:+ b +:+ newline.
Proof. reflexivity. Qed.

Lemma Sprintf_Code (s : string) :
  Sprintf ("Code: %s" +:+ newline) [VString s] = "Code: " +:+ s +:+ newline.
Proof. reflexivity. Qed.

Lemma Sprintf_FullURL (s : string) :
  Sprintf ("Full URL: %s" +:+ newline) [VString s]
  = "Full URL: " +:+ s +:+ newline.
Proof. reflexivity. Qed.

Lemma Sprintf_Owner (s : string) :
  Sprintf ("Owner: %s" +:+ newline) [VString s] = "Owner: " +:+ s +:+ newline.
Proof. reflexivity. Qed.

Lemma Sprintf_Created (s : string) :
  Sprintf ("Created at: %s" +:+ newline) [VString s]
  = "Created at: " +:+ s +:+ newline.
Proof. reflexivity. Qed.

Lemma Sprintf_UserMeta (s : string) :
  Sprintf ("User-defined metadata: %s" +:+ newline) [VString s]
  = "User-defined metadata: " +:+ s +:+ newline.
Proof. reflexivity. Qed.
End Layouts.

(** ** The configuration file, member by member *)

Lemma fold_name_APIKey : fold_name "APIKey" = "APIKEY".
Proof. vm_compute. reflexivity. Qed.

Lemma fold_name_Server : fold_name "Server" = "SERVER".
Proof. vm_compute. reflexivity. Qed.

Lemma decode_string_inv (x : context) (type : string) (v : json)
    (old s : string) :
  decode_string x type v old = inr s ->
  s = match v with JString s' | JEscaped _ s' => s' | _ => old end.
Proof. destruct v; cbn [decode_string]; congruence. Qed.

Lemma decode_Config_members (ms : list (string * json)) (c c' : Config) :
  decode_members "Config" []
    [ string_field "APIKey" "main.APIKey" Config_APIKey
        (fun s c => {| Config_APIKey := s; Config_Server := Config_Server c |});
      string_field "Server" "string" Config_Server
        (fun s c => {| Config_APIKey := Config_APIKey c; Config_Server := s |}) ]
    ms c = inr c' ->
  Config_APIKey c' = string_member "APIKey" ms (Config_APIKey c)
  /\ Config_Server c' = string_member "Server" ms (Config_Server c).
Proof.
  revert c. induction ms as [|[k v] ms IH]; intros c.
  - intros [= <-]. split; reflexivity.
  - cbn [decode_members string_member].
    rewrite fold_name_APIKey, fold_name_Server.
    unfold find_field. cbn [find_by string_field field_name].
    rewrite fold_name_APIKey, fold_name_Server.
    assert (Hexact1 : String.eqb "APIKey" k = true ->
                      String.eqb "APIKEY" (fold_name k) = true
                      /\ String.eqb "SERVER" (fold_name k) = false).
    { intros E. apply String.eqb_eq in E. subst k.
      rewrite fold_name_APIKey. split; reflexivity. }
    assert (Hexact2 : String.eqb "Server" k = true ->
                      String.eqb "APIKEY" (fold_name k) = false
                      /\ String.eqb "SERVER" (fold_name k) = true).
    { intros E. apply String.eqb_eq in E. subst k.
      rewrite fold_name_Server. split; reflexivity. }
    assert (Hfold : String.eqb "APIKEY" (fold_name k) = true ->
                    String.eqb "SERVER" (fold_name k) = false).
    { intros E. apply String.eqb_eq in E. rewrite <- E. reflexivity. }
    destruct (String.eqb "APIKey" k) eqn:Ek1.
    { destruct (Hexact1 eq_refl) as [-> ->].
      cbn [field_set string_field].
      destruct (decode_string _ _ v (Config_APIKey c)) as [e|s] eqn:Hs;
        [discriminate|].
      apply decode_string_inv in Hs. subst s.
      intros Hd. apply IH in Hd. exact Hd. }
    destruct (String.eqb "Server" k) eqn:Ek2.
    { destruct (Hexact2 eq_refl) as [-> ->].
      cbn [field_set string_field].
      destruct (decode_string _ _ v (Config_Server c)) as [e|s] eqn:Hs;
        [discriminate|].
      apply decode_string_inv in Hs. subst s.
      intros Hd. apply IH in Hd. exact Hd. }
    destruct (String.eqb "APIKEY" (fold_name k)) eqn:Ef1.
    { rewrite (Hfold eq_refl).
      cbn [field_set string_field].
      destruct (decode_string _ _ v (Config_APIKey c)) as [e|s] eqn:Hs;
        [discriminate|].
      apply decode_string_inv in Hs. subst s.
      intros Hd. apply IH in Hd. exact Hd. }
    destruct (String.eqb "SERVER" (fold_name k)) eqn:Ef2.
    { cbn [field_set string_field].
      destruct (decode_string _ _ v (Config_Server c)) as [e|s] eqn:Hs;
        [discriminate|].
      apply decode_string_inv in Hs. subst s.
      intros Hd. apply IH in Hd. exact Hd. }
    intros Hd. apply IH in Hd. exact Hd.
Qed.

(** ** Runs that differ in [--debug] only *)

Lemma blind_ret {A} (a : A) : blind (ret a) (ret a).
Proof. intros w1 w2 Hw. split; [reflexivity|exact Hw]. Qed.

Lemma blind_Exit {A} (code : Z) : blind (@os_Exit A code) (os_Exit code).
Proof. intros w1 w2 Hw. split; [reflexivity|exact Hw]. Qed.

Lemma blind_stdout (s : string) : blind (write_stdout s) (write_stdout s).
Proof.
  intros w1 w2 [Ho Hc]. split; [reflexivity|].
  split; cbn [write_stdout snd stdout calls]; congruence.
Qed.

Lemma blind_stderr (s1 s2 : string) : blind (write_stderr s1) (write_stderr s2).
Proof. intros w1 w2 [Ho Hc]. split; [reflexivity|]. split; assumption. Qed.

Lemma blind_stderr_l (s : string) : blind (write_stderr s) (ret tt).
Proof. intros w1 w2 [Ho Hc]. split; [reflexivity|]. split; assumption. Qed.

Lemma blind_stderr_r (s : string) : blind (ret tt) (write_stderr s).
Proof. intros w1 w2 [Ho Hc]. split; [reflexivity|]. split; assumption. Qed.

Lemma blind_log (e : event) : blind (log e) (log e).
Proof.
  intros w1 w2 [Ho Hc]. split; [reflexivity|].
  split; cbn [log snd stdout calls]; congruence.
Qed.

Lemma blind_bind {A B} (m1 m2 : M A) (k1 k2 : A -> M B) :
  blind m1 m2 -> (forall a, blind (k1 a) (k2 a)) ->
  blind (bind m1 k1) (bind m2 k2).
Proof.
  intros Hm Hk w1 w2 Hw. rewrite !bind_eq. specialize (Hm w1 w2 Hw).
  destruct (m1 w1) as [[a1|st1] w1'], (m2 w2) as [[a2|st2] w2'];
    cbn [fst snd] in *; destruct Hm as [Ho Hw']; try discriminate.
  - injection Ho as ->. now apply Hk.
  - injection Ho as ->. split; [reflexivity|assumption].
Qed.

Lemma blind_debug {RT : GoRuntime} (f1 f2 : Flags) (fmat : string)
    (objs1 objs2 : list GoValue) :
  blind (debug f1 fmat objs1) (debug f2 fmat objs2).
Proof.
  unfold debug, errPrintf, Fprintf_Stderr.
  destruct (debugFlag f1), (debugFlag f2);
    auto using blind_stderr, blind_stderr_l, blind_stderr_r, blind_ret.
Qed.

Ltac blind :=
  repeat first
    [ apply blind_ret | apply blind_Exit | apply blind_stdout
    | apply blind_stderr | apply blind_log | apply blind_debug
    | apply blind_bind; [|intros ?]
    | match goal with
      | |- blind (if ?b then _ else _) (if ?b then _ else _) => destruct b
      | |- blind (match ?x with _ => _ end) (match ?x with _ => _ end) =>
        destruct x
      end
    | progress unfold Printf, Println, Fprintf_Stderr, errPrintf,
        kingpin_Fatalf, kingpin_FatalIfError, kingpin_fatal, kingpin_Errorf,
        orFatal, client_Do_M, ioutil_ReadAll, json_Unmarshal
    | progress cbn [with_debug serverFlag apiKeyFlag shortcodeArg metaArg
                    shortenUrlArg rmShortcodeArg failNoexistArg metaJsonOut
                    metaCodeArg] ].

Section Blind.
Context {RT : GoRuntime}.
Variable flags : Flags.
Variable env : Env.
Variables b1 b2 : bool.

Lemma blind_serverDetails :
  blind (serverDetails (with_debug b1 flags) env)
        (serverDetails (with_debug b2 flags) env).
Proof. unfold serverDetails. blind. Qed.

Lemma blind_makeRequest conf method endpoint body :
  blind (makeRequest env conf method endpoint body)
        (makeRequest env conf method endpoint body).
Proof. unfold makeRequest. blind. Qed.

Lemma blind_doRequest {B R} `{Marshaler B} `{Unmarshaler R}
    (method endpoint : string) (body : B) (response : R) :
  blind (doRequest (with_debug b1 flags) env method endpoint body response)
        (doRequest (with_debug b2 flags) env method endpoint body response).
Proof.
  unfold doRequest.
  apply blind_bind; [apply blind_serverDetails|intros conf].
  apply blind_bind; [apply blind_debug|intros _].
  apply blind_bind; [blind|intros txBody].
  apply blind_bind; [apply blind_debug|intros _].
  apply blind_bind; [apply blind_makeRequest|intros req].
  blind.
Qed.

Lemma blind_main cmd :
  blind (main (with_debug b1 flags) env cmd)
        (main (with_debug b2 flags) env cmd).
Proof.
  unfold main, shorten, rm, meta. destruct cmd.
  all: apply blind_bind; [apply blind_debug|intros _].
  all: apply blind_bind; [apply blind_doRequest|intros r].
  all: blind.
Qed.
End Blind.

(* ===================================================================== *)
(** * Properties of the commands *)

Section Commands.
Context {RT : GoRuntime}.
Variable flags : Flags.
Variable env : Env.

(** [main] traces the command and hands over to its handler with
    nothing printed and nothing logged yet. *)
Lemma run_handler cmd :
  exists w0,
    stdout w0 = EmptyString /\ calls w0 = []
    /\ (debugFlag flags = false -> stderr w0 = EmptyString)
    /\ run flags env cmd
       = match cmd with
         | shortenCommand => shorten flags env w0
         | rmCommand => rm flags env w0
         | metaCommand => meta flags env w0
         end.
Proof.
  unfold run, main.
  destruct cmd; rewrite bind_eq;
    match goal with
    | |- context [debug flags ?f ?o ?w] =>
      destruct (debug flags f o w) as [r w0] eqn:Hd;
      apply debug_inv in Hd; destruct Hd as (-> & Ho & Hc & Hq & _)
    end; exists w0; cbn [World_init stdout stderr calls] in *; auto.
Qed.

Lemma shorten_calls w :
  calls (snd (shorten flags env w))
  = calls (snd (doRequest flags env MethodPost ShortenEndpoint
                  {| ShortenRequest_Url := URL_String (shortenUrlArg flags);
                     ShortenRequest_Shortcode := shortcodeArg flags;
                     ShortenRequest_Meta := metaArg flags |}
                  {| ShortenResponse_ShortUrl := EmptyString |} w)).
Proof.
  unfold shorten. rewrite bind_eq.
  destruct (doRequest _ _ _ _ _ _ _) as [[r|st] w1]; [|reflexivity].
  cbn [snd]. match goal with |- calls (snd (?t w1)) = _ =>
    assert (Hk : keeps_calls t) by keeps; apply Hk end.
Qed.

Lemma rm_calls w :
  calls (snd (rm flags env w))
  = calls (snd (doRequest flags env MethodPost DeleteEndpoint
                  {| DeleteRequest_Code := rmShortcodeArg flags |}
                  {| DeleteResponse_Code := EmptyString;
                     DeleteResponse_Status := EmptyString |} w)).
Proof.
  unfold rm. rewrite bind_eq.
  destruct (doRequest _ _ _ _ _ _ _) as [[r|st] w1]; [|reflexivity].
  cbn [snd]. match goal with |- calls (snd (?t w1)) = _ =>
    assert (Hk : keeps_calls t) by keeps; apply Hk end.
Qed.

Lemma meta_calls w :
  calls (snd (meta flags env w))
  = calls (snd (doRequest flags env MethodGet
                  (MetaEndpoint +:+ metaCodeArg flags) Build_Empty
                  MetaResponse_zero w)).
Proof.
  unfold meta. rewrite bind_eq.
  destruct (doRequest _ _ _ _ _ _ _) as [[r|st] w1]; [|reflexivity].
  cbn [snd]. match goal with |- calls (snd (?t w1)) = _ =>
    assert (Hk : keeps_calls t) by keeps; apply Hk end.
Qed.

(** C6.  A [meta] run whose exchange with the server was answered
    with status 404 prints the line [noexist] on standard output and
    nothing else there, and its exit status is exactly 1. *)
Theorem meta_not_found req resp :
  In (EvDo req) (calls (snd (run flags env metaCommand))) ->
  client_Do env req = inr resp ->
  Response_StatusCode resp = 404%Z ->
  stdout (snd (run flags env metaCommand)) = "noexist" +:+ newline
  /\ exit_status (run flags env metaCommand) = 1%Z.
Proof.
  destruct (run_handler metaCommand) as (w & Hout0 & Hw & _ & ->).
  intros Hin Hdo Hst. rewrite meta_calls in Hin.
  apply doRequest_exchange in Hin
    as (w1 & pre & conf & txBody & Heq & Hout & _); [|assumption].
  unfold exit_status, meta. rewrite bind_eq, Heq, Hdo.
  unfold after_exchange. rewrite Hst. cbn [Z.eqb negb fst snd Pos.eqb].
  exec. rewrite Hout, Hout0. split; reflexivity.
Qed.

(** C1, as the program has it.  A [shorten] run whose exchange with the
    server was answered with status 409 writes the line [conflict] to
    standard error, after the trace lines if [--debug] is set, and
    nothing to standard output; it exits with status 255, the low
    byte of the -1 it hands to [os.Exit]; and the exchange is the last
    entry of its log: the body of the answer is neither read nor
    deserialized. *)
Theorem shorten_conflict req resp :
  In (EvDo req) (calls (snd (run flags env shortenCommand))) ->
  client_Do env req = inr resp ->
  Response_StatusCode resp = 409%Z ->
  stdout (snd (run flags env shortenCommand)) = EmptyString
  /\ exit_status (run flags env shortenCommand) = 255%Z
  /\ (exists trace,
        stderr (snd (run flags env shortenCommand))
        = trace +:+ "conflict" +:+ newline)
  /\ (debugFlag flags = false ->
      stderr (snd (run flags env shortenCommand)) = "conflict" +:+ newline)
  /\ (exists pre,
        calls (snd (run flags env shortenCommand)) = pre ++ [EvDo req]
        /\ Forall config_event pre).
Proof.
  destruct (run_handler shortenCommand) as (w & Hout0 & Hw & Herr0 & ->).
  intros Hin Hdo Hst. rewrite shorten_calls in Hin.
  apply doRequest_exchange in Hin
    as (w1 & pre & conf & txBody & Heq & Hout & Hcalls & Hpre & Hquiet & _);
    [|assumption].
  rewrite (after_exchange_status _ _ resp Hdo) in Heq, Hcalls, Hquiet
    by (rewrite Hst; discriminate).
  unfold exit_status, shorten. rewrite bind_eq, Heq, Hst.
  cbn [Z.eqb Pos.eqb negb fst snd]. unfold errPrintf. exec.
  rewrite Sprintf_conflict, Hout, Hout0.
  repeat split.
  - now exists (stderr w1).
  - intros Hoff. rewrite (Hquiet Hoff _ eq_refl), (Herr0 Hoff). reflexivity.
  - exists pre. split; assumption.
Qed.

(** C5.  A [delete] run whose exchange was answered with status 200
    and a body that decodes to [r] prints [code/status]; its exit
    status is 0 when the status is [noexist] and [--fail-no-exist] is
    unset, 1 when the status is [noexist] and the flag is set, and 0
    when the status is [deleted], whatever the flag. *)
Theorem rm_exit_status req resp rxBody r :
  In (EvDo req) (calls (snd (run flags env rmCommand))) ->
  client_Do env req = inr resp ->
  Response_StatusCode resp = 200%Z ->
  Response_Body resp = inr rxBody ->
  json_decode rxBody {| DeleteResponse_Code := EmptyString;
                        DeleteResponse_Status := EmptyString |} = inr r ->
  stdout (snd (run flags env rmCommand))
  = DeleteResponse_Code r +:+ "/" +:+ DeleteResponse_Status r +:+ newline
  /\ (DeleteResponse_Status r = "noexist" -> failNoexistArg flags = false ->
      exit_status (run flags env rmCommand) = 0%Z)
  /\ (DeleteResponse_Status r = "noexist" -> failNoexistArg flags = true ->
      exit_status (run flags env rmCommand) = 1%Z)
  /\ (DeleteResponse_Status r = "deleted" ->
      exit_status (run flags env rmCommand) = 0%Z).
Proof.
  destruct (run_handler rmCommand) as (w & Hout0 & Hw & _ & ->).
  intros Hin Hdo Hst Hbody Hdec. rewrite rm_calls in Hin.
  apply doRequest_exchange in Hin
    as (w1 & pre & conf & txBody & Heq & Hout & _); [|assumption].
  rewrite (after_exchange_ok _ _ _ resp rxBody Hdo Hst Hbody Hdec) in Heq.
  unfold exit_status, rm. rewrite bind_eq, Heq.
  cbn [Z.eqb Pos.eqb negb fst snd]. exec.
  rewrite Sprintf_pair, Hout, Hout0.
  destruct (failNoexistArg flags) eqn:Hflag,
           (String.eqb (DeleteResponse_Status r) "noexist") eqn:Hstatus;
    cbn [andb fst snd stdout]; repeat split; intros;
    try reflexivity; try discriminate;
    match goal with
    | Hs : DeleteResponse_Status r = _ |- _ =>
      rewrite Hs in Hstatus; discriminate
    end.
Qed.

(** C10.  A [meta] run in human-readable mode whose exchange was
    answered with status 200 and a body that decodes to [r] prints the
    requested code in upper case on its [Code:] line, and the
    [User-defined metadata:] line exactly when the user metadata of
    [r] is not the empty string; it exits with status 0. *)
Theorem meta_human_output req resp rxBody r :
  In (EvDo req) (calls (snd (run flags env metaCommand))) ->
  client_Do env req = inr resp ->
  Response_StatusCode resp = 200%Z ->
  Response_Body resp = inr rxBody ->
  json_decode rxBody MetaResponse_zero = inr r ->
  metaJsonOut flags = false ->
  stdout (snd (run flags env metaCommand))
  = "Code: " +:+ strings_ToUpper (metaCodeArg flags) +:+ newline
    +:+ "Full URL: " +:+ MetaResponse_FullUrl r +:+ newline
    +:+ "Owner: " +:+ LinkMetadata_Owner (MetaResponse_Meta r) +:+ newline
    +:+ "Created at: "
    +:+ Time_UnixDate (LinkMetadata_Time (MetaResponse_Meta r)) +:+ newline
    +:+ match LinkMetadata_UserMeta (MetaResponse_Meta r) with
        | EmptyString => EmptyString
        | um => "User-defined metadata: " +:+ um +:+ newline
        end
  /\ exit_status (run flags env metaCommand) = 0%Z.
Proof.
  destruct (run_handler metaCommand) as (w & Hout0 & Hw & _ & ->).
  intros Hin Hdo Hst Hbody Hdec Hjson. rewrite meta_calls in Hin.
  apply doRequest_exchange in Hin
    as (w1 & pre & conf & txBody & Heq & Hout & _); [|assumption].
  rewrite (after_exchange_ok _ _ _ resp rxBody Hdo Hst Hbody Hdec) in Heq.
  unfold exit_status, meta. rewrite bind_eq, Heq, Hjson.
  cbn [Z.eqb Pos.eqb negb fst snd]. exec.
  rewrite Sprintf_Code, Sprintf_FullURL, Sprintf_Owner, Sprintf_Created.
  rewrite Hout, Hout0.
  destruct (LinkMetadata_UserMeta (MetaResponse_Meta r)) as [|c um] eqn:Hum;
    cbn [String.eqb negb]; exec.
  - split; [|reflexivity]. rewrite !append_assoc. reflexivity.
  - rewrite Sprintf_UserMeta. split; [|reflexivity].
    rewrite !append_assoc. reflexivity.
Qed.

(** Every command starts its round trip by resolving the configuration:
    when that ends the process, the run ends there. *)
Lemma run_config_exit cmd st :
  (forall w, fst (serverDetails flags env w) = Exit st) ->
  exit_status (run flags env cmd) = st
  /\ stdout (snd (run flags env cmd)) = EmptyString.
Proof.
  intros Hsd. destruct (run_handler cmd) as (w & Hout0 & _ & _ & ->).
  specialize (Hsd w).
  pose proof (serverDetails_frame flags env w) as (Hout & _).
  unfold exit_status.
  destruct cmd; unfold shorten, rm, meta; rewrite bind_eq;
    unfold doRequest; rewrite bind_eq;
    destruct (serverDetails flags env w) as [[c|st'] w1];
    cbn [fst snd] in *; try discriminate;
    injection Hsd as ->; split; congruence.
Qed.

(** C7.  When the configuration file of the user does not exist,
    [serverDetails] goes on with the empty defaults under the flags:
    no exit, nothing on standard output, and nothing on standard error
    either unless [--debug] asks for the trace.  When the file exists
    and its content is not JSON, [serverDetails] ends the process with
    status 1 after one more line on standard error, the line of
    [kingpin] that carries the message of the decoder's own syntax
    error for that content; and the run, whatever the command, exits
    with status 1 with nothing on standard output and no request
    sent. *)
Theorem config_file_absent_or_unparsable home w :
  user_Current env = inr home ->
  (forall err,
      ReadFile env (config_path home) = inl err ->
      IsNotExist err = true ->
      fst (serverDetails flags env w)
      = Ret {| Config_APIKey :=
                 if negb (String.eqb (apiKeyFlag flags) EmptyString)
                 then apiKeyFlag flags else EmptyString;
               Config_Server :=
                 match serverFlag flags with
                 | Some u => URL_String u
                 | None => EmptyString
                 end |}
      /\ stdout (snd (serverDetails flags env w)) = stdout w
      /\ (debugFlag flags = false ->
          stderr (snd (serverDetails flags env w)) = stderr w))
  /\ (forall file,
         ReadFile env (config_path home) = inr file ->
         json_parse file = None ->
         fst (serverDetails flags env w) = Exit 1%Z
         /\ stderr (snd (serverDetails flags env w))
            = stderr w
              +:+ Sprintf (program_name env
                           +:+ ": error: error parsing ~/.pare.json: %s"
                           +:+ newline) [VError (json_SyntaxError file)]
         /\ forall cmd,
              exit_status (run flags env cmd) = 1%Z
              /\ stdout (snd (run flags env cmd)) = EmptyString
              /\ calls (snd (run flags env cmd))
                 = [EvReadFile (config_path home); EvUnmarshal file]).
Proof.
  intros Hhome. split.
  - intros err Hread Hne.
    destruct (serverDetails_absent flags env w home err Hhome Hread Hne)
      as (Hr & Hout & _ & Herr).
    repeat split; assumption.
  - intros file Hread Hparse.
    assert (Hdec : json_decode file Config_zero
                   = inl (json_SyntaxError file)).
    { unfold json_decode. now rewrite Hparse. }
    rewrite (serverDetails_refused flags env w home file _ Hhome Hread Hdec).
    split; [reflexivity|]. split; [reflexivity|].
    intros cmd.
    assert (Hexit : forall w', fst (serverDetails flags env w') = Exit 1%Z).
    { intros w'.
      now rewrite (serverDetails_refused flags env w' home file _
                     Hhome Hread Hdec). }
    split; [|split].
    + now apply run_config_exit.
    + now apply (run_config_exit cmd 1%Z).
    + destruct (run_handler cmd) as (w0 & _ & Hw0 & _ & ->).
      pose proof (serverDetails_refused flags env w0 home file _
                    Hhome Hread Hdec) as Hsd.
      destruct cmd; unfold shorten, rm, meta; rewrite bind_eq;
        unfold doRequest; rewrite bind_eq, Hsd; cbn [fst snd calls];
        rewrite Hw0; reflexivity.
Qed.

(** C2, as the program has it.  For a configuration file whose content
    is valid JSON: if the value does not fit the [Config] structure the
    process exits with status 1; otherwise the resolved configuration
    takes each field from the flag when the flag overrides and from the
    file when it does not, the file giving the empty default for a
    field it does not set.  [--apikey] overrides when it is not empty;
    [--server] overrides whenever it is given, also when the URL it
    holds prints as the empty string. *)
Theorem serverDetails_precedence home file j w :
  user_Current env = inr home ->
  ReadFile env (config_path home) = inr file ->
  json_parse file = Some j ->
  match UnmarshalJSON j Config_zero with
  | inl _ => fst (serverDetails flags env w) = Exit 1%Z
  | inr fromFile =>
    fst (serverDetails flags env w)
    = Ret {| Config_APIKey :=
               if String.eqb (apiKeyFlag flags) EmptyString
               then Config_APIKey fromFile else apiKeyFlag flags;
             Config_Server :=
               match serverFlag flags with
               | Some u => URL_String u
               | None => Config_Server fromFile
               end |}
    /\ forall members,
         j = JObject members ->
         Config_APIKey fromFile = string_member "APIKey" members EmptyString
         /\ Config_Server fromFile
            = string_member "Server" members EmptyString
  end.
Proof.
  intros Hhome Hread Hparse.
  destruct (UnmarshalJSON j Config_zero) as [e|fromFile] eqn:Hdec.
  - assert (Hd : json_decode file Config_zero = inl e).
    { unfold json_decode. now rewrite Hparse. }
    now rewrite (serverDetails_refused flags env w home file _
                   Hhome Hread Hd).
  - assert (Hd : json_decode file Config_zero = inr fromFile).
    { unfold json_decode. now rewrite Hparse. }
    rewrite (serverDetails_parsed flags env w home file _ Hhome Hread Hd).
    split.
    + unfold layered. cbn [fst].
      destruct (String.eqb (apiKeyFlag flags) EmptyString); reflexivity.
    + intros members ->.
      apply (decode_Config_members members Config_zero fromFile Hdec).
Qed.


(** C3.  With the configuration file of the scenario, no flag given
    and the URL [http://a.com], a [shorten] run reads the file, sends
    one request, a POST to [https://s.example/api/shorten] that carries
    the key [k1] and the body with the [url] member alone, reads the
    answer of status 200 and, from its [short_url], prints
    [https://s.example/abc]; it exits with status 0. *)
Theorem shorten_end_to_end home :
  user_Current env = inr home ->
  ReadFile env (config_path home) = inr sample_config ->
  serverFlag flags = None ->
  apiKeyFlag flags = EmptyString ->
  shortcodeArg flags = EmptyString ->
  metaArg flags = EmptyString ->
  URL_String (shortenUrlArg flags) = "http://a.com" ->
  NewRequest_error "POST" "https://s.example/api/shorten" = None ->
  client_Do env scenario_request = inr scenario_response ->
  calls (snd (run flags env shortenCommand))
  = [ EvReadFile (config_path home); EvUnmarshal sample_config;
      EvDo scenario_request; EvReadAll; EvUnmarshal scenario_reply ]
  /\ Request_Header scenario_request !! "X-API-Key" = Some ["k1"]
  /\ stdout (snd (run flags env shortenCommand))
     = "https://s.example/abc" +:+ newline
  /\ exit_status (run flags env shortenCommand) = 0%Z.
Proof.
  intros Hhome Hread Hserver Hkey Hcode Hmeta Hurl Hnew Hdo.
  destruct (run_handler shortenCommand) as (w & Hout0 & Hw & _ & ->).
  assert (Hdec : json_decode sample_config Config_zero
                 = inr {| Config_APIKey := "k1";
                          Config_Server := "https://s.example" |})
    by (vm_compute; reflexivity).
  pose proof (serverDetails_parsed flags env w home _ _ Hhome Hread Hdec)
    as Hsd.
  unfold layered in Hsd. rewrite Hserver, Hkey in Hsd.
  cbn [String.eqb negb Config_APIKey Config_Server] in Hsd.
  assert (Hm : json_Marshal
                 {| ShortenRequest_Url := URL_String (shortenUrlArg flags);
                    ShortenRequest_Shortcode := shortcodeArg flags;
                    ShortenRequest_Meta := metaArg flags |}
               = inr (Request_Body scenario_request)).
  { rewrite Hurl, Hcode, Hmeta. vm_compute. reflexivity. }
  destruct (doRequest_forward flags env MethodPost ShortenEndpoint _
              {| ShortenResponse_ShortUrl := EmptyString |}
              w _ _ _ Hsd Hm Hnew) as (w2 & Heq & Hout & Hcalls).
  change (built_request MethodPost ShortenEndpoint
            {| Config_APIKey := "k1"; Config_Server := "https://s.example" |}
            (Request_Body scenario_request))
    with scenario_request in *.
  assert (Hrx : json_decode scenario_reply
                  {| ShortenResponse_ShortUrl := EmptyString |}
                = inr {| ShortenResponse_ShortUrl := "https://s.example/abc" |})
    by (vm_compute; reflexivity).
  rewrite (after_exchange_ok _ _ _ scenario_response scenario_reply
             Hdo eq_refl eq_refl Hrx) in Heq, Hcalls.
  rewrite shorten_calls. unfold exit_status, shorten.
  rewrite bind_eq, Heq. cbn [fst snd Z.eqb Pos.eqb negb].
  exec. rewrite Sprintf_s, Hout, Hcalls. cbn [stdout calls]. rewrite Hout0, Hw.
  repeat split.
Qed.
End Commands.

(** C8, as the program has it.  Serializing the request with URL
    [http://x] and empty shortcode and metadata gives a text with the
    [url] member alone: the two optional members are absent from the
    text.  Reading that text back into a [ShortenRequest] gives the
    request again, and in it the two fields are the empty string: the
    fields are strings, which have no absent state, and the text that
    spells both members out as empty strings is read back to the very
    same value. *)
Theorem ShortenRequest_round_trip {RT : GoRuntime} :
  let r := {| ShortenRequest_Url := "http://x";
              ShortenRequest_Shortcode := EmptyString;
              ShortenRequest_Meta := EmptyString |} in
  let text := "{" +:+ q "url" +:+ ":" +:+ q "http://x" +:+ "}" in
  let spelled :=
    "{" +:+ q "url" +:+ ":" +:+ q "http://x" +:+ ","
        +:+ q "code" +:+ ":" +:+ q EmptyString +:+ ","
        +:+ q "meta" +:+ ":" +:+ q EmptyString +:+ "}" in
  json_Marshal r = inr text
  /\ json_parse text = Some (JObject [("url", JString "http://x")])
  /\ (exists back,
        json_decode text ShortenRequest_zero = inr back
        /\ back = r
        /\ ShortenRequest_Shortcode back = EmptyString
        /\ ShortenRequest_Meta back = EmptyString
        /\ json_decode spelled ShortenRequest_zero = inr back).
Proof.
  cbv zeta. split; [vm_compute; reflexivity|].
  split; [vm_compute; reflexivity|].
  eexists. split; [vm_compute; reflexivity|].
  repeat split.
Qed.

Lemma with_debug_own (flags : Flags) :
  with_debug (debugFlag flags) (with_debug false flags) = flags.
Proof. destruct flags; reflexivity. Qed.

(** C9.  Two runs of a command on the same machine whose flags differ
    in [--debug] at most print the same on standard output, end with
    the same exit status and make the same calls to the outside: what
    [--debug] adds goes to standard error only. *)
Theorem debug_leaves_output_alone {RT : GoRuntime}
    (flags1 flags2 : Flags) (env : Env) (cmd : Command) :
  with_debug false flags1 = with_debug false flags2 ->
  stdout (snd (run flags1 env cmd)) = stdout (snd (run flags2 env cmd))
  /\ exit_status (run flags1 env cmd) = exit_status (run flags2 env cmd)
  /\ calls (snd (run flags1 env cmd)) = calls (snd (run flags2 env cmd)).
Proof.
  intros Hsame.
  rewrite <- (with_debug_own flags1), <- (with_debug_own flags2), <- Hsame.
  destruct (blind_main (with_debug false flags1) env
              (debugFlag flags1) (debugFlag flags2) cmd
              World_init World_init) as [Ho [Hout Hcalls]].
  { split; reflexivity. }
  unfold run, exit_status. rewrite Ho. repeat split; assumption.
Qed.

(* ===================================================================== *)
(** * The properties on the sample machines *)

Lemma meta_not_found_witness :
  In (EvDo meta_request) (calls (snd not_found_run))
  /\ client_Do not_found_machine meta_request = inr not_found_response
  /\ Response_StatusCode not_found_response = 404%Z
  /\ stdout (snd not_found_run) = "noexist" +:+ newline
  /\ exit_status not_found_run = 1%Z.
Proof.
  unfold not_found_run.
  assert (Hin : In (EvDo meta_request) (calls (snd (@run plain_runtime (bare_flags false "abc") not_found_machine metaCommand))))
    by (vm_compute; right; left; reflexivity).
  destruct (@meta_not_found plain_runtime (bare_flags false "abc")
              not_found_machine meta_request not_found_response Hin
              eq_refl eq_refl) as [Hout Hexit].
  repeat split; try assumption; reflexivity.
Defined.

Lemma shorten_conflict_witness :
  In (EvDo scenario_request) (calls (snd conflict_run))
  /\ client_Do conflict_machine scenario_request = inr conflict_response
  /\ Response_StatusCode conflict_response = 409%Z
  /\ stdout (snd conflict_run) = EmptyString
  /\ exit_status conflict_run = 255%Z
  /\ stderr (snd conflict_run) = "conflict" +:+ newline.
Proof.
  unfold conflict_run.
  assert (Hin : In (EvDo scenario_request) (calls (snd (@run plain_runtime scenario_flags conflict_machine shortenCommand))))
    by (vm_compute; right; right; left; reflexivity).
  destruct (@shorten_conflict plain_runtime scenario_flags conflict_machine
              scenario_request conflict_response Hin eq_refl eq_refl)
    as (Hout & Hexit & _ & Herr & _).
  repeat split; try assumption; try exact (Herr eq_refl); reflexivity.
Defined.

(** C1 as worded fails: on a 409 answer the word [conflict] is not on
    standard output, which stays empty. *)
Lemma shorten_conflict_counterexample :
  In (EvDo scenario_request) (calls (snd conflict_run))
  /\ client_Do conflict_machine scenario_request = inr conflict_response
  /\ Response_StatusCode conflict_response = 409%Z
  /\ contains (stdout (snd conflict_run)) "conflict" = false
  /\ contains (stderr (snd conflict_run)) "conflict" = true.
Proof.
  unfold conflict_run.
  repeat split; try reflexivity.
  vm_compute. right. right. left. reflexivity.
Qed.

Lemma rm_exit_status_witness :
  In (EvDo delete_request) (calls (snd delete_run))
  /\ client_Do delete_machine delete_request = inr delete_response
  /\ Response_StatusCode delete_response = 200%Z
  /\ Response_Body delete_response = inr delete_reply
  /\ @json_decode plain_runtime _ _ delete_reply
       {| DeleteResponse_Code := EmptyString;
          DeleteResponse_Status := EmptyString |}
     = inr {| DeleteResponse_Code := "abc";
              DeleteResponse_Status := "noexist" |}
  /\ stdout (snd delete_run) = "abc/noexist" +:+ newline
  /\ exit_status delete_run = 0%Z.
Proof.
  unfold delete_run.
  assert (Hin : In (EvDo delete_request) (calls (snd (@run plain_runtime (bare_flags false "abc") delete_machine rmCommand))))
    by (vm_compute; right; right; left; reflexivity).
  assert (Hdec : @json_decode plain_runtime _ _ delete_reply
                   {| DeleteResponse_Code := EmptyString;
                      DeleteResponse_Status := EmptyString |}
                 = inr {| DeleteResponse_Code := "abc";
                          DeleteResponse_Status := "noexist" |})
    by (vm_compute; reflexivity).
  destruct (@rm_exit_status plain_runtime (bare_flags false "abc")
              delete_machine delete_request delete_response delete_reply _
              Hin eq_refl eq_refl eq_refl Hdec)
    as (Hout & Hunset & _ & _).
  repeat split; try assumption; try exact (Hunset eq_refl eq_refl);
    reflexivity.
Defined.

Lemma meta_human_output_witness :
  In (EvDo meta_request) (calls (snd meta_run))
  /\ client_Do meta_machine meta_request = inr meta_response
  /\ Response_StatusCode meta_response = 200%Z
  /\ Response_Body meta_response = inr meta_reply
  /\ @json_decode plain_runtime _ (@MetaResponse_Unmarshaler plain_runtime)
       meta_reply (@MetaResponse_zero plain_runtime) = inr meta_decoded
  /\ metaJsonOut (bare_flags false "abc") = false
  /\ stdout (snd meta_run)
     = "Code: ABC" +:+ newline
       +:+ "Full URL: http://a.com" +:+ newline
       +:+ "Owner: ann" +:+ newline
       +:+ "Created at: 2017-03-01T10:00:00Z" +:+ newline
  /\ exit_status meta_run = 0%Z.
Proof.
  unfold meta_run.
  assert (Hin : In (EvDo meta_request) (calls (snd (@run plain_runtime (bare_flags false "abc") meta_machine metaCommand))))
    by (vm_compute; right; left; reflexivity).
  assert (Hdec : @json_decode plain_runtime _ (@MetaResponse_Unmarshaler plain_runtime)
                   meta_reply (@MetaResponse_zero plain_runtime)
                 = inr meta_decoded)
    by (vm_compute; reflexivity).
  destruct (@meta_human_output plain_runtime (bare_flags false "abc")
              meta_machine meta_request meta_response meta_reply _
              Hin eq_refl eq_refl eq_refl Hdec eq_refl)
    as (Hout & Hexit).
  repeat split; try assumption; try exact Hexit.
Defined.


Lemma shorten_end_to_end_witness :
  user_Current scenario_machine = inr "/home/u"
  /\ ReadFile scenario_machine (@config_path plain_runtime "/home/u")
     = inr sample_config
  /\ serverFlag scenario_flags = None
  /\ apiKeyFlag scenario_flags = EmptyString
  /\ shortcodeArg scenario_flags = EmptyString
  /\ metaArg scenario_flags = EmptyString
  /\ URL_String (shortenUrlArg scenario_flags) = "http://a.com"
  /\ @NewRequest_error plain_runtime "POST" "https://s.example/api/shorten"
     = None
  /\ client_Do scenario_machine scenario_request = inr scenario_response
  /\ calls (snd scenario_run)
     = [ EvReadFile "/home/u/.pare.json"; EvUnmarshal sample_config;
         EvDo scenario_request; EvReadAll; EvUnmarshal scenario_reply ]
  /\ stdout (snd scenario_run) = "https://s.example/abc" +:+ newline
  /\ exit_status scenario_run = 0%Z.
Proof.
  unfold scenario_run.
  destruct (@shorten_end_to_end plain_runtime scenario_flags scenario_machine
              "/home/u" eq_refl eq_refl eq_refl eq_refl eq_refl eq_refl
              eq_refl eq_refl eq_refl)
    as (Hcalls & _ & Hout & Hexit).
  repeat split; try assumption; try reflexivity.
Defined.

Lemma config_file_absent_or_unparsable_witness :
  user_Current not_found_machine = inr "/home/u"
  /\ fst (@serverDetails plain_runtime (bare_flags false "abc")
            not_found_machine World_init)
     = Ret Config_zero
  /\ stderr (snd (@serverDetails plain_runtime (bare_flags false "abc")
                    not_found_machine World_init)) = EmptyString
  /\ user_Current cut_config_machine = inr "/home/u"
  /\ ReadFile cut_config_machine (@config_path plain_runtime "/home/u")
     = inr "{"
  /\ json_parse "{" = None
  /\ stderr (snd (@serverDetails plain_runtime (bare_flags false "abc")
                    cut_config_machine World_init))
     = "pare: error: error parsing ~/.pare.json: "
       +:+ "unexpected end of JSON input" +:+ newline
  /\ exit_status (@run plain_runtime (bare_flags false "abc")
                    cut_config_machine rmCommand) = 1%Z.
Proof.
  destruct (@config_file_absent_or_unparsable plain_runtime
              (bare_flags false "abc") not_found_machine "/home/u"
              World_init eq_refl) as [Habsent _].
  destruct (Habsent ErrNotExist eq_refl eq_refl) as (Hr & _ & Herr).
  destruct (@config_file_absent_or_unparsable plain_runtime
              (bare_flags false "abc") cut_config_machine "/home/u"
              World_init eq_refl) as [_ Hcut].
  assert (Hparse : json_parse "{" = None) by (vm_compute; reflexivity).
  destruct (Hcut "{" eq_refl Hparse) as (_ & Hline & Hrun).
  destruct (Hrun rmCommand) as (Hexit & _).
  repeat split; try assumption; try exact (Herr eq_refl);
    try (rewrite Hline; vm_compute); reflexivity.
Defined.

Lemma serverDetails_precedence_witness :
  user_Current scenario_machine = inr "/home/u"
  /\ ReadFile scenario_machine (@config_path plain_runtime "/home/u")
     = inr sample_config
  /\ json_parse sample_config
     = Some (JObject [("APIKey", JString "k1");
                      ("Server", JString "https://s.example")])
  /\ fst (@serverDetails plain_runtime scenario_flags scenario_machine
            World_init)
     = Ret scenario_config.
Proof.
  assert (Hparse : json_parse sample_config
                   = Some (JObject [("APIKey", JString "k1");
                                    ("Server", JString "https://s.example")]))
    by (vm_compute; reflexivity).
  pose proof (@serverDetails_precedence plain_runtime scenario_flags
                scenario_machine "/home/u" sample_config _ World_init
                eq_refl eq_refl Hparse) as [Hr _].
  repeat split; try assumption; try reflexivity.
Defined.

(** C2 as worded fails for [--server]: given and empty, the flag still
    takes the place of the server the file names. *)
Lemma server_flag_counterexample :
  @json_decode plain_runtime _ _ sample_config Config_zero = inr scenario_config
  /\ fst (@serverDetails plain_runtime empty_server_flags scenario_machine
            World_init)
     = Ret {| Config_APIKey := "k1"; Config_Server := EmptyString |}
  /\ layered_as_specified empty_server_flags scenario_config
     = scenario_config
  /\ fst (@serverDetails plain_runtime empty_server_flags scenario_machine
            World_init)
     <> Ret (layered_as_specified empty_server_flags scenario_config).
Proof.
  repeat split; try (vm_compute; reflexivity).
  vm_compute. discriminate.
Qed.

Lemma debug_leaves_output_alone_witness :
  with_debug false (bare_flags true "http://a.com")
  = with_debug false (bare_flags false "http://a.com")
  /\ stdout (snd (@run plain_runtime (bare_flags true "http://a.com")
                    scenario_machine shortenCommand))
     = stdout (snd (@run plain_runtime (bare_flags false "http://a.com")
                      scenario_machine shortenCommand))
  /\ exit_status (@run plain_runtime (bare_flags true "http://a.com")
                    scenario_machine shortenCommand)
     = exit_status (@run plain_runtime (bare_flags false "http://a.com")
                      scenario_machine shortenCommand).
Proof.
  destruct (@debug_leaves_output_alone plain_runtime
              (bare_flags true "http://a.com") (bare_flags false "http://a.com")
              scenario_machine shortenCommand eq_refl)
    as (Hout & Hexit & _).
  split; [reflexivity|]. split; [exact Hout|exact Hexit].
Defined.


(* ===================================================================== *)
(** * The earlier revision of the request structure *)

(** With the pointer fields of the earlier revision an empty string is
    not an absent field: it is written out and read back as it is,
    and only [nil] is read back as [nil]. *)
Lemma legacy_round_trip_keeps_empty_strings {RT : GoRuntime} :
  let present :=
    {| Legacy.ShortenRequest_Url := "http://x";
       Legacy.ShortenRequest_Shortcode := Some EmptyString;
       Legacy.ShortenRequest_Meta := Some EmptyString |} in
  let absent :=
    {| Legacy.ShortenRequest_Url := "http://x";
       Legacy.ShortenRequest_Shortcode := None;
       Legacy.ShortenRequest_Meta := None |} in
  let present_text :=
    "{" +:+ q "url" +:+ ":" +:+ q "http://x" +:+ ","
        +:+ q "code" +:+ ":" +:+ q EmptyString +:+ ","
        +:+ q "meta" +:+ ":" +:+ q EmptyString +:+ "}" in
  let absent_text :=
    "{" +:+ q "url" +:+ ":" +:+ q "http://x" +:+ ","
        +:+ q "code" +:+ ":null," +:+ q "meta" +:+ ":null}" in
  json_Marshal present = inr present_text
  /\ json_decode present_text Legacy.ShortenRequest_zero = inr present
  /\ json_Marshal absent = inr absent_text
  /\ json_decode absent_text Legacy.ShortenRequest_zero = inr absent.
Proof. vm_compute. repeat split. Qed.


(** C8 as worded fails: it wants the two optional fields of the value
    read back to be absent and not the empty string.  In [pare.go] the
    value read back holds the empty string in both fields, and a text
    that spells both members out as empty strings is read back to that
    same value: the two cannot be told apart.  In the earlier revision,
    where a field can be absent, the same request (pointers to empty
    strings) is written with both members and read back with both
    present, not [nil]. *)
Lemma round_trip_counterexample :
  let r := {| ShortenRequest_Url := "http://x";
              ShortenRequest_Shortcode := EmptyString;
              ShortenRequest_Meta := EmptyString |} in
  let spelled :=
    "{" +:+ q "url" +:+ ":" +:+ q "http://x" +:+ ","
        +:+ q "code" +:+ ":" +:+ q EmptyString +:+ ","
        +:+ q "meta" +:+ ":" +:+ q EmptyString +:+ "}" in
  let earlier :=
    {| Legacy.ShortenRequest_Url := "http://x";
       Legacy.ShortenRequest_Shortcode := Some EmptyString;
       Legacy.ShortenRequest_Meta := Some EmptyString |} in
  (exists text back,
     json_Marshal r = inr text
     /\ @json_decode plain_runtime _ _ text ShortenRequest_zero = inr back
     /\ ShortenRequest_Shortcode back = EmptyString
     /\ ShortenRequest_Meta back = EmptyString
     /\ @json_decode plain_runtime _ _ spelled ShortenRequest_zero
        = inr back)
  /\ (exists text back,
        json_Marshal earlier = inr text
        /\ text = spelled
        /\ @json_decode plain_runtime _ _ text Legacy.ShortenRequest_zero
           = inr back
        /\ Legacy.ShortenRequest_Shortcode back = Some EmptyString
        /\ Legacy.ShortenRequest_Meta back = Some EmptyString
        /\ Legacy.ShortenRequest_Shortcode back <> None
        /\ Legacy.ShortenRequest_Meta back <> None).
Proof.
  cbv zeta. split.
  - eexists _, _. split; [vm_compute; reflexivity|].
    split; [vm_compute; reflexivity|]. repeat split.
  - eexists _, _. split; [vm_compute; reflexivity|].
    split; [reflexivity|]. split; [vm_compute; reflexivity|].
    repeat split; discriminate.
Qed.

(* ===================================================================== *)
(** * The JSON model on small inputs *)

Example render_escapes_html :
  render (JString "<a&b>")
  = quote +:+ esc_u 60 +:+ "a" +:+ esc_u 38 +:+ "b" +:+ esc_u 62 +:+ quote.
Proof. vm_compute. reflexivity. Qed.

Example render_escapes_quote_and_control :
  render (JString (quote +:+ str1 (byte_of 1) +:+ newline))
  = quote +:+ backslash +:+ quote +:+ esc_u 1 +:+ backslash +:+ "n" +:+ quote.
Proof. vm_compute. reflexivity. Qed.

Example parse_refuses_trailing_comma : json_parse "[1,]" = None.
Proof. vm_compute. reflexivity. Qed.

Example parse_refuses_leading_zero : json_parse "01" = None.
Proof. vm_compute. reflexivity. Qed.

Example parse_refuses_two_values : json_parse "1 2" = None.
Proof. vm_compute. reflexivity. Qed.

Example parse_nested :
  json_parse ("{" +:+ q "a" +:+ ": [1, -2.5e+3, true, null, {}, []] }")
  = Some (JObject [("a", JArray [JNumber "1"; JNumber "-2.5e+3"; JBool true;
                                 JNull; JObject []; JArray []])]).
Proof. vm_compute. reflexivity. Qed.

Example parse_unicode_escape :
  json_parse (q (backslash +:+ "u00e9"))
  = Some (JEscaped (backslash +:+ "u00e9")
            (String (byte_of 195) (str1 (byte_of 169)))).
Proof. vm_compute. reflexivity. Qed.

Example parse_surrogate_pair :
  json_parse (q (backslash +:+ "ud83d" +:+ backslash +:+ "ude00"))
  = Some (JEscaped (backslash +:+ "ud83d" +:+ backslash +:+ "ude00")
            (String (byte_of 240) (String (byte_of 159)
               (String (byte_of 152) (str1 (byte_of 128)))))).
Proof. vm_compute. reflexivity. Qed.

Example parse_lone_surrogate :
  json_parse (q (backslash +:+ "ud83d" +:+ "x"))
  = Some (JEscaped (backslash +:+ "ud83d" +:+ "x")
            (replacement_char +:+ "x")).
Proof. vm_compute. reflexivity. Qed.

Example config_keys_fold_case {RT : GoRuntime} :
  json_decode ("{" +:+ q "apikey" +:+ ":" +:+ q "k" +:+ ","
                   +:+ q "SERVER" +:+ ":" +:+ q "s" +:+ ","
                   +:+ q "other" +:+ ":1}") Config_zero
  = inr {| Config_APIKey := "k"; Config_Server := "s" |}.
Proof. vm_compute. reflexivity. Qed.

Example config_null_is_default {RT : GoRuntime} :
  json_decode "null" Config_zero = inr Config_zero.
Proof. vm_compute. reflexivity. Qed.

Example config_number_is_refused {RT : GoRuntime} :
  json_decode ("{" +:+ q "Server" +:+ ":5}") Config_zero
  = inl (errors_New ("json: cannot unmarshal number into Go struct field "
                     +:+ "Config.Server of type string")).
Proof. vm_compute. reflexivity. Qed.

Example config_key_type_is_named {RT : GoRuntime} :
  json_decode ("{" +:+ q "apikey" +:+ ":[]}") Config_zero
  = inl (errors_New ("json: cannot unmarshal array into Go struct field "
                     +:+ "Config.APIKey of type main.APIKey")).
Proof. vm_compute. reflexivity. Qed.

Example config_array_is_refused {RT : GoRuntime} :
  json_decode "[]" Config_zero
  = inl (errors_New
           "json: cannot unmarshal array into Go value of type main.Config").
Proof. vm_compute. reflexivity. Qed.

Example nested_field_is_named {RT : GoRuntime} :
  json_decode ("{" +:+ q "meta" +:+ ":{" +:+ q "owner" +:+ ":1}}")
    MetaResponse_zero
  = inl (errors_New ("json: cannot unmarshal number into Go struct field "
                     +:+ "LinkMetadata.meta.owner of type string")).
Proof. vm_compute. reflexivity. Qed.

Example config_escaped_value_is_read {RT : GoRuntime} :
  json_decode ("{" +:+ q "Server" +:+ ":"
               +:+ q ("http:" +:+ backslash +:+ "/" +:+ backslash +:+ "/s")
               +:+ "}") Config_zero
  = inr {| Config_APIKey := EmptyString; Config_Server := "http://s" |}.
Proof. vm_compute. reflexivity. Qed.

(** A time is read from the bytes of the text: written with an
    escape, the same instant is handed over with its backslash. *)
Example escaped_time_is_not_unescaped {RT : GoRuntime} (old : Time) :
  decode_Time (JEscaped (backslash +:+ "u0032017-03-01T10:00:00Z")
                 "2017-03-01T10:00:00Z") old
  = Time_parse (backslash +:+ "u0032017-03-01T10:00:00Z").
Proof. reflexivity. Qed.

Example escaped_time_is_fatal :
  @json_decode plain_runtime _ (@MetaResponse_Unmarshaler plain_runtime)
    ("{" +:+ q "meta" +:+ ":{" +:+ q "time" +:+ ":"
     +:+ q (backslash +:+ "u0032017-03-01T10:00:00Z") +:+ "}}")
    (@MetaResponse_zero plain_runtime)
  = inl (errors_New ("parsing time " +:+ backslash
                     +:+ "u0032017-03-01T10:00:00Z")).
Proof. vm_compute. reflexivity. Qed.

Example request_with_code :
  json_Marshal {| ShortenRequest_Url := "http://a.com";
                  ShortenRequest_Shortcode := "foo";
                  ShortenRequest_Meta := EmptyString |}
  = inr ("{" +:+ q "url" +:+ ":" +:+ q "http://a.com" +:+ ","
             +:+ q "code" +:+ ":" +:+ q "foo" +:+ "}").
Proof. vm_compute. reflexivity. Qed.

(* ===================================================================== *)
(** * Further properties of the program *)

Lemma exchanges_app (a b : list event) :
  exchanges (a ++ b) = exchanges a ++ exchanges b.
Proof.
  induction a as [|e a IH]; [reflexivity|].
  destruct e; cbn [app exchanges]; rewrite IH; reflexivity.
Qed.

Lemma exchanges_config (pre : list event) :
  Forall config_event pre -> exchanges pre = [].
Proof.
  induction 1 as [|e pre He _ IH]; [reflexivity|].
  destruct e; cbn [config_event] in He; try contradiction; exact IH.
Qed.

Lemma exchanges_after {RT : GoRuntime} {R} `{Unmarshaler R} (response : R)
    (sent : error + Response) :
  exchanges (snd (after_exchange response sent)) = [].
Proof.
  unfold after_exchange.
  repeat match goal with
         | |- context [match ?x with _ => _ end] => destruct x
         end; reflexivity.
Qed.

Lemma after_exchange_exit {RT : GoRuntime} {R} `{Unmarshaler R} (response : R)
    (sent : error + Response) (st : Z) :
  fst (after_exchange response sent) = Exit st -> st = 1%Z.
Proof.
  unfold after_exchange.
  repeat match goal with
         | |- context [match ?x with _ => _ end] => destruct x
         end; cbn [fst]; congruence.
Qed.

Section Resolution.
Context {RT : GoRuntime}.
Variable flags : Flags.
Variable env : Env.

(** What [serverDetails] returns does not depend on what the streams
    and the log hold. *)
Lemma serverDetails_outcome w w' :
  fst (serverDetails flags env w) = fst (serverDetails flags env w').
Proof.
  unfold serverDetails, orFatal, kingpin_FatalIfError, kingpin_fatal,
    kingpin_Errorf, json_Unmarshal.
  destruct (user_Current env) as [e|home]; exec; [reflexivity|].
  destruct (ReadFile env _) as [err|file]; exec.
  - destruct (IsNotExist err); exec; [|reflexivity].
    step_debug. step_debug. reflexivity.
  - destruct (json_decode file Config_zero) as [e|fc]; exec; reflexivity.
Qed.
End Resolution.

Section Exchange.
Context {RT : GoRuntime}.
Variable flags : Flags.
Variable env : Env.

(** A request in the log of a round trip was accepted by
    [http.NewRequest]. *)
Lemma doRequest_accepted {B R} `{Marshaler B} `{Unmarshaler R}
    (method endpoint : string) (body : B) (response : R) w req :
  calls w = [] ->
  In (EvDo req)
     (calls (snd (doRequest flags env method endpoint body response w))) ->
  exists conf,
    fst (serverDetails flags env w) = Ret conf
    /\ NewRequest_error method (Config_Server conf +:+ endpoint) = None
    /\ Request_fullUrl req = Config_Server conf +:+ endpoint.
Proof.
  intros Hw Hin.
  destruct (doRequest_spec flags env method endpoint body response w)
    as (_ & pre & Hpre
        & [[_ Hc] | (conf & txBody & Hsd & _ & _ & Hnew & _ & Hc)]).
  - rewrite Hc, Hw in Hin. cbn [app] in Hin.
    now apply config_event_not_Do in Hin.
  - destruct (doRequest_exchange flags env method endpoint body response
                w req Hw Hin)
      as (_ & _ & conf' & txBody' & _ & _ & _ & _ & _ & Hsd' & _ & _ & ->).
    assert (conf' = conf) as -> by congruence.
    exists conf. repeat split; assumption.
Qed.

(** The round trip of a command, read off its log: the request came
    from the resolved configuration and the endpoint, method and body
    of the command; only configuration events come before it and no
    request after it. *)
Lemma run_exchange cmd req :
  In (EvDo req) (calls (snd (run flags env cmd))) ->
  exists pre tail conf txBody,
    calls (snd (run flags env cmd)) = pre ++ EvDo req :: tail
    /\ Forall config_event pre
    /\ exchanges tail = []
    /\ (forall e, client_Do env req = inl e -> tail = [])
    /\ (forall resp, client_Do env req = inr resp ->
                     Response_StatusCode resp <> 200%Z -> tail = [])
    /\ fst (serverDetails flags env World_init) = Ret conf
    /\ body_of flags cmd = inr txBody
    /\ NewRequest_error (method_of cmd)
         (Config_Server conf +:+ endpoint_of flags cmd) = None
    /\ req = built_request (method_of cmd) (endpoint_of flags cmd) conf txBody.
Proof.
  destruct (run_handler flags env cmd) as (w & _ & Hw & _ & ->).
  destruct cmd; cbn [method_of endpoint_of body_of];
    [rewrite shorten_calls | rewrite rm_calls | rewrite meta_calls];
    intros Hin;
    destruct (doRequest_accepted _ _ _ _ w req Hw Hin)
      as (conf0 & Hsd0 & Hnew & _);
    apply doRequest_exchange in Hin
      as (w1 & pre & conf & txBody & Heq & _ & Hcalls & Hpre & _ & Hsd & _
          & Hm & Hreq); try assumption;
    assert (conf0 = conf) as -> by congruence;
    rewrite (serverDetails_outcome flags env w World_init) in Hsd;
    rewrite Heq; cbn [snd];
    eexists pre, _, conf, txBody;
    (split; [exact Hcalls|]);
    (split; [exact Hpre|]);
    (split; [apply exchanges_after|]);
    (split; [intros e He; rewrite He; reflexivity|]);
    (split; [intros resp Hdo Hst;
             rewrite (after_exchange_status _ _ resp Hdo Hst); reflexivity|]);
    repeat split; assumption.
Qed.
End Exchange.

Lemma In_exchanges (req : Request) (log : list event) :
  In (EvDo req) log <-> In req (exchanges log).
Proof.
  induction log as [|e log IH]; [reflexivity|].
  destruct e; cbn [In exchanges]; rewrite <- IH;
    intuition (try discriminate; try congruence).
Qed.

Section Requests.
Context {RT : GoRuntime}.
Variable flags : Flags.
Variable env : Env.

(** X1.  Whatever the command, a request that goes out was asked of
    [http.NewRequest] with the method of the command and, as URL
    string, the server of the resolved configuration followed by the
    endpoint of the command, put together by plain concatenation;
    [http.NewRequest] accepted that method and URL string; the request
    asks for the connection to be closed, and carries exactly the four
    headers of [makeRequest], the API key being that of the resolved
    configuration.  The statement is about the URL string the program
    hands over, not about the URL the parsed request prints. *)
Theorem request_shape cmd req :
  In (EvDo req) (calls (snd (run flags env cmd))) ->
  exists conf,
    fst (serverDetails flags env World_init) = Ret conf
    /\ Request_Method req = method_of cmd
    /\ Request_fullUrl req = Config_Server conf +:+ endpoint_of flags cmd
    /\ NewRequest_error (Request_Method req) (Request_fullUrl req) = None
    /\ Request_Close req = true
    /\ Request_Header req !! "Accept" = Some ["application/json"]
    /\ Request_Header req !! "Content-Type" = Some ["application/json"]
    /\ Request_Header req !! "X-API-Key" = Some [Config_APIKey conf]
    /\ Request_Header req !! "User-Agent" = Some ["Pare (Go net/http)"]
    /\ dom (Request_Header req)
       = ({[ "Accept"; "Content-Type"; "X-API-Key"; "User-Agent" ]}
          : gset string).
Proof.
  intros Hin.
  destruct (run_exchange flags env cmd req Hin)
    as (pre & tail & conf & txBody & _ & _ & _ & _ & _ & Hsd & _ & Hnew & ->).
  exists conf. cbn [built_request Request_Method Request_fullUrl Request_Close
                    Request_Header].
  repeat split; try assumption; reflexivity.
Qed.
End Requests.

Lemma Sprintf_status {RT : GoRuntime} (n : Z) :
  Sprintf "unexpected response code: %v" [VInt n]
  = "unexpected response code: " +:+ decimal n.
Proof.
  transitivity ("unexpected response code: " +:+ (decimal n +:+ EmptyString));
    [reflexivity|now rewrite append_nil_r].
Qed.

Section Branches.
Context {RT : GoRuntime}.
Variable flags : Flags.
Variable env : Env.


(** X3.  The request of a [meta] run is a GET whose body is the empty
    object, and the URL string the program hands to [http.NewRequest]
    for it is the server of the resolved configuration, the text
    [/api/meta/] and the code exactly as given on the command line:
    the program itself escapes nothing, so what a space, a [?] or a
    [#] in the code becomes is left to the URL parser of
    [http.NewRequest]. *)
Theorem meta_request_shape req :
  In (EvDo req) (calls (snd (run flags env metaCommand))) ->
  Request_Method req = "GET"
  /\ (exists conf,
        fst (serverDetails flags env World_init) = Ret conf
        /\ Request_fullUrl req
           = Config_Server conf +:+ "/api/meta/" +:+ metaCodeArg flags)
  /\ Request_Body req = "{}".
Proof.
  intros Hin.
  destruct (run_exchange flags env metaCommand req Hin)
    as (pre & tail & conf & txBody & _ & _ & _ & _ & _ & Hsd & Hm & _ & ->).
  cbn [body_of] in Hm.
  change (inr "{}" = inr txBody :> error + string) in Hm.
  cbn [built_request Request_Method Request_fullUrl Request_Body method_of
       endpoint_of].
  repeat split; try congruence. exists conf. split; [assumption|reflexivity].
Qed.

(** X4.  A run makes at most one exchange with the server: there is no
    second request and no retry, whatever the command and the
    answers. *)
Theorem one_exchange_per_run cmd :
  length (exchanges (calls (snd (run flags env cmd)))) <= 1.
Proof.
  destruct (exchanges (calls (snd (run flags env cmd)))) as [|req rest] eqn:He;
    [cbn; lia|].
  assert (Hin : In (EvDo req) (calls (snd (run flags env cmd)))).
  { apply In_exchanges. rewrite He. left. reflexivity. }
  destruct (run_exchange flags env cmd req Hin)
    as (pre & tail & conf & txBody & Hcalls & Hpre & Htail & _).
  rewrite Hcalls, exchanges_app, (exchanges_config pre Hpre) in He.
  cbn [app exchanges] in He. rewrite Htail in He.
  injection He as <-. cbn. lia.
Qed.

(** X5.  A [shorten] run whose exchange was answered with status 200
    and a body that decodes to [r] prints the short URL of [r] on a
    line of its own and exits with status 0; without [--debug] it
    writes nothing to standard error. *)
Theorem shorten_success req resp rxBody r :
  In (EvDo req) (calls (snd (run flags env shortenCommand))) ->
  client_Do env req = inr resp ->
  Response_StatusCode resp = 200%Z ->
  Response_Body resp = inr rxBody ->
  json_decode rxBody {| ShortenResponse_ShortUrl := EmptyString |} = inr r ->
  stdout (snd (run flags env shortenCommand))
  = ShortenResponse_ShortUrl r +:+ newline
  /\ exit_status (run flags env shortenCommand) = 0%Z
  /\ (debugFlag flags = false ->
      stderr (snd (run flags env shortenCommand)) = EmptyString).
Proof.
  destruct (run_handler flags env shortenCommand)
    as (w & Hout0 & Hw & Herr0 & ->).
  intros Hin Hdo Hst Hbody Hdec. rewrite shorten_calls in Hin.
  apply doRequest_exchange in Hin
    as (w1 & pre & conf & txBody & Heq & Hout & _ & _ & Hquiet & _);
    [|assumption].
  rewrite (after_exchange_ok _ _ _ resp rxBody Hdo Hst Hbody Hdec)
    in Heq, Hquiet.
  unfold exit_status, shorten. rewrite bind_eq, Heq.
  cbn [Z.eqb Pos.eqb negb fst snd]. exec.
  rewrite Sprintf_s, Hout, Hout0. repeat split.
  intros Hoff. rewrite (Hquiet Hoff _ eq_refl). auto.
Qed.

(** X6.  A [shorten] run whose exchange was answered with a status
    other than 200 and 409 prints nothing on standard output and exits
    with status 1; without [--debug], standard error holds the one
    line of [kingpin] that names the status code. *)
Theorem shorten_unexpected_status req resp :
  In (EvDo req) (calls (snd (run flags env shortenCommand))) ->
  client_Do env req = inr resp ->
  Response_StatusCode resp <> 200%Z ->
  Response_StatusCode resp <> 409%Z ->
  stdout (snd (run flags env shortenCommand)) = EmptyString
  /\ exit_status (run flags env shortenCommand) = 1%Z
  /\ (debugFlag flags = false ->
      stderr (snd (run flags env shortenCommand))
      = Sprintf (program_name env +:+ ": error: unexpected response: %s"
                 +:+ newline)
          [VError (errors_New ("unexpected response code: "
                               +:+ decimal (Response_StatusCode resp)))]).
Proof.
  destruct (run_handler flags env shortenCommand)
    as (w & Hout0 & Hw & Herr0 & ->).
  intros Hin Hdo Hst Hconflict. rewrite shorten_calls in Hin.
  apply doRequest_exchange in Hin
    as (w1 & pre & conf & txBody & Heq & Hout & _ & _ & Hquiet & _);
    [|assumption].
  rewrite (after_exchange_status _ _ resp Hdo Hst) in Heq, Hquiet.
  unfold exit_status, shorten. rewrite bind_eq, Heq. cbn [fst snd].
  apply Z.eqb_neq in Hst, Hconflict. rewrite Hst, Hconflict. cbn [negb].
  unfold kingpin_FatalIfError, kingpin_fatal, kingpin_Errorf. exec.
  rewrite Hout, Hout0, Sprintf_status. repeat split.
  intros Hoff. rewrite (Hquiet Hoff _ eq_refl), (Herr0 Hoff).
  rewrite ?append_assoc. reflexivity.
Qed.

(** X7.  A [delete] run whose exchange was answered with any status
    other than 200 prints nothing on standard output and exits with
    status 1; without [--debug], standard error holds the one line of
    [kingpin] that names the status code. *)
Theorem rm_unexpected_status req resp :
  In (EvDo req) (calls (snd (run flags env rmCommand))) ->
  client_Do env req = inr resp ->
  Response_StatusCode resp <> 200%Z ->
  stdout (snd (run flags env rmCommand)) = EmptyString
  /\ exit_status (run flags env rmCommand) = 1%Z
  /\ (debugFlag flags = false ->
      stderr (snd (run flags env rmCommand))
      = Sprintf (program_name env +:+ ": error: unexpected response code: %v"
                 +:+ newline) [VInt (Response_StatusCode resp)]).
Proof.
  destruct (run_handler flags env rmCommand) as (w & Hout0 & Hw & Herr0 & ->).
  intros Hin Hdo Hst. rewrite rm_calls in Hin.
  apply doRequest_exchange in Hin
    as (w1 & pre & conf & txBody & Heq & Hout & _ & _ & Hquiet & _);
    [|assumption].
  rewrite (after_exchange_status _ _ resp Hdo Hst) in Heq, Hquiet.
  unfold exit_status, rm. rewrite bind_eq, Heq. cbn [fst snd].
  apply Z.eqb_neq in Hst. rewrite Hst. cbn [negb].
  unfold kingpin_Fatalf, kingpin_Errorf. exec.
  rewrite Hout, Hout0. repeat split.
  intros Hoff. rewrite (Hquiet Hoff _ eq_refl), (Herr0 Hoff).
  rewrite ?append_assoc. reflexivity.
Qed.

(** X8.  A [meta] run whose exchange was answered with a status other
    than 200 and 404 prints nothing on standard output and exits with
    status 1; without [--debug], standard error holds the one line of
    [kingpin] that names the status code. *)
Theorem meta_unexpected_status req resp :
  In (EvDo req) (calls (snd (run flags env metaCommand))) ->
  client_Do env req = inr resp ->
  Response_StatusCode resp <> 200%Z ->
  Response_StatusCode resp <> 404%Z ->
  stdout (snd (run flags env metaCommand)) = EmptyString
  /\ exit_status (run flags env metaCommand) = 1%Z
  /\ (debugFlag flags = false ->
      stderr (snd (run flags env metaCommand))
      = Sprintf (program_name env +:+ ": error: unexpected response code: %v"
                 +:+ newline) [VInt (Response_StatusCode resp)]).
Proof.
  destruct (run_handler flags env metaCommand)
    as (w & Hout0 & Hw & Herr0 & ->).
  intros Hin Hdo Hst Hmissing. rewrite meta_calls in Hin.
  apply doRequest_exchange in Hin
    as (w1 & pre & conf & txBody & Heq & Hout & _ & _ & Hquiet & _);
    [|assumption].
  rewrite (after_exchange_status _ _ resp Hdo Hst) in Heq, Hquiet.
  unfold exit_status, meta. rewrite bind_eq, Heq. cbn [fst snd].
  apply Z.eqb_neq in Hst, Hmissing. rewrite Hst, Hmissing. cbn [negb].
  unfold kingpin_Fatalf, kingpin_Errorf. exec.
  rewrite Hout, Hout0. repeat split.
  intros Hoff. rewrite (Hquiet Hoff _ eq_refl), (Herr0 Hoff).
  rewrite ?append_assoc. reflexivity.
Qed.
End Branches.

Section FatalRoundTrip.
Context {RT : GoRuntime}.
Variable flags : Flags.
Variable env : Env.
Context {B R : Type} `{Marshaler B} `{Unmarshaler R}.
Variables (method endpoint : string) (body : B) (response : R).

(** Without [--debug], what a round trip whose exchange took place
    leaves on standard error is decided by the answer alone. *)
Lemma doRequest_stderr_off w req :
  debugFlag flags = false ->
  calls w = [] ->
  In (EvDo req)
     (calls (snd (doRequest flags env method endpoint body response w))) ->
  stderr (snd (doRequest flags env method endpoint body response w))
  = stderr w
    +:+ match client_Do env req with
        | inl e =>
          Sprintf (program_name env
                   +:+ ": error: error executing POST to condenser server: %s"
                   +:+ newline) [VError e]
        | inr resp =>
          if negb (Response_StatusCode resp =? 200)%Z then EmptyString
          else
            match Response_Body resp with
            | inl e =>
              Sprintf (program_name env
                       +:+ ": error: error reading response: %s"
                       +:+ newline) [VError e]
            | inr rxBody =>
              match json_decode rxBody response with
              | inl e =>
                Sprintf (program_name env
                         +:+ ": error: error parsing response: %s"
                         +:+ newline) [VError e]
              | inr _ => EmptyString
              end
            end
        end.
Proof.
  intros Hoff Hw Hin.
  destruct (doRequest_accepted flags env method endpoint body response
              w req Hw Hin) as (conf0 & Hsd0 & Hnew & _).
  destruct (doRequest_exchange flags env method endpoint body response
              w req Hw Hin)
    as (_ & _ & conf & txBody & _ & _ & _ & _ & _ & Hsd & _ & Hm & ->).
  assert (conf0 = conf) as -> by congruence. clear Hsd0 Hin.
  destruct (serverDetails_frame flags env w) as (_ & _ & _ & Herr).
  specialize (Herr Hoff).
  unfold doRequest. rewrite bind_eq.
  destruct (serverDetails flags env w) as [o w1]; cbn [fst snd] in *.
  subst o. rewrite <- (Herr conf eq_refl). clear Herr.
  unfold orFatal, makeRequest, kingpin_FatalIfError, kingpin_fatal,
    kingpin_Errorf, client_Do_M, ioutil_ReadAll, json_Unmarshal, debug.
  rewrite Hoff, Hm, Hnew. exec.
  fold (built_request method endpoint conf txBody).
  destruct (client_Do env _) as [e|resp]; exec.
  { rewrite ?append_assoc. reflexivity. }
  destruct (Response_StatusCode resp =? 200)%Z; cbn [negb]; exec.
  2:{ now rewrite append_nil_r. }
  destruct (Response_Body resp) as [e|rxBody]; exec.
  { rewrite ?append_assoc. reflexivity. }
  destruct (json_decode rxBody response) as [e|response']; exec.
  - rewrite ?append_assoc. reflexivity.
  - now rewrite append_nil_r.
Qed.
End FatalRoundTrip.

Section Failures.
Context {RT : GoRuntime}.
Variable flags : Flags.
Variable env : Env.

(** A run whose round trip ended the process: the handler adds
    nothing to it. *)
Lemma run_round_trip_exit cmd req st tail :
  In (EvDo req) (calls (snd (run flags env cmd))) ->
  (forall (R : Type) (U : Unmarshaler R) (response : R),
      after_exchange response (client_Do env req) = (Exit st, tail)) ->
  stdout (snd (run flags env cmd)) = EmptyString
  /\ exit_status (run flags env cmd) = st
  /\ (exists pre,
        calls (snd (run flags env cmd)) = pre ++ EvDo req :: tail
        /\ Forall config_event pre)
  /\ (debugFlag flags = false ->
      forall text,
        (forall (R : Type) (U : Unmarshaler R) (response : R),
            match client_Do env req with
            | inl e =>
              Sprintf (program_name env
                       +:+ ": error: error executing POST to condenser server: %s"
                       +:+ newline) [VError e]
            | inr resp =>
              if negb (Response_StatusCode resp =? 200)%Z then EmptyString
              else
                match Response_Body resp with
                | inl e =>
                  Sprintf (program_name env
                           +:+ ": error: error reading response: %s"
                           +:+ newline) [VError e]
                | inr rxBody =>
                  match json_decode rxBody response with
                  | inl e =>
                    Sprintf (program_name env
                             +:+ ": error: error parsing response: %s"
                             +:+ newline) [VError e]
                  | inr _ => EmptyString
                  end
                end
            end = text) ->
        stderr (snd (run flags env cmd)) = text).
Proof.
  destruct (run_handler flags env cmd) as (w & Hout0 & Hw & Herr0 & ->).
  intros Hin Hafter.
  destruct cmd;
    [rewrite shorten_calls in Hin | rewrite rm_calls in Hin
     | rewrite meta_calls in Hin];
    pose proof (fun Hoff => doRequest_stderr_off flags env _ _ _ _
                              w req Hoff Hw Hin) as Hstderr;
    apply doRequest_exchange in Hin
      as (w1 & pre & conf & txBody & Heq & Hout & Hcalls & Hpre & _);
      try assumption;
    rewrite Hafter in Heq, Hcalls; cbn [fst snd] in Heq, Hcalls;
    rewrite Heq in Hstderr; cbn [snd] in Hstderr;
    unfold exit_status, shorten, rm, meta; rewrite bind_eq, Heq;
    cbn [fst snd];
    (split; [congruence|]); (split; [reflexivity|]);
    (split; [exists pre; split; assumption|]);
    intros Hoff text Htext; rewrite (Hstderr Hoff), (Herr0 Hoff);
    apply Htext.
Qed.

(** X9.  When the exchange itself fails (no answer comes back), the
    run, whatever the command, prints nothing on standard output and
    exits with status 1; the failed exchange is the last entry of the
    log, so nothing is retried; and without [--debug] standard error
    holds the one line of [kingpin], which says POST also when the
    command is [meta] and the request a GET. *)
Theorem transport_error_is_fatal cmd req e :
  In (EvDo req) (calls (snd (run flags env cmd))) ->
  client_Do env req = inl e ->
  stdout (snd (run flags env cmd)) = EmptyString
  /\ exit_status (run flags env cmd) = 1%Z
  /\ (exists pre,
        calls (snd (run flags env cmd)) = pre ++ [EvDo req]
        /\ Forall config_event pre)
  /\ (debugFlag flags = false ->
      stderr (snd (run flags env cmd))
      = Sprintf (program_name env
                 +:+ ": error: error executing POST to condenser server: %s"
                 +:+ newline) [VError e]).
Proof.
  intros Hin Hdo.
  destruct (run_round_trip_exit cmd req 1%Z [] Hin)
    as (Hout & Hexit & Hcalls & Hstderr).
  { intros R U response. unfold after_exchange. now rewrite Hdo. }
  repeat split; try assumption.
  intros Hoff. apply (Hstderr Hoff). intros R U response. now rewrite Hdo.
Qed.

(** X10.  When the answer has status 200 and its body cannot be read
    to the end, the run, whatever the command, prints nothing on
    standard output and exits with status 1, with the line of
    [kingpin] on standard error. *)
Theorem unreadable_body_is_fatal cmd req resp e :
  In (EvDo req) (calls (snd (run flags env cmd))) ->
  client_Do env req = inr resp ->
  Response_StatusCode resp = 200%Z ->
  Response_Body resp = inl e ->
  stdout (snd (run flags env cmd)) = EmptyString
  /\ exit_status (run flags env cmd) = 1%Z
  /\ (debugFlag flags = false ->
      stderr (snd (run flags env cmd))
      = Sprintf (program_name env +:+ ": error: error reading response: %s"
                 +:+ newline) [VError e]).
Proof.
  intros Hin Hdo Hst Hbody.
  destruct (run_round_trip_exit cmd req 1%Z [EvReadAll] Hin)
    as (Hout & Hexit & _ & Hstderr).
  { intros R U response. unfold after_exchange.
    now rewrite Hdo, Hst, Hbody. }
  repeat split; try assumption.
  intros Hoff. apply (Hstderr Hoff). intros R U response.
  now rewrite Hdo, Hst, Hbody.
Qed.

(** X11.  When the answer has status 200 and its body is not JSON, the
    run, whatever the command, prints nothing on standard output and
    exits with status 1; without [--debug], standard error is the one
    line of [kingpin] that carries the message of the decoder's own
    syntax error for that body: a 200 answer is never taken on
    trust. *)
Theorem answer_not_json_is_fatal cmd req resp rxBody :
  In (EvDo req) (calls (snd (run flags env cmd))) ->
  client_Do env req = inr resp ->
  Response_StatusCode resp = 200%Z ->
  Response_Body resp = inr rxBody ->
  json_parse rxBody = None ->
  stdout (snd (run flags env cmd)) = EmptyString
  /\ exit_status (run flags env cmd) = 1%Z
  /\ (debugFlag flags = false ->
      stderr (snd (run flags env cmd))
      = Sprintf (program_name env +:+ ": error: error parsing response: %s"
                 +:+ newline) [VError (json_SyntaxError rxBody)]).
Proof.
  intros Hin Hdo Hst Hbody Hparse.
  destruct (run_round_trip_exit cmd req 1%Z [EvReadAll; EvUnmarshal rxBody]
              Hin)
    as (Hout & Hexit & _ & Hstderr).
  { intros R U response. unfold after_exchange, json_decode.
    now rewrite Hdo, Hst, Hbody, Hparse. }
  repeat split; try assumption.
  intros Hoff. apply (Hstderr Hoff). intros R U response.
  unfold json_decode. now rewrite Hdo, Hst, Hbody, Hparse.
Qed.
End Failures.

Section Rejected.
Context {RT : GoRuntime}.
Variable flags : Flags.
Variable env : Env.
Context {B R : Type} `{Marshaler B} `{Unmarshaler R}.
Variables (method endpoint : string) (body : B) (response : R).

(** The round trip when [http.NewRequest] refuses the request. *)
Lemma doRequest_rejected w conf w1 txBody e :
  serverDetails flags env w = (Ret conf, w1) ->
  json_Marshal body = inr txBody ->
  NewRequest_error method (Config_Server conf +:+ endpoint) = Some e ->
  exists w2,
    doRequest flags env method endpoint body response w = (Exit 1%Z, w2)
    /\ stdout w2 = stdout w1
    /\ calls w2 = calls w1
    /\ (debugFlag flags = false ->
        stderr w2
        = stderr w1
          +:+ Sprintf (program_name env
                       +:+ ": error: error constructing request: %s"
                       +:+ newline) [VError e]).
Proof.
  intros Hsd Hm Hnew. unfold doRequest. rewrite bind_eq, Hsd.
  unfold orFatal, makeRequest, kingpin_FatalIfError, kingpin_fatal,
    kingpin_Errorf.
  exec. step_debug. rewrite Hm. exec. step_debug. rewrite Hnew. exec.
  eexists. split; [reflexivity|]. cbn [stdout stderr calls].
  repeat split; try congruence.
  intros Hoff. rewrite (He0 Hoff), (He Hoff), ?append_assoc. reflexivity.
Qed.
End Rejected.

Section BeforeTheExchange.
Context {RT : GoRuntime}.
Variable flags : Flags.
Variable env : Env.

(** A run whose configuration cannot be resolved ends where
    [serverDetails] ends. *)
Lemma run_config_exit_world cmd st :
  (forall w, fst (serverDetails flags env w) = Exit st) ->
  exists w0,
    stdout w0 = EmptyString /\ calls w0 = []
    /\ (debugFlag flags = false -> stderr w0 = EmptyString)
    /\ snd (run flags env cmd) = snd (serverDetails flags env w0)
    /\ exit_status (run flags env cmd) = st.
Proof.
  intros Hsd. destruct (run_handler flags env cmd) as (w & Hout0 & Hw & He & ->).
  exists w. specialize (Hsd w). unfold exit_status.
  destruct cmd; unfold shorten, rm, meta; rewrite bind_eq;
    unfold doRequest; rewrite bind_eq;
    destruct (serverDetails flags env w) as [[c|st'] w1];
    cbn [fst snd] in *; try discriminate;
    injection Hsd as ->; repeat split; assumption.
Qed.

(** X12.  When the current user cannot be determined, the run,
    whatever the command, exits with status 1 before anything else
    happens: no file is read, no request is sent, nothing is printed
    on standard output, and without [--debug] standard error holds
    the one line of [kingpin]. *)
Theorem no_home_is_fatal cmd e :
  user_Current env = inl e ->
  exit_status (run flags env cmd) = 1%Z
  /\ stdout (snd (run flags env cmd)) = EmptyString
  /\ calls (snd (run flags env cmd)) = []
  /\ (debugFlag flags = false ->
      stderr (snd (run flags env cmd))
      = Sprintf (program_name env
                 +:+ ": error: unable to get current user HOME: %s"
                 +:+ newline) [VError e]).
Proof.
  intros Hhome.
  assert (Hsd : forall w,
             serverDetails flags env w
             = (Exit 1%Z,
                {| stdout := stdout w;
                   stderr := stderr w
                     +:+ Sprintf (program_name env
                           +:+ ": error: unable to get current user HOME: %s"
                           +:+ newline) [VError e];
                   calls := calls w |})).
  { intros w. unfold serverDetails, orFatal, kingpin_fatal, kingpin_Errorf.
    rewrite Hhome. exec. rewrite ?append_assoc. reflexivity. }
  destruct (run_config_exit_world cmd 1%Z) as (w0 & Hout & Hc & He & -> & ->).
  { intros w. now rewrite Hsd. }
  rewrite Hsd. cbn [snd stdout stderr calls]. repeat split; try assumption.
  intros Hoff. now rewrite (He Hoff).
Qed.

(** X13.  When the configuration file exists and cannot be read (any
    error of the read other than the file not existing), the run,
    whatever the command, exits with status 1 right after the read:
    no request is sent, nothing is printed on standard output, and
    without [--debug] standard error holds the one line of [kingpin]. *)
Theorem unreadable_config_is_fatal cmd home err :
  user_Current env = inr home ->
  ReadFile env (config_path home) = inl err ->
  IsNotExist err = false ->
  exit_status (run flags env cmd) = 1%Z
  /\ stdout (snd (run flags env cmd)) = EmptyString
  /\ calls (snd (run flags env cmd)) = [EvReadFile (config_path home)]
  /\ (debugFlag flags = false ->
      stderr (snd (run flags env cmd))
      = Sprintf (program_name env
                 +:+ ": error: error opening ~/.pare.json: %s"
                 +:+ newline) [VError err]).
Proof.
  unfold config_path. intros Hhome Hread Hother.
  assert (Hsd : forall w,
             serverDetails flags env w
             = (Exit 1%Z,
                {| stdout := stdout w;
                   stderr := stderr w
                     +:+ Sprintf (program_name env
                           +:+ ": error: error opening ~/.pare.json: %s"
                           +:+ newline) [VError err];
                   calls := calls w
                            ++ [EvReadFile (filepath_Join home ".pare.json")]
                |})).
  { intros w. unfold serverDetails, orFatal, kingpin_FatalIfError,
      kingpin_fatal, kingpin_Errorf.
    rewrite Hhome. exec. rewrite Hread, Hother. exec.
    rewrite ?append_assoc. reflexivity. }
  destruct (run_config_exit_world cmd 1%Z) as (w0 & Hout & Hc & He & -> & ->).
  { intros w. now rewrite Hsd. }
  rewrite Hsd. cbn [snd stdout stderr calls]. rewrite Hc.
  repeat split; try assumption.
  intros Hoff. now rewrite (He Hoff).
Qed.

(** X14.  When the configuration resolves and [http.NewRequest]
    refuses the URL made of its server and the endpoint of the
    command, the run exits with status 1 without sending anything:
    the log holds no exchange and standard output is empty. *)
Theorem rejected_request_is_fatal cmd conf e :
  fst (serverDetails flags env World_init) = Ret conf ->
  NewRequest_error (method_of cmd)
    (Config_Server conf +:+ endpoint_of flags cmd) = Some e ->
  exit_status (run flags env cmd) = 1%Z
  /\ stdout (snd (run flags env cmd)) = EmptyString
  /\ exchanges (calls (snd (run flags env cmd))) = [].
Proof.
  intros Hsd Hnew.
  destruct (run_handler flags env cmd) as (w & Hout0 & Hw & _ & ->).
  rewrite (serverDetails_outcome flags env World_init w) in Hsd.
  destruct (serverDetails_frame flags env w)
    as (Hout & (pre & Hcalls & Hpre) & _).
  destruct (serverDetails flags env w) as [o w1] eqn:Hrun;
    cbn [fst snd] in *. subst o.
  unfold exit_status.
  destruct cmd; cbn [method_of endpoint_of] in Hnew;
    unfold shorten, rm, meta; rewrite bind_eq;
    match goal with
    | |- context [doRequest flags env ?m ?ep ?b ?r w] =>
      let Hm := fresh "Hm" in
      assert (Hm : exists txBody, json_Marshal b = inr txBody)
        by (eexists; reflexivity);
      destruct Hm as [txBody Hm];
      destruct (doRequest_rejected flags env m ep b r w conf w1 txBody e
                  Hrun Hm Hnew) as (w2 & -> & Ho2 & Hc2 & _)
    end;
    cbn [fst snd]; rewrite Ho2, Hc2, Hout, Hcalls, Hw; cbn [app];
    repeat split; try assumption; now apply exchanges_config.
Qed.
End BeforeTheExchange.

Lemma append_newline_not_empty (s : string) : s +:+ newline <> EmptyString.
Proof. destruct s; discriminate. Qed.

Section Summary.
Context {RT : GoRuntime}.
Variable flags : Flags.
Variable env : Env.

Lemma doRequest_summary {B R} `{Marshaler B} `{Unmarshaler R}
    (method endpoint : string) (body : B) (response : R) w :
  stdout (snd (doRequest flags env method endpoint body response w))
  = stdout w
  /\ (forall st,
        fst (doRequest flags env method endpoint body response w) = Exit st ->
        st = 1%Z)
  /\ (debugFlag flags = false ->
      forall v,
        fst (doRequest flags env method endpoint body response w) = Ret v ->
        stderr (snd (doRequest flags env method endpoint body response w))
        = stderr w).
Proof.
  split; [apply doRequest_spec|]. split.
  - intros st Hst.
    destruct (doRequest_spec flags env method endpoint body response w)
      as (_ & pre & _ & [[He _] | (conf & txBody & _ & _ & _ & _ & He & _)]).
    + congruence.
    + rewrite He in Hst. now apply after_exchange_exit in Hst.
  - intros Hoff v Hv. now apply (doRequest_quiet flags env _ _ _ _ w v).
Qed.

Ltac branches :=
  repeat (exec;
          match goal with
          | |- context [if ?b then _ else _] => destruct b eqn:?
          | |- context [match ?x with inl _ => _ | inr _ => _ end] =>
            destruct x eqn:?
          end);
  exec.

(** What every run comes to: its exit status, what a run that ends
    well leaves on standard error, and whether it printed. *)
Lemma run_summary cmd :
  (exit_status (run flags env cmd) = 0%Z
   \/ exit_status (run flags env cmd) = 1%Z
   \/ (exit_status (run flags env cmd) = 255%Z /\ cmd = shortenCommand))
  /\ (debugFlag flags = false ->
      exit_status (run flags env cmd) = 0%Z ->
      stderr (snd (run flags env cmd)) = EmptyString)
  /\ (exit_status (run flags env cmd) = 0%Z ->
      exists line, stdout (snd (run flags env cmd)) = line +:+ newline)
  /\ (cmd = shortenCommand ->
      exit_status (run flags env cmd) <> 0%Z ->
      stdout (snd (run flags env cmd)) = EmptyString).
Proof.
  destruct (run_handler flags env cmd) as (w & Hout0 & Hw & Herr0 & ->).
  unfold exit_status.
  destruct cmd; unfold shorten, rm, meta; rewrite bind_eq;
    match goal with
    | |- context [doRequest flags env ?m ?ep ?b ?r w] =>
      destruct (doRequest_summary m ep b r w) as (Hout & Hexit & Hquiet);
      destruct (doRequest flags env m ep b r w) as [[[code r']|st] w1]
    end; cbn [fst snd] in *.
  all: try (rewrite (Hexit st eq_refl), Hout, Hout0;
            repeat split; auto; try discriminate; try congruence;
            intros; congruence).
  all: unfold kingpin_FatalIfError, kingpin_Fatalf, kingpin_fatal,
         kingpin_Errorf, orFatal, errPrintf.
  all: branches; cbn [fst snd stdout stderr]; rewrite ?Hout, ?Hout0.
  all: repeat split; auto; try discriminate; try congruence.
  all: try (intros Hoff _; rewrite (Hquiet Hoff _ eq_refl); auto).
  all: try (intros _; eexists; rewrite ?Sprintf_s, ?Sprintf_pair,
              ?Sprintf_Code, ?Sprintf_FullURL, ?Sprintf_Owner,
              ?Sprintf_Created, ?Sprintf_UserMeta, <- ?append_assoc;
            reflexivity).
  all: try (intros; congruence).
Qed.

(** X15.  A run ends with exit status 0, 1 or 255 and no other, and
    255 is the status of [shorten] alone. *)
Theorem exit_status_values cmd :
  exit_status (run flags env cmd) = 0%Z
  \/ exit_status (run flags env cmd) = 1%Z
  \/ (exit_status (run flags env cmd) = 255%Z /\ cmd = shortenCommand).
Proof. apply run_summary. Qed.

(** X16.  A run that ends with exit status 0 has printed on standard
    output, and what it printed ends with a newline. *)
Theorem success_prints_a_line cmd :
  exit_status (run flags env cmd) = 0%Z ->
  exists line, stdout (snd (run flags env cmd)) = line +:+ newline.
Proof. apply run_summary. Qed.

(** X17.  A [shorten] run that does not end with exit status 0 has
    printed nothing on standard output. *)
Theorem shorten_failure_prints_nothing :
  exit_status (run flags env shortenCommand) <> 0%Z ->
  stdout (snd (run flags env shortenCommand)) = EmptyString.
Proof. now apply run_summary. Qed.

(** X18.  Without [--debug], a run that ends with exit status 0 has
    written nothing to standard error. *)
Theorem quiet_success cmd :
  debugFlag flags = false ->
  exit_status (run flags env cmd) = 0%Z ->
  stderr (snd (run flags env cmd)) = EmptyString.
Proof. apply run_summary. Qed.

End Summary.

(** ** Decoding, member by member *)

Lemma find_field_short_url (k : string) :
  fold_name k <> "SHORT_URL" ->
  find_field
    [ string_field "short_url" "string" ShortenResponse_ShortUrl
        (fun s _ => {| ShortenResponse_ShortUrl := s |}) ] k = None.
Proof.
  intros Hk. unfold find_field. cbn [find_by string_field field_name].
  destruct (String.eqb "short_url" k) eqn:Eexact.
  { apply String.eqb_eq in Eexact. subst k. exfalso. apply Hk.
    vm_compute. reflexivity. }
  replace (fold_name "short_url") with "SHORT_URL"
    by (vm_compute; reflexivity).
  destruct (String.eqb "SHORT_URL" (fold_name k)) eqn:Efold; [|reflexivity].
  apply String.eqb_eq in Efold. congruence.
Qed.

Lemma decode_without_short_url (ms : list (string * json))
    (r : ShortenResponse) :
  Forall (fun m => fold_name (fst m) <> "SHORT_URL") ms ->
  decode_members "ShortenResponse" []
    [ string_field "short_url" "string" ShortenResponse_ShortUrl
        (fun s _ => {| ShortenResponse_ShortUrl := s |}) ] ms r = inr r.
Proof.
  induction 1 as [|[k v] ms Hk _ IH]; [reflexivity|].
  cbn [decode_members]. cbn [fst] in Hk.
  now rewrite (find_field_short_url k Hk).
Qed.

Section Edges.
Context {RT : GoRuntime}.
Variable flags : Flags.
Variable env : Env.

(** X20.  A [delete] run whose exchange was answered with status 200
    and a body that decodes to [r] exits with status 1 exactly when
    [--fail-no-exist] is set and the status of [r] is the string
    [noexist], letter for letter; in every other case it exits with
    status 0. *)
Theorem rm_exit_exactly req resp rxBody r :
  In (EvDo req) (calls (snd (run flags env rmCommand))) ->
  client_Do env req = inr resp ->
  Response_StatusCode resp = 200%Z ->
  Response_Body resp = inr rxBody ->
  json_decode rxBody {| DeleteResponse_Code := EmptyString;
                        DeleteResponse_Status := EmptyString |} = inr r ->
  exit_status (run flags env rmCommand)
  = (if failNoexistArg flags
        && String.eqb (DeleteResponse_Status r) "noexist"
     then 1 else 0)%Z.
Proof.
  destruct (run_handler flags env rmCommand) as (w & Hout0 & Hw & _ & ->).
  intros Hin Hdo Hst Hbody Hdec. rewrite rm_calls in Hin.
  apply doRequest_exchange in Hin
    as (w1 & pre & conf & txBody & Heq & Hout & _); [|assumption].
  rewrite (after_exchange_ok _ _ _ resp rxBody Hdo Hst Hbody Hdec) in Heq.
  unfold exit_status, rm. rewrite bind_eq, Heq.
  cbn [Z.eqb Pos.eqb negb fst snd]. exec.
  destruct (failNoexistArg flags && _); reflexivity.
Qed.

(** X21.  A [shorten] run whose exchange was answered with status 200
    and a body that is [null], or an object none of whose keys is
    [short_url] up to case, is not refused: it prints an empty line
    and exits with status 0. *)
Theorem shorten_missing_short_url req resp rxBody j :
  In (EvDo req) (calls (snd (run flags env shortenCommand))) ->
  client_Do env req = inr resp ->
  Response_StatusCode resp = 200%Z ->
  Response_Body resp = inr rxBody ->
  json_parse rxBody = Some j ->
  match j with
  | JNull => True
  | JObject members =>
    Forall (fun m => fold_name (fst m) <> "SHORT_URL") members
  | _ => False
  end ->
  stdout (snd (run flags env shortenCommand)) = newline
  /\ exit_status (run flags env shortenCommand) = 0%Z.
Proof.
  destruct (run_handler flags env shortenCommand)
    as (w & Hout0 & Hw & _ & ->).
  intros Hin Hdo Hst Hbody Hparse Hj.
  assert (Hdec : json_decode rxBody
                   {| ShortenResponse_ShortUrl := EmptyString |}
                 = inr {| ShortenResponse_ShortUrl := EmptyString |}).
  { unfold json_decode. rewrite Hparse.
    destruct j; try contradiction; [reflexivity|].
    now apply decode_without_short_url. }
  rewrite shorten_calls in Hin.
  apply doRequest_exchange in Hin
    as (w1 & pre & conf & txBody & Heq & Hout & _); [|assumption].
  rewrite (after_exchange_ok _ _ _ resp rxBody Hdo Hst Hbody Hdec) in Heq.
  unfold exit_status, shorten. rewrite bind_eq, Heq.
  cbn [Z.eqb Pos.eqb negb fst snd]. exec.
  rewrite Sprintf_s, Hout, Hout0. split; reflexivity.
Qed.
End Edges.



(* ===================================================================== *)
(** * Standard error only grows *)

Lemma extends_ret {A} (a : A) : extends_stderr (ret a).
Proof. intros w. exists EmptyString. cbn. now rewrite append_nil_r. Qed.

Lemma extends_Exit {A} (code : Z) : extends_stderr (@os_Exit A code).
Proof. intros w. exists EmptyString. cbn. now rewrite append_nil_r. Qed.

Lemma extends_stdout (s : string) : extends_stderr (write_stdout s).
Proof. intros w. exists EmptyString. cbn. now rewrite append_nil_r. Qed.

Lemma extends_log (e : event) : extends_stderr (log e).
Proof. intros w. exists EmptyString. cbn. now rewrite append_nil_r. Qed.

Lemma extends_write (s : string) : extends_stderr (write_stderr s).
Proof. intros w. exists s. reflexivity. Qed.

Lemma extends_bind {A B} (m : M A) (k : A -> M B) :
  extends_stderr m -> (forall a, extends_stderr (k a)) ->
  extends_stderr (bind m k).
Proof.
  intros Hm Hk w. rewrite bind_eq. destruct (Hm w) as [d Hd].
  destruct (m w) as [[a|st] w1]; cbn [fst snd] in *.
  - destruct (Hk a w1) as [d' Hd']. exists (d +:+ d').
    now rewrite Hd', Hd, append_assoc.
  - now exists d.
Qed.

Ltac extends :=
  repeat first
    [ apply extends_ret | apply extends_Exit | apply extends_stdout
    | apply extends_write | apply extends_log
    | apply extends_bind; [|intros ?]
    | match goal with
      | |- extends_stderr (if ?b then _ else _) => destruct b
      | |- extends_stderr (match ?x with _ => _ end) => destruct x
      end
    | progress cbv zeta
    | progress unfold Printf, Println, Fprintf_Stderr, errPrintf, debug,
        kingpin_Fatalf, kingpin_FatalIfError, kingpin_fatal, kingpin_Errorf,
        orFatal, client_Do_M, ioutil_ReadAll, json_Unmarshal, makeRequest,
        serverDetails, doRequest, shorten, rm, meta ].

Section Trace.
Context {RT : GoRuntime}.
Variable flags : Flags.
Variable env : Env.

Lemma handlers_extend cmd :
  extends_stderr match cmd with
                 | shortenCommand => shorten flags env
                 | rmCommand => rm flags env
                 | metaCommand => meta flags env
                 end.
Proof. destruct cmd; extends. Qed.

(** X24.  With [--debug] the first thing a run writes to
    standard error is the trace of its command, and [debug] hands the
    operand to the format as one slice, not as the operand itself. *)
Theorem debug_trace_first cmd :
  debugFlag flags = true ->
  exists rest,
    stderr (snd (run flags env cmd))
    = Sprintf (trace_format cmd +:+ newline)
        [VSlice [trace_operand flags cmd]] +:+ rest.
Proof.
  intros Hon. pose proof (handlers_extend cmd) as Hext.
  unfold run, main.
  destruct cmd; rewrite bind_eq; unfold debug, errPrintf; rewrite Hon; exec;
    match goal with
    | |- context [stderr (snd (_ ?w))] => destruct (Hext w) as [d Hd]
    end;
    exists d; rewrite Hd; reflexivity.
Qed.

(** X25.  The body of an answer whose status is not 200 is
    never read: the request is the last library call of the run, after
    the calls that load the configuration. *)
Theorem other_status_body_unread cmd req resp :
  In (EvDo req) (calls (snd (run flags env cmd))) ->
  client_Do env req = inr resp ->
  Response_StatusCode resp <> 200%Z ->
  exists pre,
    calls (snd (run flags env cmd)) = pre ++ [EvDo req]
    /\ Forall config_event pre
    /\ ~ In EvReadAll (calls (snd (run flags env cmd))).
Proof.
  intros Hin Hdo Hst.
  destruct (run_exchange flags env cmd req Hin)
    as (pre & tail & _ & _ & Hcalls & Hpre & _ & _ & Htail & _).
  rewrite (Htail resp Hdo Hst) in Hcalls.
  exists pre. repeat split; try assumption.
  rewrite Hcalls. intros Hread. apply in_app_or in Hread as [Hread | Hread].
  - rewrite Forall_forall in Hpre.
    apply list_elem_of_In, Hpre in Hread. exact Hread.
  - destruct Hread as [Hread | []]. discriminate.
Qed.
End Trace.

(* ===================================================================== *)
(** * The further properties on the sample machines *)

Lemma request_shape_witness :
  In (EvDo scenario_request)
     (calls (snd (@run plain_runtime scenario_flags scenario_machine
                    shortenCommand)))
  /\ Request_Method scenario_request = "POST"
  /\ Request_fullUrl scenario_request = "https://s.example/api/shorten"
  /\ Request_Close scenario_request = true.
Proof.
  assert (Hin : In (EvDo scenario_request)
                   (calls (snd (@run plain_runtime scenario_flags
                                  scenario_machine shortenCommand))))
    by (vm_compute; right; right; left; reflexivity).
  destruct (@request_shape plain_runtime scenario_flags scenario_machine
              shortenCommand scenario_request Hin)
    as (conf & _ & Hmethod & _ & _ & Hclose & _).
  repeat split; try assumption; reflexivity.
Defined.


Lemma meta_request_shape_witness :
  In (EvDo meta_request)
     (calls (snd (@run plain_runtime abc_flags meta_machine metaCommand)))
  /\ Request_Method meta_request = "GET"
  /\ Request_Body meta_request = "{}".
Proof.
  assert (Hin : In (EvDo meta_request)
                   (calls (snd (@run plain_runtime abc_flags meta_machine
                                  metaCommand))))
    by (vm_compute; right; left; reflexivity).
  destruct (@meta_request_shape plain_runtime abc_flags meta_machine
              meta_request Hin) as (Hmethod & _ & Hbody).
  repeat split; assumption.
Defined.

Lemma shorten_success_witness :
  In (EvDo scenario_request)
     (calls (snd (@run plain_runtime scenario_flags scenario_machine
                    shortenCommand)))
  /\ client_Do scenario_machine scenario_request = inr scenario_response
  /\ Response_StatusCode scenario_response = 200%Z
  /\ Response_Body scenario_response = inr scenario_reply
  /\ @json_decode plain_runtime _ _ scenario_reply {| ShortenResponse_ShortUrl := EmptyString |}
     = inr {| ShortenResponse_ShortUrl := "https://s.example/abc" |}
  /\ exit_status (@run plain_runtime scenario_flags scenario_machine
                    shortenCommand) = 0%Z.
Proof.
  assert (Hin : In (EvDo scenario_request)
                   (calls (snd (@run plain_runtime scenario_flags
                                  scenario_machine shortenCommand))))
    by (vm_compute; right; right; left; reflexivity).
  assert (Hdec : @json_decode plain_runtime _ _ scenario_reply
                   {| ShortenResponse_ShortUrl := EmptyString |}
                 = inr {| ShortenResponse_ShortUrl := "https://s.example/abc" |})
    by (vm_compute; reflexivity).
  destruct (@shorten_success plain_runtime scenario_flags scenario_machine
              scenario_request scenario_response scenario_reply _
              Hin eq_refl eq_refl eq_refl Hdec) as (_ & Hexit & _).
  repeat split; try assumption; reflexivity.
Defined.

Lemma shorten_unexpected_status_witness :
  In (EvDo scenario_request)
     (calls (snd (@run plain_runtime scenario_flags teapot_machine
                    shortenCommand)))
  /\ client_Do teapot_machine scenario_request = inr teapot_response
  /\ Response_StatusCode teapot_response <> 200%Z
  /\ Response_StatusCode teapot_response <> 409%Z
  /\ stdout (snd (@run plain_runtime scenario_flags teapot_machine
                    shortenCommand)) = EmptyString
  /\ exit_status (@run plain_runtime scenario_flags teapot_machine
                    shortenCommand) = 1%Z.
Proof.
  assert (Hin : In (EvDo scenario_request)
                   (calls (snd (@run plain_runtime scenario_flags
                                  teapot_machine shortenCommand))))
    by (vm_compute; right; right; left; reflexivity).
  assert (H200 : Response_StatusCode teapot_response <> 200%Z) by discriminate.
  assert (H409 : Response_StatusCode teapot_response <> 409%Z) by discriminate.
  destruct (@shorten_unexpected_status plain_runtime scenario_flags
              teapot_machine scenario_request teapot_response
              Hin eq_refl H200 H409) as (Hout & Hexit & _).
  repeat split; try assumption; reflexivity.
Defined.

Lemma rm_unexpected_status_witness :
  In (EvDo delete_request)
     (calls (snd (@run plain_runtime abc_flags teapot_machine rmCommand)))
  /\ client_Do teapot_machine delete_request = inr teapot_response
  /\ Response_StatusCode teapot_response <> 200%Z
  /\ stdout (snd (@run plain_runtime abc_flags teapot_machine rmCommand))
     = EmptyString
  /\ exit_status (@run plain_runtime abc_flags teapot_machine rmCommand)
     = 1%Z.
Proof.
  assert (Hin : In (EvDo delete_request)
                   (calls (snd (@run plain_runtime abc_flags teapot_machine
                                  rmCommand))))
    by (vm_compute; right; right; left; reflexivity).
  assert (H200 : Response_StatusCode teapot_response <> 200%Z) by discriminate.
  destruct (@rm_unexpected_status plain_runtime abc_flags teapot_machine
              delete_request teapot_response Hin eq_refl H200)
    as (Hout & Hexit & _).
  repeat split; try assumption; reflexivity.
Defined.

Lemma meta_unexpected_status_witness :
  In (EvDo configured_meta_request)
     (calls (snd (@run plain_runtime abc_flags teapot_machine metaCommand)))
  /\ client_Do teapot_machine configured_meta_request = inr teapot_response
  /\ Response_StatusCode teapot_response <> 200%Z
  /\ Response_StatusCode teapot_response <> 404%Z
  /\ stdout (snd (@run plain_runtime abc_flags teapot_machine metaCommand))
     = EmptyString
  /\ exit_status (@run plain_runtime abc_flags teapot_machine metaCommand)
     = 1%Z.
Proof.
  assert (Hin : In (EvDo configured_meta_request)
                   (calls (snd (@run plain_runtime abc_flags teapot_machine
                                  metaCommand))))
    by (vm_compute; right; right; left; reflexivity).
  assert (H200 : Response_StatusCode teapot_response <> 200%Z) by discriminate.
  assert (H404 : Response_StatusCode teapot_response <> 404%Z) by discriminate.
  destruct (@meta_unexpected_status plain_runtime abc_flags teapot_machine
              configured_meta_request teapot_response Hin eq_refl H200 H404)
    as (Hout & Hexit & _).
  repeat split; try assumption; reflexivity.
Defined.


Lemma transport_error_is_fatal_witness :
  In (EvDo scenario_request)
     (calls (snd (@run plain_runtime scenario_flags refused_machine
                    shortenCommand)))
  /\ client_Do refused_machine scenario_request = inl ErrRefused
  /\ stdout (snd (@run plain_runtime scenario_flags refused_machine
                    shortenCommand)) = EmptyString
  /\ exit_status (@run plain_runtime scenario_flags refused_machine
                    shortenCommand) = 1%Z.
Proof.
  assert (Hin : In (EvDo scenario_request)
                   (calls (snd (@run plain_runtime scenario_flags
                                  refused_machine shortenCommand))))
    by (vm_compute; right; right; left; reflexivity).
  destruct (@transport_error_is_fatal plain_runtime scenario_flags
              refused_machine shortenCommand scenario_request ErrRefused
              Hin eq_refl) as (Hout & Hexit & _).
  repeat split; try assumption; reflexivity.
Defined.

Lemma unreadable_body_is_fatal_witness :
  In (EvDo delete_request)
     (calls (snd (@run plain_runtime abc_flags broken_machine rmCommand)))
  /\ client_Do broken_machine delete_request = inr broken_response
  /\ Response_StatusCode broken_response = 200%Z
  /\ Response_Body broken_response = inl ErrRefused
  /\ stdout (snd (@run plain_runtime abc_flags broken_machine rmCommand))
     = EmptyString
  /\ exit_status (@run plain_runtime abc_flags broken_machine rmCommand)
     = 1%Z.
Proof.
  assert (Hin : In (EvDo delete_request)
                   (calls (snd (@run plain_runtime abc_flags broken_machine
                                  rmCommand))))
    by (vm_compute; right; right; left; reflexivity).
  destruct (@unreadable_body_is_fatal plain_runtime abc_flags broken_machine
              rmCommand delete_request broken_response ErrRefused
              Hin eq_refl eq_refl eq_refl) as (Hout & Hexit & _).
  repeat split; try assumption; reflexivity.
Defined.

Lemma answer_not_json_is_fatal_witness :
  In (EvDo configured_meta_request)
     (calls (snd (@run plain_runtime abc_flags garbled_machine metaCommand)))
  /\ client_Do garbled_machine configured_meta_request = inr garbled_response
  /\ Response_StatusCode garbled_response = 200%Z
  /\ Response_Body garbled_response = inr "<html>"
  /\ json_parse "<html>" = None
  /\ stdout (snd (@run plain_runtime abc_flags garbled_machine metaCommand))
     = EmptyString
  /\ exit_status (@run plain_runtime abc_flags garbled_machine metaCommand)
     = 1%Z
  /\ stderr (snd (@run plain_runtime abc_flags garbled_machine metaCommand))
     = "pare: error: error parsing response: "
       +:+ "invalid character '<' looking for beginning of value"
       +:+ newline.
Proof.
  assert (Hin : In (EvDo configured_meta_request)
                   (calls (snd (@run plain_runtime abc_flags garbled_machine
                                  metaCommand))))
    by (vm_compute; right; right; left; reflexivity).
  assert (Hparse : json_parse "<html>" = None) by (vm_compute; reflexivity).
  destruct (@answer_not_json_is_fatal plain_runtime abc_flags garbled_machine
              metaCommand configured_meta_request garbled_response "<html>"
              Hin eq_refl eq_refl eq_refl Hparse) as (Hout & Hexit & Herr).
  repeat split; try assumption;
    try (rewrite (Herr eq_refl); vm_compute); reflexivity.
Defined.

Lemma no_home_is_fatal_witness :
  user_Current homeless_machine = inl ErrNoUser
  /\ exit_status (@run plain_runtime scenario_flags homeless_machine
                    shortenCommand) = 1%Z
  /\ calls (snd (@run plain_runtime scenario_flags homeless_machine
                   shortenCommand)) = [].
Proof.
  destruct (@no_home_is_fatal plain_runtime scenario_flags homeless_machine
              shortenCommand ErrNoUser eq_refl) as (Hexit & _ & Hcalls & _).
  repeat split; assumption.
Defined.

Lemma unreadable_config_is_fatal_witness :
  user_Current locked_machine = inr "/home/u"
  /\ ReadFile locked_machine (@config_path plain_runtime "/home/u")
     = inl ErrPermission
  /\ IsNotExist ErrPermission = false
  /\ exit_status (@run plain_runtime abc_flags locked_machine rmCommand)
     = 1%Z
  /\ calls (snd (@run plain_runtime abc_flags locked_machine rmCommand))
     = [EvReadFile (@config_path plain_runtime "/home/u")].
Proof.
  destruct (@unreadable_config_is_fatal plain_runtime abc_flags
              locked_machine rmCommand "/home/u" ErrPermission
              eq_refl eq_refl eq_refl) as (Hexit & _ & Hcalls & _).
  repeat split; assumption.
Defined.

Lemma rejected_request_is_fatal_witness :
  fst (@serverDetails strict_runtime scenario_flags scenario_machine
         World_init) = Ret scenario_config
  /\ @NewRequest_error strict_runtime (method_of shortenCommand)
       (Config_Server scenario_config
        +:+ endpoint_of scenario_flags shortenCommand)
     = Some (errors_New "invalid URL")
  /\ exit_status (@run strict_runtime scenario_flags scenario_machine
                    shortenCommand) = 1%Z
  /\ exchanges (calls (snd (@run strict_runtime scenario_flags
                              scenario_machine shortenCommand))) = [].
Proof.
  assert (Hconf : fst (@serverDetails strict_runtime scenario_flags
                         scenario_machine World_init) = Ret scenario_config)
    by (vm_compute; reflexivity).
  destruct (@rejected_request_is_fatal strict_runtime scenario_flags
              scenario_machine shortenCommand scenario_config
              (errors_New "invalid URL") Hconf eq_refl)
    as (Hexit & _ & Hnone).
  repeat split; try assumption; reflexivity.
Defined.

Lemma success_prints_a_line_witness :
  exit_status (@run plain_runtime abc_flags delete_machine rmCommand) = 0%Z
  /\ exists line,
       stdout (snd (@run plain_runtime abc_flags delete_machine rmCommand))
       = line +:+ newline.
Proof.
  assert (Hexit : exit_status (@run plain_runtime abc_flags delete_machine
                                 rmCommand) = 0%Z)
    by (vm_compute; reflexivity).
  split; [exact Hexit|].
  exact (@success_prints_a_line plain_runtime abc_flags delete_machine
           rmCommand Hexit).
Defined.

Lemma shorten_failure_prints_nothing_witness :
  exit_status (@run plain_runtime scenario_flags conflict_machine
                 shortenCommand) <> 0%Z
  /\ stdout (snd (@run plain_runtime scenario_flags conflict_machine
                    shortenCommand)) = EmptyString.
Proof.
  assert (Hexit : exit_status (@run plain_runtime scenario_flags
                                 conflict_machine shortenCommand) <> 0%Z)
    by (vm_compute; discriminate).
  split; [exact Hexit|].
  exact (@shorten_failure_prints_nothing plain_runtime scenario_flags
           conflict_machine Hexit).
Defined.

Lemma quiet_success_witness :
  debugFlag abc_flags = false
  /\ exit_status (@run plain_runtime abc_flags meta_machine metaCommand)
     = 0%Z
  /\ stderr (snd (@run plain_runtime abc_flags meta_machine metaCommand))
     = EmptyString.
Proof.
  assert (Hexit : exit_status (@run plain_runtime abc_flags meta_machine
                                 metaCommand) = 0%Z)
    by (vm_compute; reflexivity).
  split; [reflexivity|].
  split; [exact Hexit|].
  exact (@quiet_success plain_runtime abc_flags meta_machine metaCommand
           eq_refl Hexit).
Defined.

Lemma rm_exit_exactly_witness :
  In (EvDo delete_request)
     (calls (snd (@run plain_runtime abc_flags delete_machine rmCommand)))
  /\ client_Do delete_machine delete_request = inr delete_response
  /\ Response_StatusCode delete_response = 200%Z
  /\ Response_Body delete_response = inr delete_reply
  /\ @json_decode plain_runtime _ _ delete_reply
       {| DeleteResponse_Code := EmptyString;
          DeleteResponse_Status := EmptyString |}
     = inr {| DeleteResponse_Code := "abc";
              DeleteResponse_Status := "noexist" |}
  /\ exit_status (@run plain_runtime abc_flags delete_machine rmCommand)
     = 0%Z.
Proof.
  assert (Hin : In (EvDo delete_request)
                   (calls (snd (@run plain_runtime abc_flags delete_machine
                                  rmCommand))))
    by (vm_compute; right; right; left; reflexivity).
  assert (Hdec : @json_decode plain_runtime _ _ delete_reply
                   {| DeleteResponse_Code := EmptyString;
                      DeleteResponse_Status := EmptyString |}
                 = inr {| DeleteResponse_Code := "abc";
                          DeleteResponse_Status := "noexist" |})
    by (vm_compute; reflexivity).
  pose proof (@rm_exit_exactly plain_runtime abc_flags delete_machine
                delete_request delete_response delete_reply _
                Hin eq_refl eq_refl eq_refl Hdec) as Hexit.
  repeat split; try assumption; reflexivity.
Defined.

Lemma shorten_missing_short_url_witness :
  In (EvDo scenario_request)
     (calls (snd (@run plain_runtime scenario_flags empty_object_machine
                    shortenCommand)))
  /\ client_Do empty_object_machine scenario_request
     = inr empty_object_response
  /\ Response_StatusCode empty_object_response = 200%Z
  /\ Response_Body empty_object_response = inr "{}"
  /\ json_parse "{}" = Some (JObject [])
  /\ Forall (fun m : string * json => fold_name (fst m) <> "SHORT_URL") []
  /\ stdout (snd (@run plain_runtime scenario_flags empty_object_machine
                    shortenCommand)) = newline
  /\ exit_status (@run plain_runtime scenario_flags empty_object_machine
                    shortenCommand) = 0%Z.
Proof.
  assert (Hin : In (EvDo scenario_request)
                   (calls (snd (@run plain_runtime scenario_flags
                                  empty_object_machine shortenCommand))))
    by (vm_compute; right; right; left; reflexivity).
  assert (Hparse : json_parse "{}" = Some (JObject []))
    by (vm_compute; reflexivity).
  assert (Hnone : Forall (fun m : string * json =>
                            fold_name (fst m) <> "SHORT_URL") [])
    by constructor.
  destruct (@shorten_missing_short_url plain_runtime scenario_flags
              empty_object_machine scenario_request empty_object_response
              "{}" (JObject []) Hin eq_refl eq_refl eq_refl Hparse Hnone)
    as (Hout & Hexit).
  repeat split; try assumption; reflexivity.
Defined.


Lemma debug_trace_first_witness :
  debugFlag verbose_flags = true
  /\ exists rest,
       stderr (snd (@run plain_runtime verbose_flags meta_machine
                      metaCommand))
       = @Sprintf plain_runtime ("meta: %s" +:+ newline)
           [VSlice [VString "abc"]] +:+ rest.
Proof.
  split; [reflexivity|].
  exact (@debug_trace_first plain_runtime verbose_flags meta_machine
           metaCommand eq_refl).
Defined.

Lemma other_status_body_unread_witness :
  In (EvDo scenario_request)
     (calls (snd (@run plain_runtime scenario_flags conflict_machine
                    shortenCommand)))
  /\ client_Do conflict_machine scenario_request = inr conflict_response
  /\ Response_StatusCode conflict_response <> 200%Z
  /\ ~ In EvReadAll
       (calls (snd (@run plain_runtime scenario_flags conflict_machine
                      shortenCommand))).
Proof.
  assert (Hin : In (EvDo scenario_request)
                   (calls (snd (@run plain_runtime scenario_flags
                                  conflict_machine shortenCommand))))
    by (vm_compute; right; right; left; reflexivity).
  assert (H200 : Response_StatusCode conflict_response <> 200%Z)
    by discriminate.
  destruct (@other_status_body_unread plain_runtime scenario_flags
              conflict_machine shortenCommand scenario_request
              conflict_response Hin eq_refl H200) as (pre & _ & _ & Hread).
  repeat split; try assumption; reflexivity.
Defined.
